(** * ZYSE investment platform: ledger and lifecycle engine

    A shallow embedding of the request handlers of [server.js] that move
    money: the balance projection, investment from balance, payment-backed
    investment, withdrawal request and its processing, deposit processing
    and the daily accrual job.

    JavaScript numbers are IEEE 754 binary64 values; amounts are therefore
    modelled by Rocq's primitive floats, whose operations round exactly as
    the JavaScript ones do.  SQL tables are lists of rows in insertion
    order, which is also the order in which a [SELECT] without [ORDER BY]
    yields them; TEXT columns are strings, nullable columns are options. *)

From Stdlib Require Import Floats.Floats.
#[local] Set Warnings "-inexact-float".
From Stdlib Require Import Strings.String Lists.List ZArith.ZArith Bool.Bool Lia.
Import ListNotations.

Local Open Scope string_scope.
Local Open Scope list_scope.
Local Open Scope Z_scope.

(** ** JavaScript numbers and array methods *)

Module JS.

Definition number := float.

(** [x < y] and [x > y] on numbers; both are false on NaN. *)
Definition lt (x y : number) : bool := (x <? y)%float.
Definition gt (x y : number) : bool := (y <? x)%float.
Definition Math_abs : number -> number := PrimFloat.abs.

(** [Array.prototype.reduce] with an initial value, left to right. *)
Definition reduce {A B : Type} (f : B -> A -> B) (init : B) (a : list A) : B :=
  fold_left f a init.

(** A falsy string: [null], [undefined] or the empty string. *)
Definition falsy (s : option string) : bool :=
  match s with
  | None => true
  | Some s => String.eqb s ""
  end.

(** The string behind a value already known to be truthy. *)
Definition str (s : option string) : string :=
  match s with
  | None => ""
  | Some s => s
  end.

(** [a || b] on nullable strings. *)
Definition or (a b : option string) : option string :=
  if falsy a then b else a.

(** Strings are held in UTF-8, as the request body and SQLite hold them.

    White space is what [String.prototype.trim], the validators' [trim()]
    and the regular expression [\s] take for it: U+0009 to U+000D, U+0020,
    U+00A0, U+1680, U+2000 to U+200A, U+2028, U+2029, U+202F, U+205F,
    U+3000 and U+FEFF.  In UTF-8 these are one, two or three bytes. *)
Definition is_space (c : Ascii.ascii) : bool :=
  match Ascii.nat_of_ascii c with
  | 9%nat | 10%nat | 11%nat | 12%nat | 13%nat | 32%nat => true
  | _ => false
  end.

(** U+00A0 is [C2 A0]. *)
Definition is_space2 (c1 c2 : Ascii.ascii) : bool :=
  (Ascii.N_of_ascii c1 =? 194)%N && (Ascii.N_of_ascii c2 =? 160)%N.

(** U+1680 is [E1 9A 80], U+2000 to U+200A are [E2 80 80] to [E2 80 8A],
    U+2028 and U+2029 are [E2 80 A8] and [E2 80 A9], U+202F is [E2 80 AF],
    U+205F is [E2 81 9F], U+3000 is [E3 80 80] and U+FEFF is [EF BB BF]. *)
Definition is_space3 (c1 c2 c3 : Ascii.ascii) : bool :=
  let n1 := Ascii.N_of_ascii c1 in
  let n2 := Ascii.N_of_ascii c2 in
  let n3 := Ascii.N_of_ascii c3 in
  ((n1 =? 225) && (n2 =? 154) && (n3 =? 128))%N
  || ((n1 =? 226) && (n2 =? 128)
      && (((128 <=? n3) && (n3 <=? 138)) || (n3 =? 168) || (n3 =? 169) || (n3 =? 175)))%N
  || ((n1 =? 226) && (n2 =? 129) && (n3 =? 159))%N
  || ((n1 =? 227) && (n2 =? 128) && (n3 =? 128))%N
  || ((n1 =? 239) && (n2 =? 187) && (n3 =? 191))%N.

Section Strip.

(** The white space characters of two and of three bytes, read from the
    end that is being stripped. *)
Variable sp2 : Ascii.ascii -> Ascii.ascii -> bool.
Variable sp3 : Ascii.ascii -> Ascii.ascii -> Ascii.ascii -> bool.

(** The number of bytes of the white space character [s] begins with, and
    0 when it begins with none. *)
Definition leading (s : list Ascii.ascii) : nat :=
  match s with
  | [] => 0
  | c1 :: s1 =>
      if is_space c1 then 1 else
      match s1 with
      | [] => 0
      | c2 :: s2 =>
          if sp2 c1 c2 then 2 else
          match s2 with
          | [] => 0
          | c3 :: _ => if sp3 c1 c2 c3 then 3 else 0
          end
      end
  end%nat.

(** Drop the white space [s] begins with. *)
Fixpoint strip (s : list Ascii.ascii) : list Ascii.ascii :=
  match s with
  | [] => []
  | c1 :: s1 =>
      if is_space c1 then strip s1 else
      match s1 with
      | [] => s
      | c2 :: s2 =>
          if sp2 c1 c2 then strip s2 else
          match s2 with
          | [] => s
          | c3 :: s3 => if sp3 c1 c2 c3 then strip s3 else s
          end
      end
  end.

End Strip.

Definition trimStart (s : list Ascii.ascii) : list Ascii.ascii :=
  strip is_space2 is_space3 s.

Definition trimEnd (s : list Ascii.ascii) : list Ascii.ascii :=
  rev (strip (fun c2 c1 => is_space2 c1 c2) (fun c3 c2 c1 => is_space3 c1 c2 c3) (rev s)).

(** [String.prototype.trim] *)
Definition trim (s : string) : string :=
  string_of_list_ascii (trimEnd (trimStart (list_ascii_of_string s))).

(** [s.length]: the UTF-16 code units of [s].  A character of one, two or
    three bytes is one unit, a character of four bytes is a surrogate
    pair; continuation bytes ([10xxxxxx]) add nothing. *)
Definition units (c : Ascii.ascii) : nat :=
  let n := Ascii.N_of_ascii c in
  if (n <? 128)%N then 1%nat
  else if (n <? 192)%N then 0%nat
  else if (n <? 240)%N then 1%nat
  else 2%nat.

Definition length (s : string) : nat :=
  fold_right (fun c n => (units c + n)%nat) 0%nat (list_ascii_of_string s).

End JS.

Bind Scope float_scope with JS.number.

(** ** Tables of [db.js] *)

Module Tx.
(** A row of [transactions]. *)
Record row : Type := mk {
  user_id : Z;
  type : string;
  amount : JS.number;
  investment_id : option Z
}.
End Tx.

Module Inv.
(** A row of [investments]. *)
Record row : Type := mk {
  id : Z;
  user_id : Z;
  package_id : Z;
  deposit_amount : JS.number;
  start_date : string;
  maturity_date : string;
  total_accruals : JS.number;
  status : string;
  wallet : option string;
  transaction_txt : option string
}.
End Inv.

Module Pkg.
(** A row of [packages]; every seeded package has its [level]. *)
Record row : Type := mk {
  id : Z;
  amount : JS.number;
  daily_rate : JS.number;
  level : string
}.
End Pkg.

Module Usr.
(** A row of [users] (the columns the handlers read or write). *)
Record row : Type := mk {
  id : Z;
  email : option string;
  phone : option string;
  level : option string;
  withdrawal_password : option string;
  withdrawal_wallet : option string;
  withdrawal_phone : option string;
  last_withdrawal_date : option string
}.
End Usr.

Module Wr.
(** A row of [withdrawal_requests]. *)
Record row : Type := mk {
  id : Z;
  user_id : Z;
  investment_id : option Z;
  amount : JS.number;
  gross_amount : JS.number;
  charge : JS.number;
  net_amount : JS.number;
  wallet : string;
  phone : string;
  status : string;
  processed_at : option string;
  processed_by : option Z;
  admin_notes : option string
}.
End Wr.

(** ** The balance projection

    The same computation is written out twice in [server.js]: in the
    handler of [POST /api/invest-from-balance] (lines 688-706) and in the
    standalone branch of [POST /api/withdraw] (lines 1618-1636). *)

Module InvestFromBalance.

Definition totalDeposits (transactions : list Tx.row) : JS.number :=
  JS.reduce (fun sum t => (sum + Tx.amount t)%float) 0%float
    (filter (fun t => (Tx.type t =? "deposit")%string && JS.gt (Tx.amount t) 0%float)
       transactions).

Definition totalWithdrawn (transactions : list Tx.row) : JS.number :=
  JS.reduce (fun sum t => (sum + Tx.amount t)%float) 0%float
    (filter (fun t => (Tx.type t =? "withdrawal")%string) transactions).

Definition allAccrualsAndBonuses (transactions : list Tx.row) : JS.number :=
  JS.reduce (fun sum t => (sum + Tx.amount t)%float) 0%float
    (filter (fun t => (Tx.type t =? "accrual")%string || (Tx.type t =? "bonus")%string)
       transactions).

Definition investmentsFromBalance (transactions : list Tx.row) : JS.number :=
  JS.reduce (fun sum t => (sum + JS.Math_abs (Tx.amount t))%float) 0%float
    (filter (fun t => (Tx.type t =? "investment")%string) transactions).

Definition availableBalance (transactions : list Tx.row) : JS.number :=
  (totalDeposits transactions + allAccrualsAndBonuses transactions
   - totalWithdrawn transactions - investmentsFromBalance transactions)%float.

End InvestFromBalance.

Module Withdraw.

Definition totalDeposits (transactions : list Tx.row) : JS.number :=
  JS.reduce (fun sum t => (sum + Tx.amount t)%float) 0%float
    (filter (fun t => (Tx.type t =? "deposit")%string && JS.gt (Tx.amount t) 0%float)
       transactions).

Definition totalWithdrawn (transactions : list Tx.row) : JS.number :=
  JS.reduce (fun sum t => (sum + Tx.amount t)%float) 0%float
    (filter (fun t => (Tx.type t =? "withdrawal")%string) transactions).

Definition allAccrualsAndBonuses (transactions : list Tx.row) : JS.number :=
  JS.reduce (fun sum t => (sum + Tx.amount t)%float) 0%float
    (filter (fun t => (Tx.type t =? "accrual")%string || (Tx.type t =? "bonus")%string)
       transactions).

Definition investmentsFromBalance (transactions : list Tx.row) : JS.number :=
  JS.reduce (fun sum t => (sum + JS.Math_abs (Tx.amount t))%float) 0%float
    (filter (fun t => (Tx.type t =? "investment")%string) transactions).

Definition availableBalance (transactions : list Tx.row) : JS.number :=
  (totalDeposits transactions + allAccrualsAndBonuses transactions
   - totalWithdrawn transactions - investmentsFromBalance transactions)%float.

End Withdraw.

(** ** The database

    One SQLite file; every helper of [utils/db.js] ([dbGet], [dbQuery],
    [dbRun]) opens a connection, runs one statement and closes it.  The
    [seq_] fields are the AUTOINCREMENT counters of [sqlite_sequence]. *)

Module Db.

Record t : Type := mk {
  users : list Usr.row;
  packages : list Pkg.row;
  investments : list Inv.row;
  transactions : list Tx.row;
  withdrawal_requests : list Wr.row;
  seq_investments : Z;
  seq_withdrawal_requests : Z
}.

Definition with_users (f : list Usr.row -> list Usr.row) (d : t) : t :=
  mk (f (users d)) (packages d) (investments d) (transactions d)
     (withdrawal_requests d) (seq_investments d) (seq_withdrawal_requests d).

Definition with_investments (f : list Inv.row -> list Inv.row) (d : t) : t :=
  mk (users d) (packages d) (f (investments d)) (transactions d)
     (withdrawal_requests d) (seq_investments d) (seq_withdrawal_requests d).

Definition with_transactions (f : list Tx.row -> list Tx.row) (d : t) : t :=
  mk (users d) (packages d) (investments d) (f (transactions d))
     (withdrawal_requests d) (seq_investments d) (seq_withdrawal_requests d).

Definition with_withdrawal_requests (f : list Wr.row -> list Wr.row) (d : t) : t :=
  mk (users d) (packages d) (investments d) (transactions d)
     (f (withdrawal_requests d)) (seq_investments d) (seq_withdrawal_requests d).

(** [UPDATE tbl SET ... WHERE cond]: rewrite the rows that satisfy [cond]. *)
Definition update {A : Type} (cond : A -> bool) (set : A -> A) (rows : list A) : list A :=
  map (fun r => if cond r then set r else r) rows.

(** *** Statements of the handlers *)

(** [SELECT * FROM packages WHERE id = ?] *)
Definition select_package (packageId : Z) (d : t) : option Pkg.row :=
  find (fun p => Pkg.id p =? packageId) (packages d).

(** [getUserById]: [SELECT ... FROM users WHERE id = ?] *)
Definition select_user (userId : Z) (d : t) : option Usr.row :=
  find (fun u => Usr.id u =? userId) (users d).

(** [SELECT i.id, i.package_id, p.level, i.deposit_amount FROM investments i
    JOIN packages p ON i.package_id = p.id
    WHERE i.user_id = ? AND i.status = 'active'], first row. *)
Definition select_active_investment (userId : Z) (d : t)
  : option (Inv.row * Pkg.row) :=
  match
    find (fun i => (Inv.user_id i =? userId) && (Inv.status i =? "active")%string
                   && match select_package (Inv.package_id i) d with
                      | Some _ => true
                      | None => false
                      end)
         (investments d)
  with
  | Some i => match select_package (Inv.package_id i) d with
              | Some p => Some (i, p)
              | None => None
              end
  | None => None
  end.

(** [SELECT type, amount, investment_id FROM transactions WHERE user_id = ?] *)
Definition select_transactions (userId : Z) (d : t) : list Tx.row :=
  filter (fun x => Tx.user_id x =? userId) (transactions d).

(** [SELECT id, deposit_amount, total_accruals FROM investments
    WHERE user_id = ? AND status = 'active'] *)
Definition select_active_investments (userId : Z) (d : t) : list Inv.row :=
  filter (fun i => (Inv.user_id i =? userId) && (Inv.status i =? "active")%string)
         (investments d).

(** [SELECT * FROM investments WHERE id = ?] *)
Definition select_investment (investmentId : Z) (d : t) : option Inv.row :=
  find (fun i => Inv.id i =? investmentId) (investments d).

(** [SELECT * FROM withdrawal_requests WHERE id = ?] *)
Definition select_withdrawal_request (requestId : Z) (d : t) : option Wr.row :=
  find (fun r => Wr.id r =? requestId) (withdrawal_requests d).

(** [INSERT INTO investments ...]; the result is [lastID]. *)
Definition insert_investment (row : Z -> Inv.row) (d : t) : t * Z :=
  let lastID := seq_investments d + 1 in
  (mk (users d) (packages d) (investments d ++ [row lastID]) (transactions d)
      (withdrawal_requests d) lastID (seq_withdrawal_requests d),
   lastID).

(** [INSERT INTO transactions ...] *)
Definition insert_transaction (row : Tx.row) (d : t) : t * unit :=
  (with_transactions (fun rows => rows ++ [row]) d, tt).

(** [INSERT INTO withdrawal_requests ...]; the result is [lastID]. *)
Definition insert_withdrawal_request (row : Z -> Wr.row) (d : t) : t * Z :=
  let lastID := seq_withdrawal_requests d + 1 in
  (mk (users d) (packages d) (investments d) (transactions d)
      (withdrawal_requests d ++ [row lastID]) (seq_investments d) lastID,
   lastID).

(** [UPDATE investments SET status = ? WHERE id = ?] *)
Definition set_investment_status (investmentId : Z) (status : string) (d : t) : t * unit :=
  (with_investments
     (update (fun i => Inv.id i =? investmentId)
        (fun i => Inv.mk (Inv.id i) (Inv.user_id i) (Inv.package_id i)
                    (Inv.deposit_amount i) (Inv.start_date i) (Inv.maturity_date i)
                    (Inv.total_accruals i) status (Inv.wallet i)
                    (Inv.transaction_txt i))) d, tt).

(** [UPDATE investments SET status = 'terminated', maturity_date = date('now')
    WHERE id = ?] *)
Definition terminate_investment (investmentId : Z) (today : string) (d : t) : t * unit :=
  (with_investments
     (update (fun i => Inv.id i =? investmentId)
        (fun i => Inv.mk (Inv.id i) (Inv.user_id i) (Inv.package_id i)
                    (Inv.deposit_amount i) (Inv.start_date i) today
                    (Inv.total_accruals i) "terminated" (Inv.wallet i)
                    (Inv.transaction_txt i))) d, tt).

(** [UPDATE investments SET total_accruals = total_accruals + ? WHERE id = ?] *)
Definition add_total_accruals (investmentId : Z) (x : JS.number) (d : t) : t * unit :=
  (with_investments
     (update (fun i => Inv.id i =? investmentId)
        (fun i => Inv.mk (Inv.id i) (Inv.user_id i) (Inv.package_id i)
                    (Inv.deposit_amount i) (Inv.start_date i) (Inv.maturity_date i)
                    (Inv.total_accruals i + x)%float (Inv.status i) (Inv.wallet i)
                    (Inv.transaction_txt i))) d, tt).

(** [UPDATE users SET level = ? WHERE id = ?] *)
Definition set_user_level (userId : Z) (level : string) (d : t) : t * unit :=
  (with_users
     (update (fun u => Usr.id u =? userId)
        (fun u => Usr.mk (Usr.id u) (Usr.email u) (Usr.phone u) (Some level)
                    (Usr.withdrawal_password u) (Usr.withdrawal_wallet u)
                    (Usr.withdrawal_phone u) (Usr.last_withdrawal_date u))) d, tt).

(** [UPDATE users SET last_withdrawal_date = date("now") WHERE id = ?] *)
Definition set_last_withdrawal_date (userId : Z) (today : string) (d : t) : t * unit :=
  (with_users
     (update (fun u => Usr.id u =? userId)
        (fun u => Usr.mk (Usr.id u) (Usr.email u) (Usr.phone u) (Usr.level u)
                    (Usr.withdrawal_password u) (Usr.withdrawal_wallet u)
                    (Usr.withdrawal_phone u) (Some today))) d, tt).

(** [UPDATE withdrawal_requests
    SET status = ?, processed_at = ?, processed_by = ?, admin_notes = ?
    WHERE id = ?] *)
Definition process_withdrawal_request
    (requestId : Z) (newStatus processedAt : string) (adminId : Z)
    (admin_notes : option string) (d : t) : t * unit :=
  (with_withdrawal_requests
     (update (fun r => Wr.id r =? requestId)
        (fun r => Wr.mk (Wr.id r) (Wr.user_id r) (Wr.investment_id r) (Wr.amount r)
                    (Wr.gross_amount r) (Wr.charge r) (Wr.net_amount r)
                    (Wr.wallet r) (Wr.phone r) newStatus (Some processedAt)
                    (Some adminId) admin_notes)) d, tt).

End Db.

(** ** Asynchronous handlers

    A handler is a sequence of [await]ed database statements.  Each
    statement is atomic; between two of them Node's event loop may run the
    statements of other handlers.  [Await q k] runs the statement [q] and
    continues with [k] on its result. *)

Inductive task (A : Type) : Type :=
| Ret : A -> task A
| Await : forall X : Type, (Db.t -> Db.t * X) -> (X -> task A) -> task A.

Arguments Ret {A} _.
Arguments Await {A X} _ _.

Fixpoint bind {A B : Type} (m : task A) (f : A -> task B) : task B :=
  match m with
  | Ret a => f a
  | Await q k => Await q (fun x => bind (k x) f)
  end.

Declare Scope task_scope.
Delimit Scope task_scope with task.
Notation "x <- m ;; k" := (bind m (fun x => k))
  (at level 61, m at next level, right associativity) : task_scope.
Local Open Scope task_scope.

(** A statement that only reads ([dbGet], [dbQuery]). *)
Definition dbGet {X : Type} (q : Db.t -> X) : task X :=
  Await (fun d => (d, q d)) Ret.
Definition dbQuery {X : Type} (q : Db.t -> X) : task X :=
  Await (fun d => (d, q d)) Ret.
(** A statement that writes ([dbRun]). *)
Definition dbRun {X : Type} (q : Db.t -> Db.t * X) : task X :=
  Await q Ret.

(** A handler run from start to end with no other handler in between. *)
Fixpoint run {A : Type} (h : task A) (d : Db.t) : Db.t * A :=
  match h with
  | Ret a => (d, a)
  | Await q k => let (d', x) := q d in run (k x) d'
  end.

(** One statement of a handler. *)
Definition step {A : Type} (h : task A) (d : Db.t) : Db.t * task A :=
  match h with
  | Ret a => (d, Ret a)
  | Await q k => let (d', x) := q d in (d', k x)
  end.

(** Two handlers in flight; the schedule says whose statement runs next
    ([true]: the first).  When the schedule ends both run to completion,
    the first one first. *)
Fixpoint interleave {A B : Type} (schedule : list bool)
    (h1 : task A) (h2 : task B) (d : Db.t) : Db.t * (A * B) :=
  match schedule with
  | [] => let (d1, a) := run h1 d in
          let (d2, b) := run h2 d1 in (d2, (a, b))
  | true :: rest => let (d', h1') := step h1 d in interleave rest h1' h2 d'
  | false :: rest => let (d', h2') := step h2 d in interleave rest h1 h2' d'
  end.

(** What a handler answers: [res.json(payload)] or
    [res.status(code).json({ error })]. *)
Inductive response (P : Type) : Type :=
| ok : P -> response P
| fail : Z -> string -> response P.

Arguments ok {P} _.
Arguments fail {P} _ _.

Definition is_ok {P : Type} (r : response P) : bool :=
  match r with ok _ => true | fail _ _ => false end.

(** What the handlers take from outside the database. *)
Record env : Type := mk_env {
  (** [new Date().toISOString().split('T')[0]], also SQLite's [date('now')] *)
  today : string;
  (** [new Date().toISOString()] *)
  now : string;
  (** the date 26 days after today *)
  maturityDateStr : string;
  (** [verifyPayment(reference).success] *)
  verifyPayment : string -> bool;
  (** [comparePassword(password, hash)] *)
  comparePassword : string -> string -> bool
}.

(** ** [POST /api/invest]: investment backed by a payment
       ([server.js], lines 547-624) *)

Definition invest (e : env) (userId packageId : Z) (amount : JS.number)
    (paymentReference : string) : task (response Z) :=
  if negb (1 <=? amount)%float || (paymentReference =? "")%string then
    Ret (fail 400 "Invalid input")
  else
  let isMockPayment := String.prefix "MOCK_" paymentReference in
  if negb isMockPayment && negb (verifyPayment e paymentReference) then
    Ret (fail 400 "Payment verification failed")
  else
  packageData <- dbGet (Db.select_package packageId) ;;
  match packageData with
  | None => Ret (fail 404 "Package not found")
  | Some packageData =>
  if JS.gt (JS.Math_abs (amount - Pkg.amount packageData)%float) 0.01%float then
    Ret (fail 400 "Amount does not match package")
  else
  let startDate := today e in
  let wallet := if isMockPayment then Some "mock" else None in
  let transactionTxt := if isMockPayment then Some paymentReference else None in
  lastID <- dbRun (Db.insert_investment (fun id =>
              Inv.mk id userId packageId amount startDate (maturityDateStr e)
                     0%float "active" wallet transactionTxt)) ;;
  _ <- dbRun (Db.insert_transaction (Tx.mk userId "deposit" amount (Some lastID))) ;;
  user <- dbGet (Db.select_user userId) ;;
  match user with
  | None => Ret (fail 500 "Investment creation failed")  (* [user.email] throws *)
  | Some _ => Ret (ok lastID)
  end
  end.

(** ** [POST /api/invest-from-balance]: open or switch a level
       ([server.js], lines 627-796)

    The level numbers the handler parses from [userData.level] and
    [packageData.level] are used nowhere and are left out. *)

Module IfbOk.
Record t : Type := mk {
  investmentId : Z;
  level : string;
  previousLevel : option string;
  amount : JS.number;
  newBalance : JS.number
}.
End IfbOk.

Definition invest_from_balance (e : env) (userId packageId : Z) (amount : JS.number)
    : task (response IfbOk.t) :=
  if negb (1 <=? amount)%float then Ret (fail 400 "Invalid input") else
  packageData <- dbGet (Db.select_package packageId) ;;
  match packageData with
  | None => Ret (fail 404 "Package not found")
  | Some packageData =>
  if JS.gt (JS.Math_abs (amount - Pkg.amount packageData)%float) 0.01%float then
    Ret (fail 400 "Amount does not match package amount")
  else
  userData <- dbGet (Db.select_user userId) ;;
  match userData with
  | None => Ret (fail 500 "Failed to create investment")  (* [userData.level] throws *)
  | Some _ =>
  existingActiveInvestment <- dbGet (Db.select_active_investment userId) ;;
  if match existingActiveInvestment with
     | Some (_, p) => (Pkg.level p =? Pkg.level packageData)%string
     | None => false
     end
  then Ret (fail 400 "Invalid investment")
  else
  transactions <- dbQuery (Db.select_transactions userId) ;;
  investments <- dbQuery (Db.select_active_investments userId) ;;
  let availableBalance := InvestFromBalance.availableBalance transactions in
  if (availableBalance <? amount)%float then Ret (fail 400 "Insufficient balance") else
  previousLevel <-
    match existingActiveInvestment with
    | Some (i, p) =>
        _ <- dbRun (Db.terminate_investment (Inv.id i) (today e)) ;;
        Ret (Some (Pkg.level p))
    | None => Ret None
    end ;;
  let startDate := today e in
  lastID <- dbRun (Db.insert_investment (fun id =>
              Inv.mk id userId packageId amount startDate "9999-12-31"
                     0%float "active" (Some "balance") (Some "BALANCE_INVESTMENT"))) ;;
  _ <- dbRun (Db.insert_transaction
                (Tx.mk userId "investment" (- amount)%float (Some lastID))) ;;
  _ <- dbRun (Db.set_user_level userId (Pkg.level packageData)) ;;
  user <- dbGet (Db.select_user userId) ;;
  Ret (ok (IfbOk.mk lastID (Pkg.level packageData) previousLevel amount
                    (availableBalance - amount)%float))
  end
  end.

(** ** [POST /api/withdraw]: request a withdrawal
       ([server.js], lines 1519-1694) *)

Module WithdrawOk.
Record t : Type := mk {
  request_id : Z;
  gross_amount : JS.number;
  charge : JS.number;
  net_amount : JS.number;
  wallet : string;
  status : string
}.
End WithdrawOk.

(** [if (investmentId)]: absent, [null] and [0] are falsy. *)
Definition given (investmentId : option Z) : option Z :=
  match investmentId with
  | Some i => if i =? 0 then None else Some i
  | None => None
  end.

Definition withdraw (e : env) (userId : Z) (investmentId : option Z)
    (withdrawal_password : string) (amount : JS.number)
    : task (response WithdrawOk.t) :=
  if (withdrawal_password =? "")%string || negb (50 <=? amount)%float then
    Ret (fail 400 "Invalid input")
  else
  user <- dbGet (Db.select_user userId) ;;
  match user with
  | None => Ret (fail 404 "User not found")
  | Some user =>
  if JS.falsy (Usr.withdrawal_password user) then
    Ret (fail 400 "Withdrawal password not set. Please set it in your profile settings.")
  else
  if negb (comparePassword e withdrawal_password
             (JS.str (Usr.withdrawal_password user))) then
    Ret (fail 401 "Invalid withdrawal password")
  else
  if JS.falsy (Usr.withdrawal_wallet user) then
    Ret (fail 400 "Withdrawal wallet not set. Please set it in your profile settings.")
  else
  if match Usr.last_withdrawal_date user with
     | Some date => (date =? today e)%string
     | None => false
     end
  then
    Ret (fail 400 "You can only withdraw once per day. Please try again tomorrow.")
  else
  let withdrawalAmount := amount in
  if JS.lt withdrawalAmount 50 then
    Ret (fail 400 "Minimum withdrawal amount is Zmw50")
  else
  checked <-
    match given investmentId with
    | Some investmentId =>
        investment <- dbGet (fun d =>
          match Db.select_investment investmentId d with
          | Some i => if Inv.user_id i =? userId then Some i else None
          | None => None
          end) ;;
        match investment with
        | None => Ret (Some (fail 404 "Investment not found"))
        | Some investment =>
            if (Inv.status investment =? "withdrawn")%string then
              Ret (Some (fail 400 "Investment already withdrawn"))
            else
            let totalValue :=
              (Inv.deposit_amount investment + Inv.total_accruals investment)%float in
            if JS.gt withdrawalAmount totalValue then
              Ret (Some (fail 400
                "Withdrawal amount (K${withdrawalAmount}) exceeds available balance (K${totalValue.toFixed(2)})"))
            else Ret None
        end
    | None =>
        transactions <- dbQuery (Db.select_transactions userId) ;;
        investments <- dbQuery (Db.select_active_investments userId) ;;
        let availableBalance := Withdraw.availableBalance transactions in
        if JS.gt withdrawalAmount availableBalance then
          Ret (Some (fail 400
            "Withdrawal amount (K${withdrawalAmount}) exceeds available balance (K${availableBalance.toFixed(2)})"))
        else Ret None
    end ;;
  match checked with
  | Some refusal => Ret refusal
  | None =>
  let withdrawalCharge := (withdrawalAmount * 0.12)%float in
  let netAmount := (withdrawalAmount - withdrawalCharge)%float in
  let phoneForWithdrawal := JS.or (Usr.phone user) (Usr.withdrawal_phone user) in
  if JS.falsy phoneForWithdrawal
     || (JS.trim (JS.str phoneForWithdrawal) =? "")%string then
    Ret (fail 400
      "Phone number is required for withdrawal. Please ensure your account has a registered phone number.")
  else
  lastID <- dbRun (Db.insert_withdrawal_request (fun id =>
              Wr.mk id userId (given investmentId) withdrawalAmount withdrawalAmount
                    withdrawalCharge netAmount
                    (JS.str (Usr.withdrawal_wallet user))
                    (JS.trim (JS.str phoneForWithdrawal))
                    "pending" None None None)) ;;
  Ret (ok (WithdrawOk.mk lastID withdrawalAmount withdrawalCharge netAmount
             (JS.str (Usr.withdrawal_wallet user)) "pending"))
  end
  end.

(** ** [PUT /api/admin/withdrawal-requests/:id]: approve or deny
       ([server.js], lines 1966-2051) *)

Definition process_withdrawal_request (e : env) (adminId requestId : Z)
    (action : string) (admin_notes : option string) : task (response string) :=
  if negb ((action =? "approve")%string || (action =? "deny")%string) then
    Ret (fail 400 "Invalid input")
  else
  request <- dbGet (fun d =>
    match Db.select_withdrawal_request requestId d with
    | Some wr => match Db.select_user (Wr.user_id wr) d with
                 | Some _ => Some wr
                 | None => None
                 end
    | None => None
    end) ;;
  match request with
  | None => Ret (fail 404 "Withdrawal request not found")
  | Some request =>
  if negb (Wr.status request =? "pending")%string then
    Ret (fail 400 ("Withdrawal request is already " ++ Wr.status request)%string)
  else
  let newStatus := if (action =? "approve")%string then "paid" else "denied" in
  let processedAt := now e in
  _ <- dbRun (Db.process_withdrawal_request requestId newStatus processedAt adminId
                (if JS.falsy admin_notes then None else admin_notes)) ;;
  _ <- (if (action =? "approve")%string then
          _ <- dbRun (Db.set_last_withdrawal_date (Wr.user_id request) (today e)) ;;
          dbRun (Db.insert_transaction
                   (Tx.mk (Wr.user_id request) "withdrawal" (Wr.net_amount request)
                          (given (Wr.investment_id request))))
        else Ret tt) ;;
  Ret (ok newStatus)
  end.

(** ** [PUT /api/admin/deposits/:id]: approve or deny a deposit
       ([server.js], lines 1872-1940) *)

Definition process_deposit (e : env) (adminId depositId : Z)
    (action : string) (admin_notes : option string) : task (response string) :=
  if negb ((action =? "approve")%string || (action =? "deny")%string) then
    Ret (fail 400 "Invalid input")
  else
  deposit <- dbGet (fun d =>
    match Db.select_investment depositId d with
    | Some i => match Db.select_user (Inv.user_id i) d with
                | Some _ => Some i
                | None => None
                end
    | None => None
    end) ;;
  match deposit with
  | None => Ret (fail 404 "Deposit not found")
  | Some deposit =>
  if negb (Inv.status deposit =? "pending")%string then
    Ret (fail 400 ("Deposit is already " ++ Inv.status deposit)%string)
  else
  _ <- (if (action =? "approve")%string then
          _ <- dbRun (Db.insert_transaction
                        (Tx.mk (Inv.user_id deposit) "deposit"
                               (Inv.deposit_amount deposit) (Some depositId))) ;;
          dbRun (Db.set_investment_status depositId "deposit_completed")
        else
          dbRun (Db.set_investment_status depositId "denied")) ;;
  let newStatus := if (action =? "approve")%string then "deposit_completed" else "denied" in
  Ret (ok newStatus)
  end.

(** ** The daily accrual job ([cron.schedule('0 0 * * *', ...)],
       [server.js], lines 2749-2784) *)

(** [SELECT i.*, p.daily_rate FROM investments i
    JOIN packages p ON i.package_id = p.id WHERE i.status = 'active'] *)
Definition select_active_with_rate (d : Db.t) : list (Inv.row * JS.number) :=
  flat_map (fun i =>
    if (Inv.status i =? "active")%string then
      match Db.select_package (Inv.package_id i) d with
      | Some p => [(i, Pkg.daily_rate p)]
      | None => []
      end
    else []) (Db.investments d).

(** The body of [for (const investment of investments)]. *)
Fixpoint accrue (investments : list (Inv.row * JS.number)) : task unit :=
  match investments with
  | [] => Ret tt
  | (investment, daily_rate) :: rest =>
      let dailyAccrual := (Inv.deposit_amount investment * daily_rate)%float in
      _ <- dbRun (Db.add_total_accruals (Inv.id investment) dailyAccrual) ;;
      _ <- dbRun (Db.insert_transaction
                    (Tx.mk (Inv.user_id investment) "accrual" dailyAccrual
                           (Some (Inv.id investment)))) ;;
      accrue rest
  end.

Definition daily_accrual_job : task nat :=
  investments <- dbQuery select_active_with_rate ;;
  _ <- accrue investments ;;
  Ret (length investments).

(** * Definitions for the statements *)

(** ** The balance projection as a closed form *)

(** Following the specification's words: "the sum of" an amount "over an
    account's LedgerEntries" of some kind.  [sum_over p f ledger] adds
    [f t] for every entry [t] that satisfies [p], in ledger order. *)
Fixpoint sum_from (p : Tx.row -> bool) (f : Tx.row -> JS.number)
    (acc : JS.number) (ledger : list Tx.row) : JS.number :=
  match ledger with
  | [] => acc
  | t :: rest => sum_from p f (if p t then (acc + f t)%float else acc) rest
  end.

Definition sum_over (p : Tx.row -> bool) (f : Tx.row -> JS.number)
    (ledger : list Tx.row) : JS.number :=
  sum_from p f 0%float ledger.

Definition of_kind (userId : Z) (kind : string) (t : Tx.row) : bool :=
  (Tx.user_id t =? userId) && (Tx.type t =? kind)%string.

(** The closed form as the specification states it:
    [sum(deposit) + sum(accrual) + sum(bonus) - sum(withdrawal)
     - sum(|investment debit|)]. *)
Definition closed_form (userId : Z) (ledger : list Tx.row) : JS.number :=
  (sum_over (of_kind userId "deposit") Tx.amount ledger
   + sum_over (of_kind userId "accrual") Tx.amount ledger
   + sum_over (of_kind userId "bonus") Tx.amount ledger
   - sum_over (of_kind userId "withdrawal") Tx.amount ledger
   - sum_over (of_kind userId "investment") (fun t => JS.Math_abs (Tx.amount t)) ledger)%float.

(** The closed form the handlers compute: deposits count only when their
    amount is greater than zero, and accrual and bonus entries are added
    up together, in ledger order. *)
Definition closed_form_of_code (userId : Z) (ledger : list Tx.row) : JS.number :=
  (sum_over (fun t => of_kind userId "deposit" t && JS.gt (Tx.amount t) 0) Tx.amount ledger
   + sum_over (fun t => of_kind userId "accrual" t || of_kind userId "bonus" t)
       Tx.amount ledger
   - sum_over (of_kind userId "withdrawal") Tx.amount ledger
   - sum_over (of_kind userId "investment") (fun t => JS.Math_abs (Tx.amount t)) ledger)%float.

(** ** Investment from balance, run on its own *)

(** The database after the four writes of a successful call. *)
Definition ifb_written (e : env) (userId packageId : Z) (amount : JS.number)
    (level : string) (d : Db.t) : Db.t :=
  let d1 := match Db.select_active_investment userId d with
            | Some (i, _) => fst (Db.terminate_investment (Inv.id i) (today e) d)
            | None => d
            end in
  let d2 := fst (Db.insert_investment (fun id =>
              Inv.mk id userId packageId amount (today e) "9999-12-31"
                     0%float "active" (Some "balance") (Some "BALANCE_INVESTMENT")) d1) in
  let d3 := fst (Db.insert_transaction
              (Tx.mk userId "investment" (- amount)%float
                     (Some (Db.seq_investments d + 1))) d2) in
  fst (Db.set_user_level userId level d3).

(** ** One active slot per account *)

Definition active_slots (userId : Z) (d : Db.t) : nat :=
  length (Db.select_active_investments userId d).

(** At most one active slot for every account. *)
Definition single_active (d : Db.t) : Prop :=
  forall userId, (active_slots userId d <= 1)%nat.

(** Every investment row refers to a package ([FOREIGN KEY (package_id)]). *)
Definition packages_exist (d : Db.t) : Prop :=
  forall i, In i (Db.investments d) -> Db.select_package (Inv.package_id i) d <> None.

Definition is_active_of (userId : Z) (i : Inv.row) : bool :=
  (Inv.user_id i =? userId) && (Inv.status i =? "active")%string.

(** ** Worked example: one account, two levels *)

Module Example.

Definition e0 : env :=
  mk_env "2026-01-01" "2026-01-01T00:00:00.000Z" "2026-01-27"
         (fun _ => true) String.eqb.

Definition alice : Usr.row :=
  Usr.mk 1 None (Some "0977000001") None (Some "secret") (Some "airtel") None None.

Definition L1 : Pkg.row := Pkg.mk 1 200 0.05 "L1".
Definition L2 : Pkg.row := Pkg.mk 2 350 0.06 "L2".

(** Alice has deposited 1000 and holds no level. *)
Definition db0 : Db.t :=
  Db.mk [alice] [L1; L2] [] [Tx.mk 1 "deposit" 1000 None] [] 0 0.

End Example.

(** ** Active slots and their debit entries *)

(** Following the specification's words: "a corresponding negative
    investment-debit ledger entry for that slot exists". *)
Definition has_debit (slot : Inv.row) (ledger : list Tx.row) : bool :=
  existsb (fun t =>
    (Tx.type t =? "investment")%string
    && match Tx.investment_id t with
       | Some id => id =? Inv.id slot
       | None => false
       end
    && (Tx.amount t <? 0)%float) ledger.

(** Every slot is active if and only if it has its debit entry. *)
Definition active_iff_debit (d : Db.t) : bool :=
  forallb (fun slot =>
    Bool.eqb (Inv.status slot =? "active")%string
             (has_debit slot (Db.transactions d))) (Db.investments d).

(** ** The daily accrual job *)

(** The ledger entry the job writes for a row of its snapshot. *)
Definition accrual_entry (x : Inv.row * JS.number) : Tx.row :=
  let (investment, daily_rate) := x in
  Tx.mk (Inv.user_id investment) "accrual"
        (Inv.deposit_amount investment * daily_rate)%float
        (Some (Inv.id investment)).

(** A slot with [x] added to its accumulated accruals. *)
Definition credit (x : JS.number) (i : Inv.row) : Inv.row :=
  Inv.mk (Inv.id i) (Inv.user_id i) (Inv.package_id i) (Inv.deposit_amount i)
         (Inv.start_date i) (Inv.maturity_date i) (Inv.total_accruals i + x)%float
         (Inv.status i) (Inv.wallet i) (Inv.transaction_txt i).

(** What one run does to a slot: an active slot of an existing package is
    credited [deposit_amount * daily_rate], any other slot is left alone. *)
Definition credit_once (d : Db.t) (i : Inv.row) : Inv.row :=
  if (Inv.status i =? "active")%string then
    match Db.select_package (Inv.package_id i) d with
    | Some p => credit (Inv.deposit_amount i * Pkg.daily_rate p)%float i
    | None => i
    end
  else i.

(** The [UPDATE]s of the loop, one per row of the snapshot. *)
Definition credited (snapshot : list (Inv.row * JS.number)) (rows : list Inv.row)
    : list Inv.row :=
  fold_left (fun rows x =>
    Db.update (fun i => Inv.id i =? Inv.id (fst x))
      (credit (Inv.deposit_amount (fst x) * snd x)%float) rows) snapshot rows.

(** The snapshot row of a slot, looked up by id. *)
Definition snapshot_of (snapshot : list (Inv.row * JS.number)) (r : Inv.row)
    : option (Inv.row * JS.number) :=
  find (fun x => Inv.id (fst x) =? Inv.id r) snapshot.

Module AccrualExample.

(** Alice has opened L1 (principal 200, daily rate 0.05). *)
Definition opened : Db.t :=
  fst (run (invest_from_balance Example.e0 1 1 200) Example.db0).
Definition once : Db.t := fst (run daily_accrual_job opened).
Definition twice : Db.t := fst (run daily_accrual_job once).

(** The accrual entries of a slot. *)
Definition accruals_of (slot : Z) (d : Db.t) : list JS.number :=
  map Tx.amount
    (filter (fun t => (Tx.type t =? "accrual")%string
                      && match Tx.investment_id t with
                         | Some id => id =? slot
                         | None => false
                         end) (Db.transactions d)).

End AccrualExample.

(** ** Withdrawal requests *)

(** The row a successful request stores. *)
Definition requested (userId : Z) (investmentId : option Z) (amount : JS.number)
    (user : Usr.row) (id : Z) : Wr.row :=
  Wr.mk id userId (given investmentId) amount amount
        (amount * 0.12)%float (amount - amount * 0.12)%float
        (JS.str (Usr.withdrawal_wallet user))
        (JS.trim (JS.str (JS.or (Usr.phone user) (Usr.withdrawal_phone user))))
        "pending" None None None.

(** ** The withdrawal fee *)

(** Modelled from the spec: [Math.floor] on [0 <= y < 2^51], for [round2]
    below; adding and subtracting [2^52] rounds [y] to an integer. *)
Definition Math_floor (y : JS.number) : JS.number :=
  let r := (y + 4503599627370496 - 4503599627370496)%float in
  if (y <? r)%float then (r - 1)%float else r.

(** Modelled from the spec: [Math.round], for [round2] below. *)
Definition Math_round (y : JS.number) : JS.number := Math_floor (y + 0.5)%float.

(** Modelled from the spec: [round2], rounding an amount to two decimal
    places; [server.js] has no such function.  It is written the way
    JavaScript code rounds money: [Math.round(x * 100) / 100]. *)
Definition round2 (x : JS.number) : JS.number := (Math_round (x * 100) / 100)%float.

(** What processing must not touch: the amounts of a request. *)
Definition amounts (r : Wr.row) : Z * JS.number * JS.number * JS.number :=
  (Wr.id r, Wr.gross_amount r, Wr.charge r, Wr.net_amount r).

(** The database after a request has been marked. *)
Definition marked (e : env) (adminId requestId : Z) (newStatus : string)
    (admin_notes : option string) (d : Db.t) : Db.t :=
  fst (Db.process_withdrawal_request requestId newStatus (now e) adminId
         (if JS.falsy admin_notes then None else admin_notes) d).

(** The database after an approved request has been paid out. *)
Definition paid_out (e : env) (request : Wr.row) (d : Db.t) : Db.t :=
  fst (Db.insert_transaction
         (Tx.mk (Wr.user_id request) "withdrawal" (Wr.net_amount request)
                (given (Wr.investment_id request)))
         (fst (Db.set_last_withdrawal_date (Wr.user_id request) (today e) d))).

Module WithdrawalExample.

(** Alice has asked for 100: charge 12, net amount 88. *)
Definition requested : Db.t :=
  fst (run (withdraw Example.e0 1 None "secret" 100) Example.db0).

(** The operator (user 9) approves request 1. *)
Definition paid : Db.t :=
  fst (run (process_withdrawal_request Example.e0 9 1 "approve" None) requested).

(** The amount of the last ledger entry. *)
Definition last_amount (d : Db.t) : JS.number :=
  match rev (Db.transactions d) with
  | t :: _ => Tx.amount t
  | [] => 0%float
  end.

End WithdrawalExample.

Module DepositExample.

(** Alice's deposit of 300, as [POST /api/recharge] stores it: a pending
    row of [investments] and nothing in the ledger yet. *)
Definition pending : Db.t :=
  Db.mk [Example.alice] [Example.L1; Example.L2]
        [Inv.mk 1 1 1 300 "2026-01-01" "9999-12-31" 0 "pending"
                (Some "airtel") (Some "TXN12345")]
        [] [] 1 0.

Definition approved : Db.t :=
  fst (run (process_deposit Example.e0 9 1 "approve" None) pending).

End DepositExample.

(** * More of the code *)

(** A byte that white space may consist of: an ASCII blank, or a byte of
    a character that is not ASCII. *)
Definition blank (c : Ascii.ascii) : Prop :=
  JS.is_space c = true \/ (Ascii.N_of_ascii c <? 128)%N = false.

(** A string given by its bytes, for text that is not ASCII. *)
Definition utf8 (bytes : list Z) : string :=
  string_of_list_ascii (map (fun b => Ascii.ascii_of_N (Z.to_N b)) bytes).

(** ** Phone numbers ([utils/auth.js], lines 73-130) *)

Module Phone.

(** The characters of a string. *)
Definition chars (s : string) : list Ascii.ascii := list_ascii_of_string s.

(** [\d]: an ASCII digit. *)
Definition is_digit (c : Ascii.ascii) : bool :=
  (48 <=? Ascii.nat_of_ascii c)%nat && (Ascii.nat_of_ascii c <=? 57)%nat.

(** [s.startsWith(prefix)] *)
Fixpoint startsWith (prefix s : list Ascii.ascii) : bool :=
  match prefix, s with
  | [], _ => true
  | p :: prefix', c :: s' => Ascii.eqb p c && startsWith prefix' s'
  | _ :: _, [] => false
  end.

(** [a === b] on values that are strings or [null]. *)
Definition same (a b : option string) : bool :=
  match a, b with
  | Some x, Some y => (x =? y)%string
  | None, None => true
  | _, _ => false
  end.

(** [normalizeZambianPhone] (lines 75-95) *)
Definition normalizeZambianPhone (phone : option string) : option string :=
  if JS.falsy phone then None else
  let digits := filter is_digit (chars (JS.trim (JS.str phone))) in
  let digits := if startsWith (chars "260") digits then skipn 3 digits else digits in
  let digits := if startsWith (chars "0") digits then skipn 1 digits else digits in
  Some (string_of_list_ascii
          (if (9 <=? length digits)%nat
           then skipn (length digits - 9) digits
           else digits)).

(** [getUserByPhone] (lines 98-130) *)
Definition getUserByPhone (phone : option string) : task (option Usr.row) :=
  if JS.falsy phone then Ret None else
  let normalizedInput := normalizeZambianPhone phone in
  if JS.falsy normalizedInput then Ret None else
  allUsers <- dbQuery (fun d =>
    filter (fun u => negb (JS.falsy (Usr.phone u))) (Db.users d)) ;;
  Ret (find (fun u =>
         negb (JS.falsy (Usr.phone u))
         && same (normalizeZambianPhone (Usr.phone u)) normalizedInput) allUsers).

End Phone.

(** A national number: nine digits that begin neither with [0] nor with
    [260]. *)
Definition national (n : string) : Prop :=
  String.length n = 9%nat
  /\ forallb Phone.is_digit (Phone.chars n) = true
  /\ Phone.startsWith (Phone.chars "0") (Phone.chars n) = false
  /\ Phone.startsWith (Phone.chars "260") (Phone.chars n) = false.

(** ** [POST /api/admin/daily-income] and [POST /api/admin/bonus]
       ([server.js], lines 2363-2431 and 2434-2502)

    The two handlers are the same code but for the type of the ledger
    entry, ['accrual'] or ['bonus']. *)

Definition add_to_account (kind : string) (accountId : string) (amount : JS.number)
    : task (response (Z * option string)) :=
  let accountId := JS.trim accountId in
  if (accountId =? "")%string || negb (0.01 <=? amount)%float then
    Ret (fail 400 "Invalid input")
  else
  let normalizedPhone := Phone.normalizeZambianPhone (Some accountId) in
  if JS.falsy normalizedPhone then Ret (fail 400 "Invalid phone number format") else
  user <- Phone.getUserByPhone (Some accountId) ;;
  match user with
  | None => Ret (fail 404 "User with phone number ${accountId} not found")
  | Some user =>
  investments <- dbQuery (Db.select_active_investments (Usr.id user)) ;;
  _ <- match investments with
       | [] =>
           dbRun (Db.insert_transaction (Tx.mk (Usr.id user) kind amount None))
       | investment :: _ =>
           _ <- dbRun (Db.add_total_accruals (Inv.id investment) amount) ;;
           dbRun (Db.insert_transaction
                    (Tx.mk (Usr.id user) kind amount (Some (Inv.id investment))))
       end ;;
  Ret (ok (Usr.id user, Usr.phone user))
  end.

Definition admin_daily_income : string -> JS.number -> task (response (Z * option string)) :=
  add_to_account "accrual".

Definition admin_bonus : string -> JS.number -> task (response (Z * option string)) :=
  add_to_account "bonus".

(** ** [POST /api/admin/daily-income/level] ([server.js], lines 2277-2360) *)

Definition levels : list string :=
  ["L1"; "L2"; "L3"; "L4"; "L5"; "L6"; "L7"; "L8"; "L9"; "L10"].

(** [SELECT id FROM users WHERE level = ?] *)
Definition select_users_at (level : string) (d : Db.t) : list Usr.row :=
  filter (fun u => match Usr.level u with
                   | Some l => (l =? level)%string
                   | None => false
                   end) (Db.users d).

(** The inner loop: one update and one entry per active investment. *)
Fixpoint credit_investments (userId : Z) (amount : JS.number)
    (investments : list Inv.row) : task unit :=
  match investments with
  | [] => Ret tt
  | investment :: rest =>
      _ <- dbRun (Db.add_total_accruals (Inv.id investment) amount) ;;
      _ <- dbRun (Db.insert_transaction
                    (Tx.mk userId "accrual" amount (Some (Inv.id investment)))) ;;
      credit_investments userId amount rest
  end.

(** The outer loop; the result is [successCount]. *)
Fixpoint credit_users (amount : JS.number) (users : list Usr.row)
    (successCount : nat) : task nat :=
  match users with
  | [] => Ret successCount
  | user :: rest =>
      investments <- dbQuery (Db.select_active_investments (Usr.id user)) ;;
      match investments with
      | [] =>
          _ <- dbRun (Db.insert_transaction
                        (Tx.mk (Usr.id user) "accrual" amount None)) ;;
          credit_users amount rest (S successCount)
      | _ :: _ =>
          _ <- credit_investments (Usr.id user) amount investments ;;
          credit_users amount rest (S successCount)
      end
  end.

(** The answer is [(successCount, errorCount, totalUsers)]. *)
Definition admin_daily_income_level (level : string) (amount : JS.number)
    : task (response (nat * nat * nat)) :=
  if negb (existsb (String.eqb level) levels) || negb (0.01 <=? amount)%float then
    Ret (fail 400 "Invalid input")
  else
  users <- dbQuery (select_users_at level) ;;
  match users with
  | [] => Ret (fail 404 "No users found with level ${level}")
  | _ :: _ =>
      successCount <- credit_users amount users 0%nat ;;
      Ret (ok (successCount, 0%nat, length users))
  end.

(** The ids of an account's active investments, in table order. *)
Definition active_ids (userId : Z) (d : Db.t) : list Z :=
  map Inv.id (Db.select_active_investments userId d).

(** What one pass of the level loop writes for one user: an entry for each
    active investment, or one entry without an investment when there is
    none. *)
Definition level_entries_of (amount : JS.number) (d : Db.t) (user : Usr.row)
    : list Tx.row :=
  match active_ids (Usr.id user) d with
  | [] => [Tx.mk (Usr.id user) "accrual" amount None]
  | ids => map (fun id => Tx.mk (Usr.id user) "accrual" amount (Some id)) ids
  end.

Definition level_entries (amount : JS.number) (d : Db.t) (users : list Usr.row)
    : list Tx.row :=
  flat_map (level_entries_of amount d) users.

(** The investments after every id of [ids] was credited once, in order. *)
Definition credit_all (amount : JS.number) (ids : list Z) (rows : list Inv.row)
    : list Inv.row :=
  fold_left (fun rows id => Db.update (fun i => Inv.id i =? id) (credit amount) rows)
            ids rows.

(** ** Deposits by transaction number ([server.js], lines 799-1025) *)

(** [String.prototype.toLowerCase] on ASCII letters. *)
Definition to_lower (c : Ascii.ascii) : Ascii.ascii :=
  let n := Ascii.nat_of_ascii c in
  if (65 <=? n)%nat && (n <=? 90)%nat then Ascii.ascii_of_nat (n + 32) else c.

Definition toLowerCase (s : string) : string :=
  string_of_list_ascii (map to_lower (list_ascii_of_string s)).

(** [SELECT id FROM investments WHERE transaction_txt = ? AND user_id = ?] *)
Definition select_by_transaction_txt (transactionTxt : string) (userId : Z) (d : Db.t)
    : option Inv.row :=
  find (fun i => Phone.same (Inv.transaction_txt i) (Some transactionTxt)
                 && (Inv.user_id i =? userId))
       (Db.investments d).

(** [SELECT id FROM packages ORDER BY id LIMIT 1] *)
Definition first_package (d : Db.t) : option Pkg.row :=
  fold_left (fun best p =>
               match best with
               | None => Some p
               | Some b => if Pkg.id p <? Pkg.id b then Some p else Some b
               end)
            (Db.packages d) None.

(** The wallet a deposit is filed under (lines 902 and 935-942): the one
    sent, trimmed and in lower case, when that is ['airtel'] or ['mtn'],
    and ['airtel'] otherwise. *)
Definition wallet_of (wallet : option string) : string :=
  if negb (JS.falsy wallet) then
    let wallet := toLowerCase (JS.trim (JS.str wallet)) in
    if (wallet =? "airtel")%string || (wallet =? "mtn")%string then wallet else "airtel"
  else "airtel".

(** [POST /api/recharge] (lines 885-1000).  [amount] is the number sent, if
    any ([parseFloat] gives a number back as it is); [transactionTxt] and
    [wallet] are the strings sent, if any.  The answer is
    [(investmentId, amount, transactionTxt)]. *)
Definition recharge (e : env) (userId : Z) (amount : option JS.number)
    (transactionTxt wallet : option string) : task (response (Z * JS.number * string)) :=
  match amount with
  | None => Ret (fail 400 "Amount is required")
  | Some amount =>
  if PrimFloat.is_nan amount || (amount <=? 0)%float then
    Ret (fail 400 "Amount must be a positive number")
  else
  if JS.falsy transactionTxt then Ret (fail 400 "Transaction number is required") else
  let transactionTxt := JS.trim (JS.str transactionTxt) in
  if (JS.length transactionTxt =? 0)%nat then
    Ret (fail 400 "Transaction number cannot be empty")
  else
  if (JS.length transactionTxt <? 5)%nat then
    Ret (fail 400 "Transaction number must be at least 5 characters")
  else
  if (50 <? JS.length transactionTxt)%nat then
    Ret (fail 400 "Transaction number must be 50 characters or less")
  else
  let wallet := wallet_of wallet in
  existingTransaction <- dbGet (select_by_transaction_txt transactionTxt userId) ;;
  match existingTransaction with
  | Some _ => Ret (fail 400 "This transaction has already been used")
  | None =>
  firstPackage <- dbGet first_package ;;
  match firstPackage with
  | None => Ret (fail 500 "No packages available. Please contact admin.")
  | Some firstPackage =>
  let placeholderPackageId := Pkg.id firstPackage in
  let startDate := today e in
  let maturityDateStr := "9999-12-31" in
  lastID <- dbRun (Db.insert_investment (fun id =>
              Inv.mk id userId placeholderPackageId amount startDate maturityDateStr
                     0%float "pending" (Some wallet) (Some transactionTxt))) ;;
  Ret (ok (lastID, amount, transactionTxt))
  end
  end
  end.

(** [verifyTransactionTxt] (lines 1003-1025) *)
Definition verifyTransactionTxt (transactionTxt : string) : bool :=
  if (transactionTxt =? "")%string
     || (JS.length transactionTxt <? 6)%nat
     || (50 <? JS.length transactionTxt)%nat
  then false
  else true.

(** [POST /api/verify-transaction] (lines 799-881) *)
Definition verify_transaction (e : env) (userId packageId : Z) (amount : JS.number)
    (wallet transactionTxt : string) : task (response Z) :=
  if negb (1 <=? amount)%float
     || negb ((wallet =? "airtel")%string || (wallet =? "mtn")%string)
     || (transactionTxt =? "")%string then
    Ret (fail 400 "Invalid input")
  else
  let transactionTxt := JS.trim transactionTxt in
  packageData <- dbGet (Db.select_package packageId) ;;
  match packageData with
  | None => Ret (fail 404 "Package not found")
  | Some packageData =>
  if JS.gt (JS.Math_abs (amount - Pkg.amount packageData)%float) 0.01%float then
    Ret (fail 400 "Amount does not match package")
  else
  existingTransaction <- dbGet (select_by_transaction_txt transactionTxt userId) ;;
  match existingTransaction with
  | Some _ => Ret (fail 400 "This transaction has already been used")
  | None =>
  if negb (verifyTransactionTxt transactionTxt) then
    Ret (fail 400 "Invalid transaction. Please check your transaction TXT number and try again.")
  else
  let startDate := today e in
  lastID <- dbRun (Db.insert_investment (fun id =>
              Inv.mk id userId packageId amount startDate (maturityDateStr e)
                     0%float "active" (Some wallet) (Some transactionTxt))) ;;
  _ <- dbRun (Db.insert_transaction (Tx.mk userId "deposit" amount (Some lastID))) ;;
  user <- dbGet (Db.select_user userId) ;;
  match user with
  | None => Ret (fail 500 "Transaction verification failed")  (* [user.email] throws *)
  | Some _ => Ret (ok lastID)
  end
  end
  end.

(** Every investment id is one the AUTOINCREMENT counter has given out. *)
Definition ids_given (d : Db.t) : Prop :=
  forall i, In i (Db.investments d) -> Inv.id i <= Db.seq_investments d.

(** ** [POST /api/admin/users/:userId/reset-investments]
       ([server.js], lines 2117-2172) *)

(** [investment_id IN (ids)]; a NULL [investment_id] is in no list. *)
Definition linked_to (ids : list Z) (t : Tx.row) : bool :=
  match Tx.investment_id t with
  | Some id => existsb (Z.eqb id) ids
  | None => false
  end.

(** [DELETE FROM transactions WHERE investment_id IN (...)] *)
Definition delete_transactions_of (ids : list Z) (d : Db.t) : Db.t * unit :=
  (Db.with_transactions (filter (fun t => negb (linked_to ids t))) d, tt).

(** [DELETE FROM transactions WHERE user_id = ? AND type = ?] *)
Definition delete_transactions_of_type (userId : Z) (type : string) (d : Db.t)
    : Db.t * unit :=
  (Db.with_transactions
     (filter (fun t => negb ((Tx.user_id t =? userId) && (Tx.type t =? type)%string))) d,
   tt).

(** [DELETE FROM investments WHERE user_id = ?] *)
Definition delete_investments_of (userId : Z) (d : Db.t) : Db.t * unit :=
  (Db.with_investments (filter (fun i => negb (Inv.user_id i =? userId))) d, tt).

(** [SELECT id FROM investments WHERE user_id = ?] *)
Definition select_investments_of (userId : Z) (d : Db.t) : list Inv.row :=
  filter (fun i => Inv.user_id i =? userId) (Db.investments d).

(** The answer is [deletedInvestments]. *)
Definition reset_investments (userId : Z) : task (response nat) :=
  user <- dbGet (Db.select_user userId) ;;
  match user with
  | None => Ret (fail 404 "User not found")
  | Some _ =>
  investments <- dbQuery (select_investments_of userId) ;;
  _ <- (if (0 <? length investments)%nat then
          let investmentIds := map Inv.id investments in
          dbRun (delete_transactions_of investmentIds)
        else Ret tt) ;;
  _ <- dbRun (delete_transactions_of_type userId "investment") ;;
  _ <- dbRun (delete_investments_of userId) ;;
  _ <- dbRun (Db.set_user_level userId "L0") ;;
  Ret (ok (length investments))
  end.

(** ** [seedPackages] ([utils/db.js], lines 558-613), run by [initDB] at
       every start of the server

    [packages.id] is [INTEGER PRIMARY KEY AUTOINCREMENT]: a deleted id is
    never given out again.  The counter of the table is passed in and
    out. *)

(** [{ level, amount, dailyIncome }] *)
Definition seed : list (string * JS.number * JS.number) :=
  [("L1", 200, 6); ("L2", 350, 8); ("L3", 500, 16); ("L4", 1000, 30);
   ("L5", 2000, 60); ("L6", 4000, 130); ("L7", 6000, 180); ("L8", 10000, 340);
   ("L9", 15000, 400); ("L10", 20000, 600)]%float.

(** [INSERT INTO packages (amount, daily_rate, level, daily_income)] *)
Definition insert_package (pkg : string * JS.number * JS.number) (s : Db.t * Z)
    : Db.t * Z :=
  let '(d, seq_packages) := s in
  let '(level, amount, dailyIncome) := pkg in
  let dailyRate := (dailyIncome / amount)%float in
  let id := seq_packages + 1 in
  (Db.mk (Db.users d) (Db.packages d ++ [Pkg.mk id amount dailyRate level])
         (Db.investments d) (Db.transactions d) (Db.withdrawal_requests d)
         (Db.seq_investments d) (Db.seq_withdrawal_requests d),
   id).

Definition seedPackages (seq_packages : Z) (d : Db.t) : Db.t * Z :=
  (* DELETE FROM packages *)
  let cleared :=
    Db.mk (Db.users d) [] (Db.investments d) (Db.transactions d)
          (Db.withdrawal_requests d) (Db.seq_investments d)
          (Db.seq_withdrawal_requests d) in
  fold_left (fun s pkg => insert_package pkg s) seed (cleared, seq_packages).

(** Every investment names a package id the counter has given out. *)
Definition packages_given (seq_packages : Z) (d : Db.t) : Prop :=
  forall i, In i (Db.investments d) -> Inv.package_id i <= seq_packages.

(** ** [PUT /api/admin/investments/:id] ([server.js], lines 2259-2274) *)

Definition update_investment_status (id : Z) (status : string) : task (response unit) :=
  if negb (existsb (String.eqb status) ["active"; "matured"; "withdrawn"]) then
    Ret (fail 400 "Invalid status")
  else
  _ <- dbRun (Db.set_investment_status id status) ;;
  Ret (ok tt).

(** ** Bulk deletes ([server.js], lines 2054-2082 and 2085-2114)

    [ids] is the array of integers the validators let through; the answer
    is the count of the message, [ids.length]. *)

(** [DELETE FROM withdrawal_requests WHERE id IN (...)] *)
Definition delete_withdrawal_requests_in (ids : list Z) (d : Db.t) : Db.t * unit :=
  (Db.with_withdrawal_requests
     (filter (fun r => negb (existsb (Z.eqb (Wr.id r)) ids))) d, tt).

(** [DELETE FROM investments WHERE id IN (...)
    AND transaction_txt IS NOT NULL AND transaction_txt != ''] *)
Definition delete_deposits_in (ids : list Z) (d : Db.t) : Db.t * unit :=
  (Db.with_investments
     (filter (fun i => negb (existsb (Z.eqb (Inv.id i)) ids
                             && negb (JS.falsy (Inv.transaction_txt i))))) d, tt).

Definition delete_withdrawal_requests (ids : list Z) : task (response nat) :=
  if (length ids =? 0)%nat then Ret (fail 400 "No IDs provided") else
  _ <- dbRun (delete_withdrawal_requests_in ids) ;;
  Ret (ok (length ids)).

Definition delete_deposits (ids : list Z) : task (response nat) :=
  if (length ids =? 0)%nat then Ret (fail 400 "No IDs provided") else
  _ <- dbRun (delete_deposits_in ids) ;;
  Ret (ok (length ids)).

(** ** [GET /api/admin/deposits] ([server.js], lines 1840-1869)

    The rows the query selects, a deposit with its account and its
    package, before [ORDER BY] puts the pending ones first. *)
Definition admin_deposits_rows (d : Db.t) : list (Inv.row * Usr.row * Pkg.row) :=
  flat_map (fun i =>
    match Db.select_user (Inv.user_id i) d, Db.select_package (Inv.package_id i) d with
    | Some u, Some p => if negb (JS.falsy (Inv.transaction_txt i)) then [(i, u, p)] else []
    | _, _ => []
    end) (Db.investments d).

(** ** [PUT /api/withdrawal-settings] ([server.js], lines 1406-1455)

    Each field is the string sent or [None] when it is left out;
    [hashPassword] is bcrypt's hash as [utils/auth.js] computes it. *)

(** The length that validator.js's [isLength] compares (13.9 and later):
    [str.length] less the surrogate pairs and less the variation selectors
    U+FE0E and U+FE0F.  In UTF-8 that is one for every character, the
    continuation bytes adding nothing, but none for [EF B8 8E] and
    [EF B8 8F]. *)
Definition is_selector (s : list Ascii.ascii) : bool :=
  match s with
  | c1 :: c2 :: c3 :: _ =>
      ((Ascii.N_of_ascii c1 =? 239) && (Ascii.N_of_ascii c2 =? 184)
       && ((Ascii.N_of_ascii c3 =? 142) || (Ascii.N_of_ascii c3 =? 143)))%N
  | _ => false
  end.

Fixpoint validator_length (s : list Ascii.ascii) : nat :=
  match s with
  | [] => 0%nat
  | c :: s' =>
      ((if ((128 <=? Ascii.N_of_ascii c) && (Ascii.N_of_ascii c <? 192))%N then 0
        else if is_selector s then 0
        else 1)
       + validator_length s')%nat
  end.

(** [isLength({ min })] *)
Definition isLength_min (min : nat) (s : string) : bool :=
  (min <=? validator_length (list_ascii_of_string s))%nat.

(** [/^\+260\d{9}$/] *)
Definition matches_plus260 (s : string) : bool :=
  String.prefix "+260" s
  && (String.length s =? 13)%nat
  && forallb Phone.is_digit (skipn 4 (Phone.chars s)).

(** [phone.replace(/^\+260/, '')] *)
Definition strip_plus260 (phone : string) : string :=
  if String.prefix "+260" phone
  then string_of_list_ascii (skipn 4 (list_ascii_of_string phone))
  else phone.

(** [UPDATE users SET ... WHERE id = ?] with the fields that were sent. *)
Definition set_withdrawal_settings (userId : Z)
    (hashedPassword wallet formattedPhone : option string) (d : Db.t) : Db.t * unit :=
  (Db.with_users
     (Db.update (fun u => Usr.id u =? userId)
        (fun u => Usr.mk (Usr.id u) (Usr.email u) (Usr.phone u) (Usr.level u)
                    (match hashedPassword with
                     | Some h => Some h
                     | None => Usr.withdrawal_password u
                     end)
                    (match wallet with
                     | Some w => Some w
                     | None => Usr.withdrawal_wallet u
                     end)
                    (match formattedPhone with
                     | Some p => Some p
                     | None => Usr.withdrawal_phone u
                     end)
                    (Usr.last_withdrawal_date u))) d, tt).

Definition withdrawal_settings (hashPassword : string -> string) (userId : Z)
    (withdrawal_password withdrawal_wallet withdrawal_phone : option string)
    : task (response unit) :=
  (* the sanitizer [trim()] of the validation chain *)
  let withdrawal_phone := option_map JS.trim withdrawal_phone in
  if match withdrawal_password with
     | Some p => negb (isLength_min 4 p)
     | None => false
     end
     || match withdrawal_wallet with
        | Some w => negb ((w =? "airtel")%string || (w =? "mtn")%string)
        | None => false
        end
     || match withdrawal_phone with
        | Some p => negb (matches_plus260 p)
        | None => false
        end
  then Ret (fail 400 "Invalid input")
  else
  let hashedPassword := option_map hashPassword withdrawal_password in
  let formattedPhone :=
    option_map (fun withdrawal_phone =>
      let phone := JS.trim withdrawal_phone in
      if String.prefix "+260" phone then phone
      else ("+260" ++ strip_plus260 phone)%string) withdrawal_phone in
  match hashedPassword, withdrawal_wallet, formattedPhone with
  | None, None, None => Ret (fail 400 "No fields to update")
  | _, _, _ =>
      _ <- dbRun (set_withdrawal_settings userId hashedPassword withdrawal_wallet
                    formattedPhone) ;;
      Ret (ok tt)
  end.

(** ** The phone number of a registration ([POST /api/register],
       [server.js], line 195 and lines 223-249)

    The part of the handler that takes the phone sent to the phone stored:
    the validation chain of [phone] and the normalisation.  The answer is
    the [normalizedPhone] that the duplicate checks and the INSERT use. *)

(** [/^[0-9]{9,10}$/] *)
Definition matches_digits_9_10 (s : string) : bool :=
  forallb Phone.is_digit (Phone.chars s)
  && (9 <=? String.length s)%nat && (String.length s <=? 10)%nat.

(** [s.replace(/\s+/g, '')] *)
Fixpoint without_spaces (s : list Ascii.ascii) : list Ascii.ascii :=
  match s with
  | [] => []
  | c1 :: s1 =>
      if JS.is_space c1 then without_spaces s1 else
      match s1 with
      | [] => s
      | c2 :: s2 =>
          if JS.is_space2 c1 c2 then without_spaces s2 else
          match s2 with
          | [] => c1 :: without_spaces s1
          | c3 :: s3 =>
              if JS.is_space3 c1 c2 c3 then without_spaces s3
              else c1 :: without_spaces s1
          end
      end
  end.

Definition remove_spaces (s : string) : string :=
  string_of_list_ascii (without_spaces (list_ascii_of_string s)).

Definition register_phone (phone : string) : response string :=
  (* body('phone').trim().notEmpty().matches(/^[0-9]{9,10}$/) *)
  let phone := JS.trim phone in
  if (phone =? "")%string || negb (matches_digits_9_10 phone) then
    fail 400 "Invalid input"
  else
  let normalizedPhone := Phone.normalizeZambianPhone (Some phone) in
  let normalizedPhone :=
    if negb (JS.falsy normalizedPhone)
       && (String.length (JS.str normalizedPhone) =? 9)%nat
    then ("0" ++ JS.str normalizedPhone)%string
    else if negb (JS.falsy normalizedPhone) then JS.str normalizedPhone
    else remove_spaces (JS.trim phone) in
  if (normalizedPhone =? "")%string || (String.length normalizedPhone <? 9)%nat then
    fail 400 "Invalid phone number format"
  else ok normalizedPhone.

(** The rows [seedPackages] inserts when the counter stands at
    [seq_packages]. *)
Fixpoint seeded (seq_packages : Z) (items : list (string * JS.number * JS.number))
    : list Pkg.row :=
  match items with
  | [] => []
  | (level, amount, dailyIncome) :: rest =>
      Pkg.mk (seq_packages + 1) amount (dailyIncome / amount)%float level
      :: seeded (seq_packages + 1) rest
  end.

(** ** [POST /api/paystack/webhook] ([server.js], lines 1028-1085)

    [payment] is what [verifyPayment(data.reference)] answered: the
    metadata [(userId, packageId, amount)] when
    [payment.success && payment.metadata], and [None] otherwise.  Every
    path of the handler answers [{ received: true }]. *)

(** [SELECT id FROM investments
    WHERE user_id = ? AND package_id = ? AND deposit_amount = ?] *)
Definition select_same_investment (userId packageId : Z) (amount : JS.number) (d : Db.t)
    : option Inv.row :=
  find (fun i => (Inv.user_id i =? userId) && (Inv.package_id i =? packageId)
                 && (Inv.deposit_amount i =? amount)%float)
       (Db.investments d).

Definition paystack_webhook (e : env) (event : string)
    (payment : option (Z * Z * JS.number)) : task unit :=
  if (event =? "charge.success")%string then
    match payment with
    | Some (userId, packageId, amount) =>
        existingInvestment <- dbGet (select_same_investment userId packageId amount) ;;
        match existingInvestment with
        | Some _ => Ret tt
        | None =>
            let startDate := today e in
            lastID <- dbRun (Db.insert_investment (fun id =>
                        Inv.mk id userId packageId amount startDate (maturityDateStr e)
                               0%float "active" None None)) ;;
            _ <- dbRun (Db.insert_transaction
                          (Tx.mk userId "deposit" amount (Some lastID))) ;;
            user <- dbGet (Db.select_user userId) ;;
            Ret tt
        end
    | None => Ret tt
    end
  else Ret tt.

(** * Lemmas and theorems *)

(** Statements and projections stay folded while a handler is run. *)
Arguments JS.gt : simpl never.
Arguments JS.lt : simpl never.
Arguments JS.falsy : simpl never.
Arguments JS.or : simpl never.
Arguments JS.trim : simpl never.
Arguments InvestFromBalance.availableBalance : simpl never.
Arguments Withdraw.availableBalance : simpl never.
Arguments Db.select_package : simpl never.
Arguments Db.select_user : simpl never.
Arguments Db.select_active_investment : simpl never.
Arguments Db.select_transactions : simpl never.
Arguments Db.select_active_investments : simpl never.
Arguments Db.select_investment : simpl never.
Arguments Db.select_withdrawal_request : simpl never.
Arguments Db.insert_investment : simpl never.
Arguments Db.insert_transaction : simpl never.
Arguments Db.insert_withdrawal_request : simpl never.
Arguments Db.set_investment_status : simpl never.
Arguments Db.terminate_investment : simpl never.
Arguments Db.add_total_accruals : simpl never.
Arguments Db.set_user_level : simpl never.
Arguments Db.set_last_withdrawal_date : simpl never.
Arguments Db.process_withdrawal_request : simpl never.

(** Two numbers that evaluate to different binary64 values are different. *)
Ltac float_neq :=
  let H := fresh "H" in
  intros H; vm_compute in H;
  match type of H with
  | ?a = _ =>
      apply (f_equal (fun x => PrimFloat.eqb x a)) in H; vm_compute in H;
      discriminate H
  end.

(** ** The balance projection *)

Section Folds.

Variable f : Tx.row -> JS.number.

Lemma sum_from_ext (p q : Tx.row -> bool) :
  (forall t, p t = q t) ->
  forall ledger acc, sum_from p f acc ledger = sum_from q f acc ledger.
Proof.
  intros Hpq; induction ledger as [|t rest IH]; intros acc; simpl.
  - reflexivity.
  - rewrite Hpq; apply IH.
Qed.

(** [filter] then [reduce] is one pass over the ledger. *)
Lemma reduce_filter (p : Tx.row -> bool) :
  forall ledger acc,
    JS.reduce (fun sum t => (sum + f t)%float) acc (filter p ledger)
    = sum_from p f acc ledger.
Proof.
  unfold JS.reduce; induction ledger as [|t rest IH]; intros acc; simpl.
  - reflexivity.
  - destruct (p t); simpl; apply IH.
Qed.

(** The account's rows are selected first, then those of one kind. *)
Lemma reduce_filter_select (userId : Z) (p : Tx.row -> bool) (d : Db.t) :
  JS.reduce (fun sum t => (sum + f t)%float) 0%float
    (filter p (Db.select_transactions userId d))
  = sum_over (fun t => (Tx.user_id t =? userId) && p t) f (Db.transactions d).
Proof.
  unfold Db.select_transactions, sum_over.
  generalize 0%float as acc.
  induction (Db.transactions d) as [|t rest IH]; intros acc; simpl.
  - reflexivity.
  - destruct (Tx.user_id t =? userId); simpl.
    + destruct (p t); simpl; apply IH.
    + apply IH.
Qed.

End Folds.

Lemma invest_balance_closed (userId : Z) (d : Db.t) :
  InvestFromBalance.availableBalance (Db.select_transactions userId d)
  = closed_form_of_code userId (Db.transactions d).
Proof.
  unfold InvestFromBalance.availableBalance, closed_form_of_code.
  unfold InvestFromBalance.totalDeposits, InvestFromBalance.allAccrualsAndBonuses,
    InvestFromBalance.totalWithdrawn, InvestFromBalance.investmentsFromBalance.
  rewrite !reduce_filter_select.
  unfold sum_over.
  rewrite (sum_from_ext Tx.amount
             (fun t => (Tx.user_id t =? userId)
                       && ((Tx.type t =? "deposit")%string && JS.gt (Tx.amount t) 0))
             (fun t => of_kind userId "deposit" t && JS.gt (Tx.amount t) 0))
    by (intros t; unfold of_kind; apply andb_assoc).
  rewrite (sum_from_ext Tx.amount
             (fun t => (Tx.user_id t =? userId)
                       && ((Tx.type t =? "accrual")%string || (Tx.type t =? "bonus")%string))
             (fun t => of_kind userId "accrual" t || of_kind userId "bonus" t))
    by (intros t; unfold of_kind; apply andb_orb_distrib_r).
  reflexivity.
Qed.

(** C10: the fold of the invest-from-balance handler and the fold of the
    withdraw handler give the same balance on every list of transactions,
    component by component: deposits with an amount greater than zero,
    accrual and bonus amounts whatever their sign, withdrawal amounts, and
    absolute values of investment amounts. *)
Theorem availableBalance_equivalent :
  forall transactions : list Tx.row,
    InvestFromBalance.availableBalance transactions
    = Withdraw.availableBalance transactions
    /\ Withdraw.totalDeposits transactions
       = sum_over (fun t => (Tx.type t =? "deposit")%string && JS.gt (Tx.amount t) 0)
           Tx.amount transactions
    /\ Withdraw.allAccrualsAndBonuses transactions
       = sum_over (fun t => (Tx.type t =? "accrual")%string || (Tx.type t =? "bonus")%string)
           Tx.amount transactions
    /\ Withdraw.totalWithdrawn transactions
       = sum_over (fun t => (Tx.type t =? "withdrawal")%string) Tx.amount transactions
    /\ Withdraw.investmentsFromBalance transactions
       = sum_over (fun t => (Tx.type t =? "investment")%string)
           (fun t => JS.Math_abs (Tx.amount t)) transactions.
Proof.
  intros transactions.
  split; [reflexivity|].
  unfold Withdraw.totalDeposits, Withdraw.allAccrualsAndBonuses,
    Withdraw.totalWithdrawn, Withdraw.investmentsFromBalance, sum_over.
  repeat split; apply reduce_filter.
Qed.

(** ** Investment from balance, run on its own *)

Lemma invest_from_balance_ok (e : env) (userId packageId : Z) (amount : JS.number)
    (d d' : Db.t) (r : IfbOk.t) :
  run (invest_from_balance e userId packageId amount) d = (d', ok r) ->
  exists packageData,
    Db.select_package packageId d = Some packageData
    /\ (InvestFromBalance.availableBalance (Db.select_transactions userId d) <? amount)%float
       = false
    /\ d' = ifb_written e userId packageId amount (Pkg.level packageData) d
    /\ IfbOk.investmentId r = Db.seq_investments d + 1
    /\ IfbOk.level r = Pkg.level packageData
    /\ IfbOk.amount r = amount
    /\ IfbOk.newBalance r
       = (InvestFromBalance.availableBalance (Db.select_transactions userId d) - amount)%float.
Proof.
  unfold invest_from_balance, ifb_written.
  destruct (negb (1 <=? amount)%float); [discriminate|].
  cbn.
  destruct (Db.select_package packageId d) as [packageData|]; [|discriminate].
  destruct (JS.gt _ _); [discriminate|].
  cbn.
  destruct (Db.select_user userId d) as [userData|]; [|discriminate].
  cbn.
  destruct (Db.select_active_investment userId d) as [[i p]|].
  - destruct (Pkg.level p =? Pkg.level packageData)%string; [discriminate|].
    cbn.
    destruct (_ <? amount)%float eqn:Hbal; [discriminate|].
    unfold Db.terminate_investment, Db.insert_investment, Db.insert_transaction,
      Db.set_user_level; cbn.
    intros H; inversion H; subst; clear H.
    exists packageData. cbn. repeat split; reflexivity.
  - cbn.
    destruct (_ <? amount)%float eqn:Hbal; [discriminate|].
    unfold Db.insert_investment, Db.insert_transaction, Db.set_user_level; cbn.
    intros H; inversion H; subst; clear H.
    exists packageData. cbn. repeat split; reflexivity.
Qed.

Lemma invest_from_balance_fail (e : env) (userId packageId : Z) (amount : JS.number)
    (d d' : Db.t) (code : Z) (error : string) :
  run (invest_from_balance e userId packageId amount) d = (d', fail code error) ->
  d' = d.
Proof.
  unfold invest_from_balance.
  destruct (negb (1 <=? amount)%float); [cbn; congruence|].
  cbn.
  destruct (Db.select_package packageId d) as [packageData|]; [|cbn; congruence].
  destruct (JS.gt _ _); [cbn; congruence|].
  cbn.
  destruct (Db.select_user userId d) as [userData|]; [|cbn; congruence].
  cbn.
  destruct (Db.select_active_investment userId d) as [[i p]|].
  - destruct (Pkg.level p =? Pkg.level packageData)%string; [cbn; congruence|].
    cbn.
    destruct (_ <? amount)%float; [cbn; congruence|].
    cbn. discriminate.
  - cbn.
    destruct (_ <? amount)%float; [cbn; congruence|].
    cbn. discriminate.
Qed.

(** ** One active slot per account *)

Section Update.

Context {A : Type} (c cond : A -> bool) (set : A -> A).
Hypothesis set_off : forall r, c (set r) = false.

(** Rewriting rows into rows that [c] rejects can only shrink [filter c]. *)
Lemma filter_update_length (rows : list A) :
  (length (filter c (Db.update cond set rows)) <= length (filter c rows))%nat.
Proof.
  induction rows as [|r rows IH]; simpl; [lia|].
  destruct (cond r).
  - rewrite set_off. destruct (c r); simpl; lia.
  - destruct (c r); simpl; lia.
Qed.

(** When every row that [c] accepts is rewritten, none is left. *)
Lemma filter_update_nil (rows : list A) :
  (forall r, In r rows -> c r = true -> cond r = true) ->
  filter c (Db.update cond set rows) = [].
Proof.
  induction rows as [|r rows IH]; simpl; intros Hall; [reflexivity|].
  destruct (cond r) eqn:Hcond.
  - rewrite set_off. apply IH. intros; apply Hall; auto.
  - destruct (c r) eqn:Hc.
    + rewrite (Hall r (or_introl eq_refl) Hc) in Hcond. discriminate.
    + apply IH. intros; apply Hall; auto.
Qed.

End Update.

Lemma filter_at_most_one {A : Type} (c : A -> bool) (rows : list A) (x : A) :
  (length (filter c rows) <= 1)%nat -> In x rows -> c x = true ->
  forall r, In r rows -> c r = true -> r = x.
Proof.
  intros Hlen Hx Hcx r Hr Hcr.
  assert (Hx' : In x (filter c rows)) by (apply filter_In; auto).
  assert (Hr' : In r (filter c rows)) by (apply filter_In; auto).
  destruct (filter c rows) as [|a [|b rest]]; simpl in *.
  - contradiction.
  - destruct Hx' as [<-|[]], Hr' as [<-|[]]. reflexivity.
  - lia.
Qed.

Lemma select_active_investment_some (userId : Z) (d : Db.t) i p :
  Db.select_active_investment userId d = Some (i, p) ->
  In i (Db.investments d) /\ is_active_of userId i = true.
Proof.
  unfold Db.select_active_investment.
  destruct (find _ (Db.investments d)) as [i'|] eqn:Hfind; [|discriminate].
  apply find_some in Hfind. destruct Hfind as [Hin Hc].
  destruct (Db.select_package (Inv.package_id i') d); [|discriminate].
  intros H; inversion H; subst.
  apply andb_prop in Hc. destruct Hc as [Hc _].
  split; assumption.
Qed.

Lemma select_active_investment_none (userId : Z) (d : Db.t) :
  packages_exist d ->
  Db.select_active_investment userId d = None ->
  Db.select_active_investments userId d = [].
Proof.
  unfold Db.select_active_investment, Db.select_active_investments.
  intros Hfk Hnone.
  destruct (find _ (Db.investments d)) as [i'|] eqn:Hfind.
  - apply find_some in Hfind. destruct Hfind as [Hin Hc].
    specialize (Hfk i' Hin).
    destruct (Db.select_package (Inv.package_id i') d); [discriminate|congruence].
  - clear Hnone.
    assert (Hall : forall i, In i (Db.investments d) -> is_active_of userId i = false).
    { intros i Hin. pose proof (find_none _ _ Hfind i Hin) as Hc. simpl in Hc.
      specialize (Hfk i Hin).
      destruct (Db.select_package (Inv.package_id i) d); [|congruence].
      rewrite andb_true_r in Hc. exact Hc. }
    clear Hfind Hfk. revert Hall. generalize (Db.investments d) as rows.
    induction rows as [|i rows IH]; simpl; intros Hall; [reflexivity|].
    fold (is_active_of userId i).
    rewrite (Hall i (or_introl eq_refl)). apply IH.
    intros; apply Hall; right; assumption.
Qed.

(** The slots of an account after the writes of a successful call. *)
Lemma ifb_written_active (e : env) (userId packageId : Z) (amount : JS.number)
    (level : string) (d : Db.t) (u : Z) :
  packages_exist d ->
  (active_slots userId d <= 1)%nat ->
  (active_slots u (ifb_written e userId packageId amount level d)
   <= if (u =? userId)%Z then 1 else active_slots u d)%nat.
Proof.
  intros Hfk Hone.
  unfold active_slots, ifb_written, Db.select_active_investments in *.
  unfold Db.set_user_level, Db.insert_transaction, Db.insert_investment.
  cbn.
  rewrite filter_app, length_app. cbn.
  destruct (Db.select_active_investment userId d) as [[i p]|] eqn:Hsel.
  - apply select_active_investment_some in Hsel. destruct Hsel as [Hin Hact].
    unfold Db.terminate_investment; cbn.
    destruct (Z.eqb_spec u userId) as [->|Hne].
    + rewrite Z.eqb_refl; cbn.
      rewrite (filter_update_nil (is_active_of userId)).
      * cbn; lia.
      * intros r; unfold is_active_of; cbn. apply andb_false_r.
      * intros r Hr Hc.
        rewrite (filter_at_most_one (is_active_of userId) _ i Hone Hin Hact r Hr Hc).
        apply Z.eqb_refl.
    + replace (userId =? u) with false by (symmetry; apply Z.eqb_neq; congruence).
      cbn. rewrite Nat.add_0_r.
      apply (filter_update_length (is_active_of u)).
      intros r; unfold is_active_of; cbn. apply andb_false_r.
  - pose proof (select_active_investment_none userId d Hfk Hsel) as Hnil.
    unfold Db.select_active_investments in Hnil.
    destruct (Z.eqb_spec u userId) as [->|Hne].
    + rewrite Z.eqb_refl, Hnil; cbn; lia.
    + replace (userId =? u) with false by (symmetry; apply Z.eqb_neq; congruence).
      cbn. lia.
Qed.

Lemma select_package_packages (packageId : Z) (d d' : Db.t) :
  Db.packages d' = Db.packages d ->
  Db.select_package packageId d' = Db.select_package packageId d.
Proof. unfold Db.select_package; intros ->; reflexivity. Qed.

Lemma ifb_written_packages (e : env) (userId packageId : Z) (amount : JS.number)
    (level : string) (d : Db.t) :
  Db.packages (ifb_written e userId packageId amount level d) = Db.packages d.
Proof.
  unfold ifb_written, Db.set_user_level, Db.insert_transaction, Db.insert_investment.
  cbn. destruct (Db.select_active_investment userId d) as [[i p]|]; reflexivity.
Qed.

Lemma In_update {A : Type} (cond : A -> bool) (set : A -> A) (rows : list A) (r : A) :
  In r (Db.update cond set rows) ->
  exists r0, In r0 rows /\ (r = r0 \/ r = set r0).
Proof.
  unfold Db.update. rewrite in_map_iff. intros [r0 [Hr Hin]].
  exists r0. split; [assumption|].
  destruct (cond r0); subst; auto.
Qed.

Lemma ifb_written_packages_exist (e : env) (userId packageId : Z) (amount : JS.number)
    (level : string) (d : Db.t) :
  Db.select_package packageId d <> None ->
  packages_exist d ->
  packages_exist (ifb_written e userId packageId amount level d).
Proof.
  intros Hpkg Hfk i Hin.
  rewrite (select_package_packages _ d) by apply ifb_written_packages.
  revert Hin.
  unfold ifb_written, Db.set_user_level, Db.insert_transaction, Db.insert_investment.
  cbn. rewrite in_app_iff. cbn. intros [Hin|[<-|[]]]; [|exact Hpkg].
  destruct (Db.select_active_investment userId d) as [[i0 p0]|].
  - unfold Db.terminate_investment in Hin; cbn in Hin.
    apply In_update in Hin. destruct Hin as [r0 [Hr0 [->| ->]]]; cbn; auto.
  - auto.
Qed.

(** Run on its own, the handler keeps the accounts at one active slot. *)
Lemma invest_from_balance_single_active (e : env) (userId packageId : Z)
    (amount : JS.number) (d : Db.t) :
  packages_exist d -> single_active d ->
  packages_exist (fst (run (invest_from_balance e userId packageId amount) d))
  /\ single_active (fst (run (invest_from_balance e userId packageId amount) d)).
Proof.
  intros Hfk Hone.
  destruct (run (invest_from_balance e userId packageId amount) d) as [d' [r|code error]]
    eqn:Hrun; cbn.
  - apply invest_from_balance_ok in Hrun.
    destruct Hrun as [packageData [Hpkg [_ [-> _]]]].
    split.
    + apply ifb_written_packages_exist; [congruence|assumption].
    + intros u.
      pose proof (ifb_written_active e userId packageId amount
                    (Pkg.level packageData) d u Hfk (Hone userId)) as H.
      destruct (u =? userId); [exact H|].
      specialize (Hone u). lia.
  - apply invest_from_balance_fail in Hrun. subst. split; assumption.
Qed.

Lemma db0_packages_exist : packages_exist Example.db0.
Proof. intros i []. Qed.

Lemma db0_single_active : single_active Example.db0.
Proof. intros u. unfold active_slots, Db.select_active_investments. cbn. lia. Qed.

(** ** Payment-backed investments and calls in flight together *)

(** C2, at the failing input: two payment-backed investments of one account
    ([POST /api/invest] twice, mock payments) both succeed and leave the
    account with two active slots; the handler never looks for, nor
    terminates, a slot that is already active. *)
Theorem invest_twice_two_active :
  let first := run (invest Example.e0 1 1 200 "MOCK_1") Example.db0 in
  let second := run (invest Example.e0 1 2 350 "MOCK_2") (fst first) in
  active_slots 1 Example.db0 = 0%nat
  /\ is_ok (snd first) = true
  /\ is_ok (snd second) = true
  /\ active_slots 1 (fst second) = 2%nat.
Proof. vm_compute. repeat split. Qed.

(** C9 as stated fails: the second call reads the account (five statements)
    before the first call starts, the first call then runs to its end, and
    the second goes on with what it read.  Both succeed and the account
    holds two active slots. *)
Lemma concurrent_switch_counterexample :
  let call := invest_from_balance Example.e0 1 1 200 in
  let after := interleave [false; false; false; false; false] call call Example.db0 in
  is_ok (fst (snd after)) = true
  /\ is_ok (snd (snd after)) = true
  /\ active_slots 1 (fst after) = 2%nat.
Proof. vm_compute. repeat split. Qed.

(** ** Calls one after the other *)

(** After a successful call the account's active slot is the new one. *)
Lemma ifb_written_select_active (e : env) (userId packageId : Z) (amount : JS.number)
    (packageData : Pkg.row) (d : Db.t) :
  packages_exist d ->
  (active_slots userId d <= 1)%nat ->
  Db.select_package packageId d = Some packageData ->
  exists i,
    Db.select_active_investment userId
      (ifb_written e userId packageId amount (Pkg.level packageData) d)
    = Some (i, packageData).
Proof.
  intros Hfk Hone Hpkg.
  set (d1 := ifb_written e userId packageId amount (Pkg.level packageData) d).
  set (new := Inv.mk (Db.seq_investments d + 1) userId packageId amount (today e)
                "9999-12-31" 0%float "active" (Some "balance")
                (Some "BALANCE_INVESTMENT")).
  assert (Hpkg1 : forall id, Db.select_package id d1 = Db.select_package id d)
    by (intros id; apply select_package_packages, ifb_written_packages).
  assert (Hnew : In new (Db.investments d1)).
  { unfold d1, ifb_written, Db.set_user_level, Db.insert_transaction,
      Db.insert_investment. cbn. apply in_or_app. right.
    destruct (Db.select_active_investment userId d) as [[i0 p0]|]; left; reflexivity. }
  assert (Hact : is_active_of userId new = true)
    by (unfold is_active_of; cbn; rewrite Z.eqb_refl; reflexivity).
  assert (Hone1 : (length (filter (is_active_of userId) (Db.investments d1)) <= 1)%nat).
  { pose proof (ifb_written_active e userId packageId amount (Pkg.level packageData)
                  d userId Hfk Hone) as H.
    rewrite Z.eqb_refl in H. exact H. }
  unfold Db.select_active_investment.
  destruct (find _ (Db.investments d1)) as [i|] eqn:Hfind.
  - apply find_some in Hfind. destruct Hfind as [Hin Hc].
    apply andb_prop in Hc. destruct Hc as [Hc _].
    rewrite (filter_at_most_one _ _ new Hone1 Hnew Hact i Hin Hc).
    cbn. rewrite Hpkg1, Hpkg. exists new. reflexivity.
  - pose proof (find_none _ _ Hfind new Hnew) as Hc. cbn in Hc.
    rewrite Hpkg1, Hpkg, Z.eqb_refl in Hc. discriminate.
Qed.

(** C9, as the code has it: two calls for one account run one after the
    other keep every account at one active slot at most, and when both ask
    for the same package the second is refused once the first has
    succeeded. *)
Theorem sequential_switches_single_active :
  forall (e : env) (userId p1 p2 : Z) (a1 a2 : JS.number) (d : Db.t),
    packages_exist d ->
    single_active d ->
    let after := interleave [] (invest_from_balance e userId p1 a1)
                   (invest_from_balance e userId p2 a2) d in
    single_active (fst after)
    /\ (p1 = p2 -> is_ok (fst (snd after)) = true -> is_ok (snd (snd after)) = false).
Proof.
  intros e userId p1 p2 a1 a2 d Hfk Hone. cbn.
  destruct (invest_from_balance_single_active e userId p1 a1 d Hfk Hone) as [Hfk1 Hone1].
  destruct (run (invest_from_balance e userId p1 a1) d) as [d1 r1] eqn:Hrun1.
  cbn in Hfk1, Hone1.
  destruct (invest_from_balance_single_active e userId p2 a2 d1 Hfk1 Hone1) as [_ Hone2].
  destruct (run (invest_from_balance e userId p2 a2) d1) as [d2 r2] eqn:Hrun2.
  cbn in Hone2 |- *. split; [exact Hone2|].
  intros <- Hok1.
  destruct r1 as [ok1|]; [|discriminate]. clear Hok1.
  apply invest_from_balance_ok in Hrun1.
  destruct Hrun1 as [packageData [Hpkg [_ [-> _]]]].
  destruct (ifb_written_select_active e userId p1 a1 packageData d Hfk (Hone userId) Hpkg)
    as [i Hsel].
  revert Hrun2. unfold invest_from_balance.
  destruct (negb (1 <=? a2)%float); [cbn; intros H; inversion H; reflexivity|].
  cbn.
  rewrite (select_package_packages p1 d) by apply ifb_written_packages.
  rewrite Hpkg.
  destruct (JS.gt _ _); [cbn; intros H; inversion H; reflexivity|].
  cbn.
  destruct (Db.select_user userId _); [|cbn; intros H; inversion H; reflexivity].
  cbn. rewrite Hsel, String.eqb_refl.
  cbn; intros H; inversion H; reflexivity.
Qed.

(** The theorem applied to the worked example: two switches to L1, the
    first accepted, the second refused. *)
Lemma sequential_switches_witness :
  let after := interleave [] (invest_from_balance Example.e0 1 1 200)
                 (invest_from_balance Example.e0 1 1 200) Example.db0 in
  single_active (fst after)
  /\ is_ok (fst (snd after)) = true
  /\ is_ok (snd (snd after)) = false.
Proof.
  destruct (sequential_switches_single_active Example.e0 1 1 1 200 200 Example.db0
              db0_packages_exist db0_single_active) as [Hone Hsecond].
  split; [exact Hone|].
  split; [vm_compute; reflexivity|].
  apply Hsecond; [reflexivity|vm_compute; reflexivity].
Defined.

(** ** Active slots and their debit entries *)

(** C8 as stated fails on both sides: a payment-backed investment is an
    active slot whose ledger entry is a deposit, not a debit; and after a
    switch from L1 to L2 the debit entry of the terminated L1 slot is still
    in the ledger. *)
Lemma active_iff_debit_counterexample :
  let paid := fst (run (invest Example.e0 1 1 200 "MOCK_1") Example.db0) in
  let opened := fst (run (invest_from_balance Example.e0 1 1 200) Example.db0) in
  let switched := fst (run (invest_from_balance Example.e0 1 2 350) opened) in
  active_iff_debit Example.db0 = true
  /\ active_iff_debit paid = false
  /\ active_iff_debit opened = true
  /\ active_iff_debit switched = false.
Proof. vm_compute. repeat split. Qed.

(** C8, as the code has it: a call that is refused leaves the database as
    it was, and a call that succeeds has written both the new active slot
    and, last in the ledger, its debit entry of [-amount]. *)
Theorem invest_from_balance_slot_and_debit :
  forall (e : env) (userId packageId : Z) (amount : JS.number) (d : Db.t),
    let (d', r) := run (invest_from_balance e userId packageId amount) d in
    match r with
    | ok r =>
        In (Inv.mk (IfbOk.investmentId r) userId packageId amount (today e)
              "9999-12-31" 0%float "active" (Some "balance")
              (Some "BALANCE_INVESTMENT")) (Db.investments d')
        /\ Db.transactions d'
           = Db.transactions d
             ++ [Tx.mk userId "investment" (- amount)%float (Some (IfbOk.investmentId r))]
        /\ IfbOk.investmentId r = Db.seq_investments d + 1
    | fail _ _ => d' = d
    end.
Proof.
  intros e userId packageId amount d.
  destruct (run (invest_from_balance e userId packageId amount) d) as [d' [r|code error]]
    eqn:Hrun.
  - apply invest_from_balance_ok in Hrun.
    destruct Hrun as [packageData [_ [_ [-> [-> _]]]]].
    unfold ifb_written, Db.set_user_level, Db.insert_transaction, Db.insert_investment.
    cbn.
    destruct (Db.select_active_investment userId d) as [[i p]|]; cbn;
      repeat split; try reflexivity; apply in_or_app; right; left; reflexivity.
  - apply invest_from_balance_fail in Hrun. exact Hrun.
Qed.

(** ** The daily accrual job *)

Lemma run_accrue (snapshot : list (Inv.row * JS.number)) :
  forall d,
    Db.transactions (fst (run (accrue snapshot) d))
    = Db.transactions d ++ map accrual_entry snapshot
    /\ Db.investments (fst (run (accrue snapshot) d))
       = credited snapshot (Db.investments d).
Proof.
  induction snapshot as [|[investment daily_rate] rest IH]; intros d.
  - cbn. rewrite app_nil_r. split; reflexivity.
  - cbn. unfold Db.add_total_accruals, Db.insert_transaction. cbn.
    match goal with |- context [run (accrue rest) ?d1] => specialize (IH d1) end.
    destruct IH as [IHt IHi]. rewrite IHt, IHi. cbn.
    rewrite <- app_assoc. split; reflexivity.
Qed.

Lemma credited_pointwise (snapshot : list (Inv.row * JS.number)) :
  NoDup (map (fun x => Inv.id (fst x)) snapshot) ->
  forall rows,
    credited snapshot rows
    = map (fun r => match snapshot_of snapshot r with
                    | Some x => credit (Inv.deposit_amount (fst x) * snd x)%float r
                    | None => r
                    end) rows.
Proof.
  induction snapshot as [|[i rate] rest IH]; intros Hnodup rows.
  - cbn. symmetry. apply map_id.
  - cbn in Hnodup. inversion Hnodup as [|? ? Hnotin Hrest]; subst.
    cbn. rewrite (IH Hrest). unfold Db.update. rewrite map_map.
    apply map_ext. intros r.
    destruct (Z.eqb_spec (Inv.id r) (Inv.id i)) as [Heq|Hne].
    + replace (Inv.id i =? Inv.id r) with true by (symmetry; apply Z.eqb_eq; congruence).
      assert (Hnone : snapshot_of rest (credit (Inv.deposit_amount i * rate)%float r) = None).
      { unfold snapshot_of. cbn.
        destruct (find _ rest) as [x|] eqn:Hfind; [|reflexivity].
        apply find_some in Hfind. destruct Hfind as [Hin Hid].
        exfalso. apply Hnotin. apply in_map_iff. exists x. split; [|assumption].
        apply Z.eqb_eq in Hid. congruence. }
      rewrite Hnone. reflexivity.
    + replace (Inv.id i =? Inv.id r) with false by (symmetry; apply Z.eqb_neq; congruence).
      reflexivity.
Qed.

Lemma select_active_with_rate_In (d : Db.t) (rows : list Inv.row) (x : Inv.row * JS.number) :
  In x (flat_map (fun i =>
          if (Inv.status i =? "active")%string then
            match Db.select_package (Inv.package_id i) d with
            | Some p => [(i, Pkg.daily_rate p)]
            | None => []
            end
          else []) rows) ->
  In (fst x) rows
  /\ (Inv.status (fst x) =? "active")%string = true
  /\ exists p, Db.select_package (Inv.package_id (fst x)) d = Some p
               /\ snd x = Pkg.daily_rate p.
Proof.
  rewrite in_flat_map. intros [i [Hin Hx]].
  destruct (Inv.status i =? "active")%string eqn:Hact; [|contradiction].
  destruct (Db.select_package (Inv.package_id i) d) as [p|] eqn:Hpkg; [|contradiction].
  destruct Hx as [<-|[]]. cbn. repeat split; try assumption.
  exists p. split; [assumption|reflexivity].
Qed.

Lemma NoDup_ids_unique (rows : list Inv.row) (a b : Inv.row) :
  NoDup (map Inv.id rows) -> In a rows -> In b rows -> Inv.id a = Inv.id b -> a = b.
Proof.
  induction rows as [|r rows IH]; cbn; intros Hnodup Ha Hb Hid; [contradiction|].
  inversion Hnodup as [|? ? Hnotin Hrest]; subst.
  destruct Ha as [->|Ha], Hb as [->|Hb].
  - reflexivity.
  - exfalso. apply Hnotin. rewrite Hid. apply in_map. assumption.
  - exfalso. apply Hnotin. rewrite <- Hid. apply in_map. assumption.
  - apply IH; assumption.
Qed.

Lemma select_active_with_rate_NoDup (d : Db.t) (rows : list Inv.row) :
  NoDup (map Inv.id rows) ->
  NoDup (map (fun x => Inv.id (fst x))
           (flat_map (fun i =>
              if (Inv.status i =? "active")%string then
                match Db.select_package (Inv.package_id i) d with
                | Some p => [(i, Pkg.daily_rate p)]
                | None => []
                end
              else []) rows)).
Proof.
  induction rows as [|r rows IH]; cbn; intros Hnodup; [constructor|].
  inversion Hnodup as [|? ? Hnotin Hrest]; subst.
  rewrite map_app. specialize (IH Hrest).
  assert (Hfresh : ~ In (Inv.id r)
            (map (fun x => Inv.id (fst x))
               (flat_map (fun i =>
                  if (Inv.status i =? "active")%string then
                    match Db.select_package (Inv.package_id i) d with
                    | Some p => [(i, Pkg.daily_rate p)]
                    | None => []
                    end
                  else []) rows))).
  { intros Hin. apply in_map_iff in Hin. destruct Hin as [x [Hid Hx]].
    apply select_active_with_rate_In in Hx. destruct Hx as [Hx _].
    apply Hnotin. rewrite <- Hid. apply in_map. assumption. }
  destruct (Inv.status r =? "active")%string; [|exact IH].
  destruct (Db.select_package (Inv.package_id r) d); [|exact IH].
  cbn. constructor; assumption.
Qed.

Lemma run_bind {A B : Type} (m : task A) (f : A -> task B) :
  forall d, run (bind m f) d = let (d', a) := run m d in run (f a) d'.
Proof.
  induction m as [a|X q k IH]; intros d; cbn.
  - reflexivity.
  - destruct (q d) as [d' x]. apply IH.
Qed.

(** C7, as the code has it: one run of the job appends to the ledger one
    accrual entry of [deposit_amount * daily_rate] for each active slot,
    adds that amount once to the slot's accumulated accruals, and leaves
    the other slots as they were. *)
Theorem daily_accrual_job_once :
  forall d : Db.t,
    NoDup (map Inv.id (Db.investments d)) ->
    let (d', n) := run daily_accrual_job d in
    Db.transactions d'
    = Db.transactions d ++ map accrual_entry (select_active_with_rate d)
    /\ Db.investments d' = map (credit_once d) (Db.investments d)
    /\ n = length (select_active_with_rate d).
Proof.
  intros d Hnodup.
  unfold daily_accrual_job, dbQuery. cbn.
  rewrite run_bind.
  destruct (run_accrue (select_active_with_rate d) d) as [Ht Hi].
  destruct (run (accrue (select_active_with_rate d)) d) as [d' []].
  cbn in Ht, Hi |- *.
  split; [exact Ht|]. split; [|reflexivity].
  rewrite Hi.
  rewrite credited_pointwise
    by (apply select_active_with_rate_NoDup; assumption).
  apply map_ext_in. intros r Hr.
  unfold snapshot_of, credit_once.
  destruct (find _ (select_active_with_rate d)) as [x|] eqn:Hfind.
  - apply find_some in Hfind. destruct Hfind as [Hx Hid].
    apply select_active_with_rate_In in Hx.
    destruct Hx as [Hin [Hact [p [Hpkg Hrate]]]].
    apply Z.eqb_eq in Hid.
    pose proof (NoDup_ids_unique _ _ _ Hnodup Hin Hr Hid) as Heq.
    rewrite Heq in *. rewrite Hact, Hpkg, Hrate. reflexivity.
  - destruct (Inv.status r =? "active")%string eqn:Hact; [|reflexivity].
    destruct (Db.select_package (Inv.package_id r) d) as [p|] eqn:Hpkg; [|reflexivity].
    exfalso.
    assert (Hx : In (r, Pkg.daily_rate p) (select_active_with_rate d)).
    { unfold select_active_with_rate. apply in_flat_map. exists r.
      split; [assumption|]. rewrite Hact, Hpkg. left. reflexivity. }
    pose proof (find_none _ _ Hfind _ Hx) as Hno. cbn in Hno.
    rewrite Z.eqb_refl in Hno. discriminate.
Qed.

(** The theorem applied to Alice's open L1 slot: one entry of 10, and 10 on
    the slot's counter. *)
Lemma daily_accrual_job_once_witness :
  Db.transactions AccrualExample.once
  = Db.transactions AccrualExample.opened ++ [Tx.mk 1 "accrual" 10 (Some 1)]
  /\ map Inv.total_accruals (Db.investments AccrualExample.once) = [10%float].
Proof.
  assert (Hnodup : NoDup (map Inv.id (Db.investments AccrualExample.opened))).
  { vm_compute. constructor; [intros []|constructor]. }
  pose proof (daily_accrual_job_once AccrualExample.opened Hnodup) as H.
  unfold AccrualExample.once.
  destruct (run daily_accrual_job AccrualExample.opened) as [d' n].
  destruct H as [Ht [Hi _]]. cbn [fst].
  rewrite Ht, Hi. vm_compute. split; reflexivity.
Defined.

(** C7 as stated fails: the job keeps no record of the period it has
    processed, so a second run credits Alice's slot a second time. *)
Lemma accrual_job_counterexample :
  AccrualExample.accruals_of 1 AccrualExample.once = [10%float]
  /\ map Inv.total_accruals (Db.investments AccrualExample.once) = [10%float]
  /\ AccrualExample.accruals_of 1 AccrualExample.twice = [10%float; 10%float]
  /\ map Inv.total_accruals (Db.investments AccrualExample.twice) = [20%float]
  /\ AccrualExample.twice <> AccrualExample.once.
Proof.
  repeat split; try (vm_compute; reflexivity).
  intros H.
  apply (f_equal (fun d => length (Db.transactions d))) in H.
  vm_compute in H. discriminate H.
Qed.

(** ** Comparisons of numbers *)

Lemma SFcompare_swap (x y : SpecFloat.spec_float) :
  SpecFloat.SFcompare y x = option_map CompOpp (SpecFloat.SFcompare x y).
Proof.
  destruct x as [sx|sx| |sx mx ex], y as [sy|sy| |sy my ey]; cbn;
    try reflexivity;
    try (destruct sx; reflexivity); try (destruct sy; reflexivity);
    try (destruct sx, sy; reflexivity).
  destruct sx, sy; cbn; try reflexivity.
  - rewrite (Z.compare_antisym ex ey).
    destruct (ex ?= ey) eqn:He; cbn; try reflexivity.
    rewrite (Pos.compare_cont_antisym mx my Eq). reflexivity.
  - rewrite (Z.compare_antisym ex ey).
    destruct (ex ?= ey) eqn:He; cbn; try reflexivity.
    rewrite (Pos.compare_cont_antisym mx my Eq). reflexivity.
Qed.

(** [x < y] rules out [y <= x]. *)
Lemma ltb_not_leb (x y : float) : (x <? y)%float = true -> (y <=? x)%float = false.
Proof.
  rewrite ltb_spec, leb_spec. unfold SpecFloat.SFltb, SpecFloat.SFleb.
  rewrite (SFcompare_swap (Prim2SF x) (Prim2SF y)).
  destruct (SpecFloat.SFcompare (Prim2SF x) (Prim2SF y)) as [[]|]; cbn;
    intros H; try discriminate H; reflexivity.
Qed.

(** ** Withdrawal requests *)

Lemma withdraw_ok (e : env) (userId : Z) (investmentId : option Z)
    (password : string) (amount : JS.number) (d d' : Db.t) (w : WithdrawOk.t) :
  run (withdraw e userId investmentId password amount) d = (d', ok w) ->
  exists user,
    Db.select_user userId d = Some user
    /\ (50 <=? amount)%float = true
    /\ JS.falsy (Usr.withdrawal_wallet user) = false
    /\ match Usr.last_withdrawal_date user with
       | Some date => (date =? today e)%string
       | None => false
       end = false
    /\ JS.lt amount 50 = false
    /\ (given investmentId = None ->
        JS.gt amount (Withdraw.availableBalance (Db.select_transactions userId d)) = false)
    /\ d' = fst (Db.insert_withdrawal_request (requested userId investmentId amount user) d)
    /\ w = WithdrawOk.mk (Db.seq_withdrawal_requests d + 1) amount
             (amount * 0.12)%float (amount - amount * 0.12)%float
             (JS.str (Usr.withdrawal_wallet user)) "pending".
Proof.
  unfold withdraw.
  destruct (password =? "")%string; [discriminate|].
  destruct (50 <=? amount)%float eqn:Hvalid; [|discriminate].
  cbn.
  destruct (Db.select_user userId d) as [user|] eqn:Huser; [|discriminate].
  destruct (JS.falsy (Usr.withdrawal_password user)); [discriminate|].
  destruct (comparePassword e password _); [|discriminate].
  cbn.
  destruct (JS.falsy (Usr.withdrawal_wallet user)) eqn:Hwallet; [discriminate|].
  destruct (match Usr.last_withdrawal_date user with
            | Some date => (date =? today e)%string
            | None => false
            end) eqn:Hdate; [discriminate|].
  destruct (JS.lt amount 50) eqn:Hmin; [discriminate|].
  destruct (given investmentId) as [id|] eqn:Hgiven.
  - cbn.
    destruct (match Db.select_investment id d with
              | Some i => if Inv.user_id i =? userId then Some i else None
              | None => None
              end) as [investment|]; [|discriminate].
    destruct (Inv.status investment =? "withdrawn")%string; [discriminate|].
    destruct (JS.gt amount _); [discriminate|].
    cbn.
    destruct (JS.falsy _ || _); [discriminate|].
    unfold Db.insert_withdrawal_request; cbn.
    intros H; inversion H; subst; clear H.
    exists user. unfold requested. rewrite Hgiven.
    repeat split; try reflexivity; try assumption. discriminate.
  - cbn.
    destruct (JS.gt amount _) eqn:Hbal; [discriminate|].
    cbn.
    destruct (JS.falsy _ || _); [discriminate|].
    unfold Db.insert_withdrawal_request; cbn.
    intros H; inversion H; subst; clear H.
    exists user. unfold requested. rewrite Hgiven.
    repeat split; try reflexivity; assumption.
Qed.

Lemma withdraw_fail (e : env) (userId : Z) (investmentId : option Z)
    (password : string) (amount : JS.number) (d d' : Db.t) (code : Z) (error : string) :
  run (withdraw e userId investmentId password amount) d = (d', fail code error) ->
  d' = d.
Proof.
  unfold withdraw.
  destruct (_ || _); [cbn; congruence|].
  cbn.
  destruct (Db.select_user userId d) as [user|]; [|cbn; congruence].
  destruct (JS.falsy (Usr.withdrawal_password user)); [cbn; congruence|].
  destruct (negb _); [cbn; congruence|].
  destruct (JS.falsy (Usr.withdrawal_wallet user)); [cbn; congruence|].
  destruct (match Usr.last_withdrawal_date user with
            | Some date => (date =? today e)%string
            | None => false
            end); [cbn; congruence|].
  destruct (JS.lt amount 50); [cbn; congruence|].
  destruct (given investmentId) as [id|].
  - cbn.
    destruct (match Db.select_investment id d with
              | Some i => if Inv.user_id i =? userId then Some i else None
              | None => None
              end) as [investment|]; [|cbn; congruence].
    destruct (Inv.status investment =? "withdrawn")%string; [cbn; congruence|].
    destruct (JS.gt amount _); [cbn; congruence|].
    cbn.
    destruct (JS.falsy _ || _); [cbn; congruence|].
    unfold Db.insert_withdrawal_request; cbn. discriminate.
  - cbn.
    destruct (JS.gt amount _); [cbn; congruence|].
    cbn.
    destruct (JS.falsy _ || _); [cbn; congruence|].
    unfold Db.insert_withdrawal_request; cbn. discriminate.
Qed.

(** ** The balance the handlers use *)

(** C1, as the code has it: for every account the balance both handlers
    compute from the account's rows is the closed form over the ledger in
    which only deposits with an amount greater than zero count, accrual
    and bonus amounts are added up together in ledger order, withdrawal
    amounts are subtracted and absolute values of investment amounts are
    subtracted.  It is the balance the two sufficiency checks use: an
    accepted investment from balance answers it minus the amount, and an
    accepted standalone withdrawal does not exceed it. *)
Theorem projected_balance_closed_form :
  forall (userId : Z) (d : Db.t),
    InvestFromBalance.availableBalance (Db.select_transactions userId d)
    = closed_form_of_code userId (Db.transactions d)
    /\ Withdraw.availableBalance (Db.select_transactions userId d)
       = closed_form_of_code userId (Db.transactions d)
    /\ (forall (e : env) (packageId : Z) (amount : JS.number),
          match snd (run (invest_from_balance e userId packageId amount) d) with
          | ok r =>
              (closed_form_of_code userId (Db.transactions d) <? amount)%float = false
              /\ IfbOk.newBalance r
                 = (closed_form_of_code userId (Db.transactions d) - amount)%float
          | fail _ _ => True
          end)
    /\ (forall (e : env) (password : string) (amount : JS.number),
          match snd (run (withdraw e userId None password amount) d) with
          | ok _ => JS.gt amount (closed_form_of_code userId (Db.transactions d)) = false
          | fail _ _ => True
          end).
Proof.
  intros userId d.
  assert (Hwithdraw : Withdraw.availableBalance (Db.select_transactions userId d)
                      = closed_form_of_code userId (Db.transactions d)).
  { change (Withdraw.availableBalance (Db.select_transactions userId d))
      with (InvestFromBalance.availableBalance (Db.select_transactions userId d)).
    apply invest_balance_closed. }
  split; [apply invest_balance_closed|]. split; [exact Hwithdraw|]. split.
  - intros e packageId amount.
    destruct (run (invest_from_balance e userId packageId amount) d)
      as [d' [r|code error]] eqn:Hrun; cbn [snd]; [|exact I].
    apply invest_from_balance_ok in Hrun.
    destruct Hrun as [packageData [_ [Hbal [_ [_ [_ [_ Hnew]]]]]]].
    rewrite invest_balance_closed in Hbal, Hnew. split; assumption.
  - intros e password amount.
    destruct (run (withdraw e userId None password amount) d)
      as [d' [w|code error]] eqn:Hrun; cbn [snd]; [|exact I].
    apply withdraw_ok in Hrun.
    destruct Hrun as [user [_ [_ [_ [_ [_ [Hbal _]]]]]]].
    rewrite <- Hwithdraw. apply Hbal. reflexivity.
Qed.

(** C1 as stated fails: a deposit row with a negative amount is left out by
    the handlers, and accrual and bonus rows share one running sum, which
    in binary64 differs from the sum of two separate sums. *)
Lemma closed_form_counterexample :
  let refund := [Tx.mk 1 "deposit" (-5) None] in
  let income := [Tx.mk 1 "accrual" 0.1 (Some 1); Tx.mk 1 "bonus" 0.2 None;
                 Tx.mk 1 "accrual" 10 (Some 1)] in
  InvestFromBalance.availableBalance refund <> closed_form 1 refund
  /\ Withdraw.availableBalance refund <> closed_form 1 refund
  /\ InvestFromBalance.availableBalance income <> closed_form 1 income.
Proof.
  repeat split; float_neq.
Qed.

(** ** Requests refused and accepted *)

Lemma withdraw_below_minimum (e : env) (userId : Z) (investmentId : option Z)
    (password : string) (amount : JS.number) (d : Db.t) :
  (amount <? 50)%float = true ->
  run (withdraw e userId investmentId password amount) d = (d, fail 400 "Invalid input").
Proof.
  intros Hlow. unfold withdraw.
  rewrite (ltb_not_leb _ _ Hlow), orb_true_r. reflexivity.
Qed.

Lemma select_transactions_same (userId : Z) (d d' : Db.t) :
  Db.transactions d' = Db.transactions d ->
  Db.select_transactions userId d' = Db.select_transactions userId d.
Proof. unfold Db.select_transactions; intros ->; reflexivity. Qed.

(** An accepted request that names an investment has passed the checks
    on that investment, and no other. *)
Lemma withdraw_ok_investment (e : env) (userId : Z) (investmentId : option Z)
    (password : string) (amount : JS.number) (d d' : Db.t) (w : WithdrawOk.t) (id : Z) :
  run (withdraw e userId investmentId password amount) d = (d', ok w) ->
  given investmentId = Some id ->
  exists investment,
    Db.select_investment id d = Some investment
    /\ Inv.user_id investment = userId
    /\ Inv.status investment <> "withdrawn"
    /\ JS.gt amount (Inv.deposit_amount investment + Inv.total_accruals investment)%float
       = false.
Proof.
  unfold withdraw. intros Hrun Hgiven. revert Hrun.
  destruct (password =? "")%string; [discriminate|].
  destruct (50 <=? amount)%float; [|discriminate].
  cbn.
  destruct (Db.select_user userId d) as [user|]; [|discriminate].
  destruct (JS.falsy (Usr.withdrawal_password user)); [discriminate|].
  destruct (comparePassword e password _); [|discriminate].
  cbn.
  destruct (JS.falsy (Usr.withdrawal_wallet user)); [discriminate|].
  destruct (match Usr.last_withdrawal_date user with
            | Some date => (date =? today e)%string
            | None => false
            end); [discriminate|].
  destruct (JS.lt amount 50); [discriminate|].
  rewrite Hgiven. cbn.
  destruct (Db.select_investment id d) as [i|]; [|discriminate].
  destruct (Z.eqb_spec (Inv.user_id i) userId) as [Hown|_]; [|discriminate].
  destruct (String.eqb_spec (Inv.status i) "withdrawn") as [|Hstatus]; [discriminate|].
  destruct (JS.gt amount _) eqn:Hvalue; [discriminate|].
  intros _. exists i. repeat split; assumption.
Qed.

(** C5: what [POST /api/withdraw] checks, against the balance check the
    claim asks of every request.  A request is refused, with the database
    left as it was, when the amount is below 50 (the answer is then 400
    "Invalid input"), when the account's withdrawal wallet is not set and
    when the account's last withdrawal date is today.  A request that
    names no investment is refused when the amount exceeds the projected
    balance.  A request that names an investment, which is what both
    withdrawal forms of the dashboard send once the account holds one,
    never has the ledger read: it is refused when the investment is not
    one of the account's, when it is 'withdrawn' and when the amount
    exceeds its deposit plus its accruals, and the check against the
    balance that the sibling branch makes is missed.  An accepted request
    has passed the check of its branch; it appends one row with status
    'pending' holding the account's wallet and phone, and writes nothing
    to the ledger, so the projected balance is as before. *)
Theorem withdraw_request_checked :
  forall (e : env) (userId : Z) (investmentId : option Z) (password : string)
         (amount : JS.number) (d : Db.t),
    let (d', r) := run (withdraw e userId investmentId password amount) d in
    ((amount <? 50)%float = true -> d' = d /\ r = fail 400 "Invalid input")
    /\ (forall user, Db.select_user userId d = Some user ->
        JS.falsy (Usr.withdrawal_wallet user) = true ->
        d' = d /\ is_ok r = false)
    /\ (forall user, Db.select_user userId d = Some user ->
        Usr.last_withdrawal_date user = Some (today e) ->
        d' = d /\ is_ok r = false)
    /\ (given investmentId = None ->
        JS.gt amount (Withdraw.availableBalance (Db.select_transactions userId d)) = true ->
        d' = d /\ is_ok r = false)
    /\ (forall id, given investmentId = Some id ->
        match Db.select_investment id d with
        | Some investment =>
            Inv.user_id investment <> userId
            \/ Inv.status investment = "withdrawn"
            \/ JS.gt amount
                 (Inv.deposit_amount investment + Inv.total_accruals investment)%float
               = true ->
            d' = d /\ is_ok r = false
        | None => d' = d /\ is_ok r = false
        end)
    /\ (forall w, r = ok w ->
        Db.transactions d' = Db.transactions d
        /\ Withdraw.availableBalance (Db.select_transactions userId d')
           = Withdraw.availableBalance (Db.select_transactions userId d)
        /\ WithdrawOk.status w = "pending"
        /\ (given investmentId = None ->
            JS.gt amount (Withdraw.availableBalance (Db.select_transactions userId d))
            = false)
        /\ (forall id, given investmentId = Some id ->
            exists investment,
              Db.select_investment id d = Some investment
              /\ Inv.user_id investment = userId
              /\ Inv.status investment <> "withdrawn"
              /\ JS.gt amount
                   (Inv.deposit_amount investment + Inv.total_accruals investment)%float
                 = false)
        /\ exists user,
             Db.select_user userId d = Some user
             /\ Db.withdrawal_requests d'
                = Db.withdrawal_requests d
                  ++ [Wr.mk (WithdrawOk.request_id w) userId (given investmentId)
                        amount amount
                        (WithdrawOk.charge w) (WithdrawOk.net_amount w)
                        (JS.str (Usr.withdrawal_wallet user))
                        (JS.trim (JS.str (JS.or (Usr.phone user)
                                            (Usr.withdrawal_phone user))))
                        "pending" None None None]).
Proof.
  intros e userId investmentId password amount d.
  destruct (run (withdraw e userId investmentId password amount) d)
    as [d' [w|code error]] eqn:Hrun.
  - destruct (withdraw_ok _ _ _ _ _ _ _ _ Hrun)
      as [user [Huser [Hvalid [Hwallet [Hdate [Hmin [Hbal [Hd' Hw]]]]]]]].
    split; [|split; [|split; [|split; [|split]]]].
    + intros Hlow. rewrite (ltb_not_leb _ _ Hlow) in Hvalid. discriminate.
    + intros user' Huser' Hunset. congruence.
    + intros user' Huser' Htoday.
      assert (user' = user) by congruence. subst user'.
      rewrite Htoday, String.eqb_refl in Hdate. discriminate.
    + intros Hnone Hover. rewrite (Hbal Hnone) in Hover. discriminate.
    + intros id Hgiven.
      destruct (withdraw_ok_investment _ _ _ _ _ _ _ _ _ Hrun Hgiven)
        as [i [Hi [Hown [Hstatus Hvalue]]]].
      rewrite Hi. intros [Hother | [Hwithdrawn | Hover]]; congruence.
    + intros w' Hw'. inversion Hw'; subst w'. clear Hw'.
      assert (Ht : Db.transactions d' = Db.transactions d) by (subst d'; reflexivity).
      split; [exact Ht|].
      split; [rewrite (select_transactions_same _ _ _ Ht); reflexivity|].
      split; [subst w; reflexivity|].
      split; [exact Hbal|].
      split; [intros id Hgiven; exact (withdraw_ok_investment _ _ _ _ _ _ _ _ _ Hrun Hgiven)|].
      exists user. split; [assumption|]. subst d' w. reflexivity.
  - pose proof (withdraw_fail _ _ _ _ _ _ _ _ _ Hrun) as Hd'. subst d'.
    split; [|split; [|split; [|split; [|split]]]]; try (intros; split; reflexivity).
    + intros Hlow. split; [reflexivity|].
      rewrite (withdraw_below_minimum _ _ _ _ _ _ Hlow) in Hrun. congruence.
    + intros id Hgiven.
      destruct (Db.select_investment id d); [intros _|]; split; reflexivity.
    + intros w Hw. discriminate.
Qed.

(** The theorem applied to Alice asking for 100 of her 1000: the request is
    stored as pending with her wallet and the ledger is untouched. *)
Lemma withdraw_request_checked_witness :
  let d' := fst (run (withdraw Example.e0 1 None "secret" 100) Example.db0) in
  Db.transactions d' = Db.transactions Example.db0
  /\ map (fun r => (Wr.status r, Wr.wallet r, Wr.phone r)) (Db.withdrawal_requests d')
     = [("pending", "airtel", "0977000001")].
Proof.
  pose proof (withdraw_request_checked Example.e0 1 None "secret" 100 Example.db0) as H.
  cbn zeta.
  destruct (run (withdraw Example.e0 1 None "secret" 100) Example.db0) as [d' r] eqn:Hrun.
  vm_compute in Hrun. inversion Hrun; subst d' r.
  destruct H as [_ [_ [_ [_ [_ H]]]]].
  destruct (H _ eq_refl) as [Ht _].
  cbn [fst]. split; [exact Ht|].
  vm_compute. reflexivity.
Defined.

(** Evaluated where the balance check is missed.  Alice deposits 250,
    opens L1 for 200 and is credited one day's accrual of 10: her balance
    is 60 and her investment holds 210.  A request for 205 that names the
    investment is accepted, with the ledger untouched, where the same
    request without the investment is refused; once the operator approves
    it the projected balance is below zero. *)
Lemma withdraw_request_counterexample :
  let d0 := Db.mk [Example.alice] [Example.L1; Example.L2] []
                  [Tx.mk 1 "deposit" 250 None] [] 0 0 in
  let d := fst (run daily_accrual_job
                    (fst (run (invest_from_balance Example.e0 1 1 200) d0))) in
  let requested := fst (run (withdraw Example.e0 1 (Some 1) "secret" 205) d) in
  let paid := fst (run (process_withdrawal_request Example.e0 9 1 "approve" None)
                       requested) in
  Withdraw.availableBalance (Db.select_transactions 1 d) = 60%float
  /\ JS.gt 205 (Withdraw.availableBalance (Db.select_transactions 1 d)) = true
  /\ is_ok (snd (run (withdraw Example.e0 1 (Some 1) "secret" 205) d)) = true
  /\ Db.transactions requested = Db.transactions d
  /\ is_ok (snd (run (withdraw Example.e0 1 None "secret" 205) d)) = false
  /\ is_ok (snd (run (process_withdrawal_request Example.e0 9 1 "approve" None)
                     requested)) = true
  /\ JS.lt (Withdraw.availableBalance (Db.select_transactions 1 paid)) 0 = true.
Proof. vm_compute. repeat split. Qed.

(** ** The withdrawal fee *)

Lemma process_withdrawal_request_run (e : env) (adminId requestId : Z)
    (action : string) (admin_notes : option string) (d : Db.t) :
  let (d', r) := run (process_withdrawal_request e adminId requestId action admin_notes) d in
  (d' = d /\ exists error, r = fail 400 error)
  \/ (d' = d /\ r = fail 404 "Withdrawal request not found"
      /\ (Db.select_withdrawal_request requestId d = None
          \/ exists request, Db.select_withdrawal_request requestId d = Some request
                             /\ Db.select_user (Wr.user_id request) d = None))
  \/ exists request,
       Db.select_withdrawal_request requestId d = Some request
       /\ Db.select_user (Wr.user_id request) d <> None
       /\ Wr.status request = "pending"
       /\ ((action = "approve" /\ r = ok "paid"
            /\ d' = paid_out e request (marked e adminId requestId "paid" admin_notes d))
           \/ (action = "deny" /\ r = ok "denied"
               /\ d' = marked e adminId requestId "denied" admin_notes d)).
Proof.
  unfold process_withdrawal_request.
  destruct (String.eqb_spec action "approve") as [Happrove|Hnot]; cbn.
  - destruct (Db.select_withdrawal_request requestId d) as [request|] eqn:Hreq;
      [|right; left; auto].
    destruct (Db.select_user (Wr.user_id request) d) eqn:Huser;
      [|right; left; repeat split; right; exists request; auto].
    destruct (String.eqb_spec (Wr.status request) "pending") as [Hpending|Hdone]; cbn.
    + right; right. exists request.
      repeat split; try assumption; try congruence.
      left. repeat split; assumption || reflexivity.
    + left. split; [reflexivity|eexists; reflexivity].
  - destruct (String.eqb_spec action "deny") as [Hdeny|Hnot']; cbn;
      [|left; split; [reflexivity|eexists; reflexivity]].
    destruct (Db.select_withdrawal_request requestId d) as [request|] eqn:Hreq;
      [|right; left; auto].
    destruct (Db.select_user (Wr.user_id request) d) eqn:Huser;
      [|right; left; repeat split; right; exists request; auto].
    destruct (String.eqb_spec (Wr.status request) "pending") as [Hpending|Hdone]; cbn.
    + right; right. exists request.
      repeat split; try assumption; try congruence.
      right. repeat split; assumption || reflexivity.
    + left. split; [reflexivity|eexists; reflexivity].
Qed.

Lemma marked_amounts (e : env) (adminId requestId : Z) (newStatus : string)
    (admin_notes : option string) (d : Db.t) :
  map amounts (Db.withdrawal_requests (marked e adminId requestId newStatus admin_notes d))
  = map amounts (Db.withdrawal_requests d).
Proof.
  unfold marked, Db.process_withdrawal_request, Db.update. cbn.
  rewrite map_map. apply map_ext. intros r.
  destruct (Wr.id r =? requestId); reflexivity.
Qed.

(** C4, as the code has it: an accepted request stores the charge
    [gross * 0.12], not rounded, and the net amount [gross - charge], both
    computed in binary64 when the request is created; approving or denying
    a request changes the amounts of no request. *)
Theorem withdrawal_fee_stored :
  (forall (e : env) (userId : Z) (investmentId : option Z) (password : string)
          (amount : JS.number) (d : Db.t),
      let (d', r) := run (withdraw e userId investmentId password amount) d in
      match r with
      | ok w =>
          (50 <=? amount)%float = true
          /\ exists row,
               Db.withdrawal_requests d' = Db.withdrawal_requests d ++ [row]
               /\ Wr.id row = WithdrawOk.request_id w
               /\ Wr.gross_amount row = amount
               /\ Wr.charge row = (amount * 0.12)%float
               /\ Wr.net_amount row = (amount - amount * 0.12)%float
      | fail _ _ => d' = d
      end)
  /\ (forall (e : env) (adminId requestId : Z) (action : string)
             (admin_notes : option string) (d : Db.t),
        map amounts
          (Db.withdrawal_requests
             (fst (run (process_withdrawal_request e adminId requestId action
                          admin_notes) d)))
        = map amounts (Db.withdrawal_requests d)).
Proof.
  split.
  - intros e userId investmentId password amount d.
    destruct (run (withdraw e userId investmentId password amount) d)
      as [d' [w|code error]] eqn:Hrun.
    + destruct (withdraw_ok _ _ _ _ _ _ _ _ Hrun)
        as [user [_ [Hvalid [_ [_ [_ [_ [Hd' Hw]]]]]]]].
      split; [exact Hvalid|].
      exists (requested userId investmentId amount user (Db.seq_withdrawal_requests d + 1)).
      subst d' w. repeat split.
    + exact (withdraw_fail _ _ _ _ _ _ _ _ _ Hrun).
  - intros e adminId requestId action admin_notes d.
    pose proof (process_withdrawal_request_run e adminId requestId action admin_notes d) as H.
    destruct (run (process_withdrawal_request e adminId requestId action admin_notes) d)
      as [d' r].
    cbn [fst].
    destruct H as [[-> _]|[[-> _]|[request [_ [_ [_ [[_ [_ ->]]|[_ [_ ->]]]]]]]]];
      try reflexivity.
    + unfold paid_out, Db.insert_transaction, Db.set_last_withdrawal_date. cbn.
      apply marked_amounts.
    + apply marked_amounts.
Qed.

(** C4 as stated fails for a request of 50.04: the stored charge is
    6.0047999999999995, not [round2] of it, and net plus charge is
    50.040000000000006, not the gross amount. *)
Lemma withdrawal_fee_counterexample :
  match Db.withdrawal_requests
          (fst (run (withdraw Example.e0 1 None "secret" 50.04) Example.db0)) with
  | [row] =>
      Wr.gross_amount row = 50.04%float
      /\ Wr.charge row <> round2 (Wr.gross_amount row * 0.12)
      /\ (Wr.net_amount row + Wr.charge row)%float <> Wr.gross_amount row
  | _ => False
  end.
Proof.
  vm_compute.
  split; [reflexivity|]. split; float_neq.
Qed.

(** ** Processing a withdrawal request *)

Lemma find_update {A : Type} (key : A -> Z) (k : Z) (set : A -> A) (rows : list A) :
  (forall r, key (set r) = key r) ->
  find (fun r => key r =? k) (map (fun r => if key r =? k then set r else r) rows)
  = option_map set (find (fun r => key r =? k) rows).
Proof.
  intros Hkey. induction rows as [|r rows IH]; cbn; [reflexivity|].
  destruct (key r =? k) eqn:Hk.
  - rewrite Hkey, Hk. reflexivity.
  - rewrite Hk. exact IH.
Qed.

(** A sum over the ledger after one more entry. *)
Lemma reduce_filter_snoc (p : Tx.row -> bool) (f : Tx.row -> JS.number)
    (ledger : list Tx.row) (t : Tx.row) :
  JS.reduce (fun sum t => (sum + f t)%float) 0%float (filter p (ledger ++ [t]))
  = if p t
    then (JS.reduce (fun sum t => (sum + f t)%float) 0%float (filter p ledger) + f t)%float
    else JS.reduce (fun sum t => (sum + f t)%float) 0%float (filter p ledger).
Proof.
  unfold JS.reduce. rewrite filter_app, fold_left_app. cbn.
  destruct (p t); reflexivity.
Qed.

Lemma select_transactions_snoc (userId : Z) (d d' : Db.t) (t : Tx.row) :
  Db.transactions d' = Db.transactions d ++ [t] ->
  Tx.user_id t = userId ->
  Db.select_transactions userId d' = Db.select_transactions userId d ++ [t].
Proof.
  unfold Db.select_transactions. intros -> <-.
  rewrite filter_app. cbn. rewrite Z.eqb_refl. reflexivity.
Qed.

(** C3: what an approval does, against the gross debit the claim asks
    for.  Approving a pending request answers 'paid', marks the request
    'paid' and sets the account's last withdrawal date to today, as
    claimed; but the one withdrawal entry it appends has the request's net
    amount, not its gross amount: the withdrawals subtracted in the
    projection grow by the net amount only, the other three sums are as
    before, and so the 12% charge, which the request computed, stored and
    announced and whose gross was checked against the balance, is debited
    by no entry. *)
Theorem approve_withdrawal_posts_net :
  forall (e : env) (adminId requestId : Z) (admin_notes : option string)
         (d : Db.t) (request : Wr.row),
    Db.select_withdrawal_request requestId d = Some request ->
    Db.select_user (Wr.user_id request) d <> None ->
    Wr.status request = "pending" ->
    let (d', r) :=
      run (process_withdrawal_request e adminId requestId "approve" admin_notes) d in
    let before := Db.select_transactions (Wr.user_id request) d in
    let after := Db.select_transactions (Wr.user_id request) d' in
    r = ok "paid"
    /\ Db.transactions d'
       = Db.transactions d
         ++ [Tx.mk (Wr.user_id request) "withdrawal" (Wr.net_amount request)
                   (given (Wr.investment_id request))]
    /\ option_map Wr.status (Db.select_withdrawal_request requestId d') = Some "paid"
    /\ option_map Usr.last_withdrawal_date (Db.select_user (Wr.user_id request) d')
       = Some (Some (today e))
    /\ Withdraw.totalWithdrawn after
       = (Withdraw.totalWithdrawn before + Wr.net_amount request)%float
    /\ Withdraw.totalDeposits after = Withdraw.totalDeposits before
    /\ Withdraw.allAccrualsAndBonuses after = Withdraw.allAccrualsAndBonuses before
    /\ Withdraw.investmentsFromBalance after = Withdraw.investmentsFromBalance before.
Proof.
  intros e adminId requestId admin_notes d request Hreq Huser Hpending.
  unfold process_withdrawal_request. cbn.
  rewrite Hreq.
  destruct (Db.select_user (Wr.user_id request) d) as [user|] eqn:Hu; [|congruence].
  rewrite Hpending. cbn.
  unfold Db.process_withdrawal_request, Db.set_last_withdrawal_date,
    Db.insert_transaction. cbn.
  set (t := Tx.mk (Wr.user_id request) "withdrawal" (Wr.net_amount request)
                  (given (Wr.investment_id request))).
  split; [reflexivity|]. split; [reflexivity|].
  split.
  { unfold Db.select_withdrawal_request, Db.update in *. cbn.
    rewrite (find_update Wr.id requestId) by reflexivity.
    rewrite Hreq. reflexivity. }
  split.
  { unfold Db.select_user, Db.update in *. cbn.
    rewrite (find_update Usr.id (Wr.user_id request)) by reflexivity.
    rewrite Hu. reflexivity. }
  match goal with
  | |- context [Db.select_transactions _ ?d1] =>
      rewrite (select_transactions_snoc (Wr.user_id request) d d1 t)
        by reflexivity
  end.
  unfold Withdraw.totalWithdrawn, Withdraw.totalDeposits,
    Withdraw.allAccrualsAndBonuses, Withdraw.investmentsFromBalance.
  rewrite !reduce_filter_snoc. cbn. repeat split; reflexivity.
Qed.

(** The theorem applied to Alice's request of 100. *)
Lemma approve_withdrawal_posts_net_witness :
  Db.transactions WithdrawalExample.paid
  = Db.transactions WithdrawalExample.requested ++ [Tx.mk 1 "withdrawal" 88 None]
  /\ option_map Wr.status (Db.select_withdrawal_request 1 WithdrawalExample.paid)
     = Some "paid"
  /\ option_map Usr.last_withdrawal_date (Db.select_user 1 WithdrawalExample.paid)
     = Some (Some "2026-01-01").
Proof.
  assert (Hreq : Db.select_withdrawal_request 1 WithdrawalExample.requested
                 = Some (Wr.mk 1 1 None 100 100 12 88 "airtel" "0977000001" "pending"
                           None None None))
    by (vm_compute; reflexivity).
  pose proof (approve_withdrawal_posts_net Example.e0 9 1 None
                WithdrawalExample.requested _ Hreq) as H.
  unfold WithdrawalExample.paid.
  destruct (run (process_withdrawal_request Example.e0 9 1 "approve" None)
              WithdrawalExample.requested) as [d' r].
  destruct H as [_ [Ht [Hs [Hu _]]]].
  - vm_compute. discriminate.
  - reflexivity.
  - cbn [fst]. cbn in Ht, Hs, Hu. repeat split; assumption.
Defined.

(** Evaluated at Alice's request of gross amount 100, charge 12: the
    entry appended on approval is 88, the net amount, and the projected
    balance goes from 1000 to 912, where the gross debit gives 900. *)
Lemma approve_withdrawal_counterexample :
  map Wr.gross_amount (Db.withdrawal_requests WithdrawalExample.requested) = [100%float]
  /\ WithdrawalExample.last_amount WithdrawalExample.paid = 88%float
  /\ WithdrawalExample.last_amount WithdrawalExample.paid <> 100%float
  /\ Withdraw.availableBalance (Db.select_transactions 1 WithdrawalExample.requested)
     = 1000%float
  /\ Withdraw.availableBalance (Db.select_transactions 1 WithdrawalExample.paid)
     = 912%float
  /\ Withdraw.availableBalance (Db.select_transactions 1 WithdrawalExample.paid)
     <> (1000 - 100)%float.
Proof.
  repeat split; try (vm_compute; reflexivity); float_neq.
Qed.

(** ** Processing a deposit *)

(** A deposit that is no longer pending is refused, whatever the action. *)
Lemma process_deposit_settled (e : env) (adminId depositId : Z) (action : string)
    (admin_notes : option string) (d : Db.t) (deposit : Inv.row) :
  Db.select_investment depositId d = Some deposit ->
  Db.select_user (Inv.user_id deposit) d <> None ->
  (Inv.status deposit =? "pending")%string = false ->
  exists error,
    run (process_deposit e adminId depositId action admin_notes) d = (d, fail 400 error).
Proof.
  intros Hdep Huser Hsettled. unfold process_deposit.
  destruct (negb _); [eexists; reflexivity|].
  cbn. rewrite Hdep.
  destruct (Db.select_user (Inv.user_id deposit) d); [|congruence].
  rewrite Hsettled. cbn. eexists; reflexivity.
Qed.

(** C6: approving a pending deposit answers 'deposit_completed', appends
    exactly one deposit entry of the deposit's amount and takes the deposit
    out of 'pending'; denying it answers 'denied' and appends nothing; and
    any further decision on the same deposit, after either, is refused with
    status 400 and changes nothing. *)
Theorem process_deposit_once :
  forall (e : env) (adminId depositId : Z) (admin_notes : option string)
         (d : Db.t) (deposit : Inv.row),
    Db.select_investment depositId d = Some deposit ->
    Db.select_user (Inv.user_id deposit) d <> None ->
    Inv.status deposit = "pending" ->
    let approved := run (process_deposit e adminId depositId "approve" admin_notes) d in
    let denied := run (process_deposit e adminId depositId "deny" admin_notes) d in
    (snd approved = ok "deposit_completed"
     /\ Db.transactions (fst approved)
        = Db.transactions d
          ++ [Tx.mk (Inv.user_id deposit) "deposit" (Inv.deposit_amount deposit)
                    (Some depositId)]
     /\ option_map Inv.status (Db.select_investment depositId (fst approved))
        = Some "deposit_completed")
    /\ (snd denied = ok "denied"
        /\ Db.transactions (fst denied) = Db.transactions d
        /\ option_map Inv.status (Db.select_investment depositId (fst denied))
           = Some "denied")
    /\ (forall (d1 : Db.t) (adminId2 : Z) (action2 : string) (admin_notes2 : option string),
          d1 = fst approved \/ d1 = fst denied ->
          exists error,
            run (process_deposit e adminId2 depositId action2 admin_notes2) d1
            = (d1, fail 400 error)).
Proof.
  intros e adminId depositId admin_notes d deposit Hdep Huser Hpending.
  assert (Happroved :
    run (process_deposit e adminId depositId "approve" admin_notes) d
    = (fst (Db.set_investment_status depositId "deposit_completed"
              (fst (Db.insert_transaction
                      (Tx.mk (Inv.user_id deposit) "deposit"
                             (Inv.deposit_amount deposit) (Some depositId)) d))),
       ok "deposit_completed")).
  { unfold process_deposit. cbn. rewrite Hdep.
    destruct (Db.select_user (Inv.user_id deposit) d); [|congruence].
    rewrite Hpending. reflexivity. }
  assert (Hdenied :
    run (process_deposit e adminId depositId "deny" admin_notes) d
    = (fst (Db.set_investment_status depositId "denied" d), ok "denied")).
  { unfold process_deposit. cbn. rewrite Hdep.
    destruct (Db.select_user (Inv.user_id deposit) d); [|congruence].
    rewrite Hpending. reflexivity. }
  cbn zeta. rewrite Happroved, Hdenied. cbn [fst snd].
  assert (Hselect : forall status d0,
    Db.investments d0 = Db.investments d ->
    Db.select_investment depositId (fst (Db.set_investment_status depositId status d0))
    = Some (Inv.mk (Inv.id deposit) (Inv.user_id deposit) (Inv.package_id deposit)
              (Inv.deposit_amount deposit) (Inv.start_date deposit)
              (Inv.maturity_date deposit) (Inv.total_accruals deposit) status
              (Inv.wallet deposit) (Inv.transaction_txt deposit))).
  { intros status d0 Hsame.
    unfold Db.select_investment, Db.set_investment_status, Db.update in *. cbn.
    rewrite (find_update Inv.id depositId) by reflexivity.
    rewrite Hsame, Hdep. reflexivity. }
  split; [|split].
  - split; [reflexivity|]. split; [reflexivity|].
    rewrite Hselect by reflexivity. reflexivity.
  - split; [reflexivity|]. split; [reflexivity|].
    rewrite Hselect by reflexivity. reflexivity.
  - intros d1 adminId2 action2 admin_notes2 [-> | ->];
      eapply process_deposit_settled;
      try (apply Hselect; reflexivity); cbn; try reflexivity; exact Huser.
Qed.

(** The theorem applied to Alice's pending deposit: one ledger entry after
    the approval, and still one after a second approval, which is refused. *)
Lemma process_deposit_once_witness :
  Db.transactions DepositExample.approved = [Tx.mk 1 "deposit" 300 (Some 1)]
  /\ exists error,
       run (process_deposit Example.e0 9 1 "approve" None) DepositExample.approved
       = (DepositExample.approved, fail 400 error).
Proof.
  assert (Hdep : Db.select_investment 1 DepositExample.pending
                 = Some (Inv.mk 1 1 1 300 "2026-01-01" "9999-12-31" 0 "pending"
                           (Some "airtel") (Some "TXN12345")))
    by (vm_compute; reflexivity).
  destruct (process_deposit_once Example.e0 9 1 None DepositExample.pending _ Hdep)
    as [[_ [Ht _]] [_ Hagain]].
  - vm_compute. discriminate.
  - reflexivity.
  - split.
    + exact Ht.
    + apply Hagain. left. reflexivity.
Defined.

(** * More of the code: lemmas and theorems *)

(** ** White space and trimming *)

Lemma space_not_digit (c : Ascii.ascii) :
  JS.is_space c = true -> Phone.is_digit c = false.
Proof.
  destruct c as [[] [] [] [] [] [] [] []]; vm_compute; congruence.
Qed.

Lemma digit_not_space (c : Ascii.ascii) : Phone.is_digit c = true -> JS.is_space c = false.
Proof.
  intros H. destruct (JS.is_space c) eqn:Hs; [|reflexivity].
  rewrite (space_not_digit c Hs) in H. discriminate.
Qed.

(** A digit is one byte of ASCII. *)
Lemma digit_low (c : Ascii.ascii) :
  Phone.is_digit c = true -> (Ascii.N_of_ascii c <? 128)%N = true.
Proof.
  destruct c as [[] [] [] [] [] [] [] []]; vm_compute; congruence.
Qed.

(** The white space of two and three bytes has no byte of ASCII. *)
Lemma is_space2_high (c1 c2 : Ascii.ascii) :
  JS.is_space2 c1 c2 = true ->
  (Ascii.N_of_ascii c1 <? 128)%N = false /\ (Ascii.N_of_ascii c2 <? 128)%N = false.
Proof.
  unfold JS.is_space2. intros H. apply andb_prop in H. destruct H as [H1 H2].
  apply N.eqb_eq in H1, H2. rewrite H1, H2. split; reflexivity.
Qed.

Lemma is_space3_high (c1 c2 c3 : Ascii.ascii) :
  JS.is_space3 c1 c2 c3 = true ->
  (Ascii.N_of_ascii c1 <? 128)%N = false
  /\ (Ascii.N_of_ascii c2 <? 128)%N = false
  /\ (Ascii.N_of_ascii c3 <? 128)%N = false.
Proof.
  unfold JS.is_space3. cbv zeta. intros H.
  repeat match type of H with
         | (_ || _)%bool = true => apply orb_prop in H; destruct H as [H|H]
         end;
    repeat match goal with
           | Hc : (_ && _)%bool = true |- _ =>
               apply andb_prop in Hc; destruct Hc
           | Hc : (_ || _)%bool = true |- _ =>
               apply orb_prop in Hc; destruct Hc
           | Hc : (_ =? _)%N = true |- _ => apply N.eqb_eq in Hc
           | Hc : (_ <=? _)%N = true |- _ => apply N.leb_le in Hc
           end;
    repeat split; apply N.ltb_ge; lia.
Qed.

Section StripFacts.

Variable sp2 : Ascii.ascii -> Ascii.ascii -> bool.
Variable sp3 : Ascii.ascii -> Ascii.ascii -> Ascii.ascii -> bool.

Hypothesis sp2_high : forall c1 c2,
  sp2 c1 c2 = true ->
  (Ascii.N_of_ascii c1 <? 128)%N = false /\ (Ascii.N_of_ascii c2 <? 128)%N = false.
Hypothesis sp3_high : forall c1 c2 c3,
  sp3 c1 c2 c3 = true ->
  (Ascii.N_of_ascii c1 <? 128)%N = false
  /\ (Ascii.N_of_ascii c2 <? 128)%N = false
  /\ (Ascii.N_of_ascii c3 <? 128)%N = false.

(** What is stripped is white space, and what is left begins with none. *)
Lemma strip_split (n : nat) :
  forall s, (length s <= n)%nat ->
    JS.leading sp2 sp3 (JS.strip sp2 sp3 s) = 0%nat
    /\ exists pre, s = pre ++ JS.strip sp2 sp3 s /\ Forall blank pre.
Proof.
  induction n as [|n IH]; intros s Hlen.
  { destruct s; [|cbn in Hlen; lia]. split; [reflexivity|]. exists []. split; [reflexivity|constructor]. }
  destruct s as [|c1 s1].
  { split; [reflexivity|]. exists []. split; [reflexivity|constructor]. }
  cbn [JS.strip]. destruct (JS.is_space c1) eqn:H1.
  { destruct (IH s1) as [Hl [pre [Hs Hpre]]]; [cbn in Hlen; lia|].
    split; [exact Hl|]. exists (c1 :: pre). split.
    - cbn. rewrite <- Hs. reflexivity.
    - constructor; [left; exact H1|exact Hpre]. }
  destruct s1 as [|c2 s2].
  { split; [cbn; rewrite H1; reflexivity|]. exists []. split; [reflexivity|constructor]. }
  destruct (sp2 c1 c2) eqn:H2.
  { destruct (IH s2) as [Hl [pre [Hs Hpre]]]; [cbn in Hlen; lia|].
    destruct (sp2_high _ _ H2) as [Hc1 Hc2].
    split; [exact Hl|]. exists (c1 :: c2 :: pre). split.
    - cbn. rewrite <- Hs. reflexivity.
    - constructor; [right; exact Hc1|]. constructor; [right; exact Hc2|exact Hpre]. }
  destruct s2 as [|c3 s3].
  { split; [cbn; rewrite H1, H2; reflexivity|]. exists []. split; [reflexivity|constructor]. }
  destruct (sp3 c1 c2 c3) eqn:H3.
  { destruct (IH s3) as [Hl [pre [Hs Hpre]]]; [cbn in Hlen; lia|].
    destruct (sp3_high _ _ _ H3) as [Hc1 [Hc2 Hc3]].
    split; [exact Hl|]. exists (c1 :: c2 :: c3 :: pre). split.
    - cbn. rewrite <- Hs. reflexivity.
    - constructor; [right; exact Hc1|]. constructor; [right; exact Hc2|].
      constructor; [right; exact Hc3|exact Hpre]. }
  split; [cbn; rewrite H1, H2, H3; reflexivity|].
  exists []. split; [reflexivity|constructor].
Qed.

Lemma leading_strip (s : list Ascii.ascii) :
  JS.leading sp2 sp3 (JS.strip sp2 sp3 s) = 0%nat.
Proof. exact (proj1 (strip_split (length s) s (le_n _))). Qed.

Lemma strip_prefix (s : list Ascii.ascii) :
  exists pre, s = pre ++ JS.strip sp2 sp3 s /\ Forall blank pre.
Proof. exact (proj2 (strip_split (length s) s (le_n _))). Qed.

(** Nothing is stripped from what begins with no white space. *)
Lemma strip_fixed (s : list Ascii.ascii) :
  JS.leading sp2 sp3 s = 0%nat -> JS.strip sp2 sp3 s = s.
Proof.
  destruct s as [|c1 [|c2 [|c3 s3]]]; cbn; try reflexivity;
    destruct (JS.is_space c1); try discriminate; try reflexivity;
    destruct (sp2 c1 c2); try discriminate; try reflexivity;
    destruct (sp3 c1 c2 c3); try discriminate; reflexivity.
Qed.

(** The white space a list begins with is still there when the list is
    made longer. *)
Lemma leading_app (r x : list Ascii.ascii) :
  JS.leading sp2 sp3 r <> 0%nat ->
  JS.leading sp2 sp3 (r ++ x) = JS.leading sp2 sp3 r.
Proof.
  destruct r as [|c1 [|c2 [|c3 r3]]]; cbn; try congruence;
    destruct (JS.is_space c1); try reflexivity; try congruence;
    destruct (sp2 c1 c2); try reflexivity; congruence.
Qed.

(** A list that begins with a byte of ASCII other than a blank begins with
    no white space. *)
Lemma leading_low (c : Ascii.ascii) (l : list Ascii.ascii) :
  JS.is_space c = false ->
  (Ascii.N_of_ascii c <? 128)%N = true ->
  JS.leading sp2 sp3 (c :: l) = 0%nat.
Proof.
  intros Hc Hlow. cbn. rewrite Hc.
  destruct l as [|c2 [|c3 l3]]; [reflexivity| |].
  - destruct (sp2 c c2) eqn:H2; [|reflexivity].
    destruct (sp2_high _ _ H2). congruence.
  - destruct (sp2 c c2) eqn:H2; [destruct (sp2_high _ _ H2); congruence|].
    destruct (sp3 c c2 c3) eqn:H3; [|reflexivity].
    destruct (sp3_high _ _ _ H3). congruence.
Qed.

End StripFacts.

Lemma blank_not_digit (pre : list Ascii.ascii) :
  Forall blank pre -> filter Phone.is_digit pre = [].
Proof.
  induction 1 as [|c pre Hc _ IH]; [reflexivity|].
  cbn. rewrite IH.
  destruct (Phone.is_digit c) eqn:Hd; [|reflexivity].
  destruct Hc as [Hc|Hc].
  - rewrite (space_not_digit c Hc) in Hd. discriminate.
  - rewrite (digit_low c Hd) in Hc. discriminate.
Qed.

Lemma space2_rev_high (c2 c1 : Ascii.ascii) :
  JS.is_space2 c1 c2 = true ->
  (Ascii.N_of_ascii c2 <? 128)%N = false /\ (Ascii.N_of_ascii c1 <? 128)%N = false.
Proof. intros H. destruct (is_space2_high _ _ H). split; assumption. Qed.

Lemma space3_rev_high (c3 c2 c1 : Ascii.ascii) :
  JS.is_space3 c1 c2 c3 = true ->
  (Ascii.N_of_ascii c3 <? 128)%N = false
  /\ (Ascii.N_of_ascii c2 <? 128)%N = false
  /\ (Ascii.N_of_ascii c1 <? 128)%N = false.
Proof. intros H. destruct (is_space3_high _ _ _ H) as [? [? ?]]. repeat split; assumption. Qed.

(** What [trimStart] and [trimEnd] take away is white space. *)
Lemma trimStart_prefix (l : list Ascii.ascii) :
  exists pre, l = pre ++ JS.trimStart l /\ Forall blank pre.
Proof. apply (strip_prefix _ _ is_space2_high is_space3_high). Qed.

Lemma trimEnd_suffix (l : list Ascii.ascii) :
  exists post, l = JS.trimEnd l ++ post /\ Forall blank post.
Proof.
  unfold JS.trimEnd.
  destruct (strip_prefix _ _ space2_rev_high space3_rev_high (rev l)) as [pre [Hl Hpre]].
  exists (rev pre). split.
  - rewrite <- rev_app_distr, <- Hl, rev_involutive. reflexivity.
  - apply Forall_rev. exact Hpre.
Qed.

(** Trimming removes no digit. *)
Lemma digits_trim (s : string) :
  filter Phone.is_digit (Phone.chars (JS.trim s)) = filter Phone.is_digit (Phone.chars s).
Proof.
  unfold JS.trim, Phone.chars.
  rewrite list_ascii_of_string_of_list_ascii.
  destruct (trimStart_prefix (list_ascii_of_string s)) as [pre [Hl Hpre]].
  destruct (trimEnd_suffix (JS.trimStart (list_ascii_of_string s))) as [post [Ht Hpost]].
  rewrite Hl at 2. rewrite Ht at 2.
  rewrite !filter_app, (blank_not_digit pre Hpre), (blank_not_digit post Hpost).
  rewrite app_nil_r. reflexivity.
Qed.

(** A list that begins and ends with no white space is left as it is. *)
Lemma trim_fixed (l : list Ascii.ascii) :
  JS.leading JS.is_space2 JS.is_space3 l = 0%nat ->
  JS.leading (fun c2 c1 => JS.is_space2 c1 c2) (fun c3 c2 c1 => JS.is_space3 c1 c2 c3)
    (rev l) = 0%nat ->
  JS.trimEnd (JS.trimStart l) = l.
Proof.
  intros Hstart Hend. unfold JS.trimStart, JS.trimEnd.
  rewrite (strip_fixed _ _ l Hstart), (strip_fixed _ _ (rev l) Hend).
  apply rev_involutive.
Qed.

Lemma trimmed_fixed (l : list Ascii.ascii) :
  JS.trimEnd (JS.trimStart (JS.trimEnd (JS.trimStart l))) = JS.trimEnd (JS.trimStart l).
Proof.
  apply trim_fixed.
  - destruct (trimEnd_suffix (JS.trimStart l)) as [post [Ht _]].
    destruct (Nat.eq_dec (JS.leading JS.is_space2 JS.is_space3
                            (JS.trimEnd (JS.trimStart l))) 0) as [Hz|Hnz];
      [exact Hz|].
    exfalso.
    pose proof (leading_app JS.is_space2 JS.is_space3 _ post Hnz) as Happ.
    rewrite <- Ht in Happ. unfold JS.trimStart in Happ at 1.
    rewrite (leading_strip _ _ is_space2_high is_space3_high) in Happ. congruence.
  - unfold JS.trimEnd. rewrite rev_involutive.
    apply (leading_strip _ _ space2_rev_high space3_rev_high).
Qed.

(** Trimming a trimmed string changes nothing. *)
Lemma trim_idempotent (s : string) : JS.trim (JS.trim s) = JS.trim s.
Proof.
  unfold JS.trim. rewrite list_ascii_of_string_of_list_ascii.
  f_equal. apply trimmed_fixed.
Qed.

Lemma forallb_rev {A : Type} (p : A -> bool) (l : list A) :
  forallb p l = true -> forallb p (rev l) = true.
Proof.
  intros H. apply forallb_forall. intros x Hx. apply in_rev in Hx.
  exact (proj1 (forallb_forall p l) H x Hx).
Qed.

Lemma leading_digits sp2 sp3 (l : list Ascii.ascii) :
  (forall c1 c2, sp2 c1 c2 = true ->
     (Ascii.N_of_ascii c1 <? 128)%N = false /\ (Ascii.N_of_ascii c2 <? 128)%N = false) ->
  (forall c1 c2 c3, sp3 c1 c2 c3 = true ->
     (Ascii.N_of_ascii c1 <? 128)%N = false
     /\ (Ascii.N_of_ascii c2 <? 128)%N = false
     /\ (Ascii.N_of_ascii c3 <? 128)%N = false) ->
  forallb Phone.is_digit l = true ->
  JS.leading sp2 sp3 l = 0%nat.
Proof.
  intros H2 H3 Hl. destruct l as [|c l]; [reflexivity|].
  cbn [forallb] in Hl. apply andb_prop in Hl. destruct Hl as [Hc _].
  apply (leading_low sp2 sp3 H2 H3); [apply digit_not_space|apply digit_low]; exact Hc.
Qed.

(** A string of digits has nothing to trim. *)
Lemma trim_digits (s : string) :
  forallb Phone.is_digit (Phone.chars s) = true -> JS.trim s = s.
Proof.
  unfold Phone.chars, JS.trim. intros H.
  rewrite trim_fixed.
  - apply string_of_list_ascii_of_string.
  - apply (leading_digits _ _ _ is_space2_high is_space3_high H).
  - apply (leading_digits _ _ _ space2_rev_high space3_rev_high (forallb_rev _ _ H)).
Qed.

(** The empty string is trimmed to itself and has no length. *)
Lemma trim_empty : JS.trim "" = "".
Proof. reflexivity. Qed.

(** A string with a character in it is not empty. *)
Lemma length_not_empty (s : string) : (0 < JS.length s)%nat -> (s =? "")%string = false.
Proof.
  destruct (String.eqb_spec s "") as [->|_]; [|reflexivity].
  cbn. lia.
Qed.

(** U+00A0 before a transaction number and U+3000 after it are trimmed
    like blanks. *)
Example trim_unicode_spaces :
  JS.trim (utf8 [194; 160] ++ " TXN123456" ++ utf8 [227; 128; 128])%string = "TXN123456".
Proof. vm_compute. reflexivity. Qed.

(** Three accented letters are six bytes and three code units; an emoji
    outside the basic plane is four bytes and two code units. *)
Example length_code_units :
  JS.length (utf8 [195; 169; 195; 169; 195; 169]) = 3%nat
  /\ String.length (utf8 [195; 169; 195; 169; 195; 169]) = 6%nat
  /\ JS.length (utf8 [240; 159; 152; 128]) = 2%nat.
Proof. vm_compute. repeat split. Qed.

(** ** Phone numbers *)

Lemma length_string_of_list_ascii (l : list Ascii.ascii) :
  String.length (string_of_list_ascii l) = length l.
Proof. induction l as [|c l IH]; cbn; [reflexivity|]. rewrite IH. reflexivity. Qed.

Lemma length_chars (s : string) : length (Phone.chars s) = String.length s.
Proof.
  unfold Phone.chars. induction s as [|c s IH]; cbn; [reflexivity|].
  rewrite IH. reflexivity.
Qed.

Lemma forallb_skipn {A : Type} (p : A -> bool) (n : nat) (l : list A) :
  forallb p l = true -> forallb p (skipn n l) = true.
Proof.
  revert l. induction n as [|n IH]; intros l Hl; [exact Hl|].
  destruct l as [|a l]; [reflexivity|].
  cbn in Hl |- *. apply andb_prop in Hl. apply IH, Hl.
Qed.

Lemma normalize_digits :
  forall (phone : option string) (normalized : string),
    Phone.normalizeZambianPhone phone = Some normalized ->
    forallb Phone.is_digit (Phone.chars normalized) = true
    /\ (String.length normalized <= 9)%nat.
Proof.
  intros phone normalized. unfold Phone.normalizeZambianPhone.
  destruct (JS.falsy phone); [discriminate|].
  set (d0 := filter Phone.is_digit (Phone.chars (JS.trim (JS.str phone)))).
  assert (H0 : forallb Phone.is_digit d0 = true) by apply forallb_filter.
  set (d1 := if Phone.startsWith (Phone.chars "260") d0 then skipn 3 d0 else d0).
  assert (H1 : forallb Phone.is_digit d1 = true).
  { unfold d1. destruct (Phone.startsWith _ d0); [apply forallb_skipn|]; exact H0. }
  set (d2 := if Phone.startsWith (Phone.chars "0") d1 then skipn 1 d1 else d1).
  assert (H2 : forallb Phone.is_digit d2 = true).
  { unfold d2. destruct (Phone.startsWith _ d1); [apply forallb_skipn|]; exact H1. }
  clearbody d2. clear d0 d1 H0 H1.
  destruct (Nat.leb_spec 9 (length d2)) as [Hlong|Hshort];
    intros H; inversion H; subst normalized; clear H;
    unfold Phone.chars; rewrite list_ascii_of_string_of_list_ascii;
    rewrite length_string_of_list_ascii.
  - split; [apply forallb_skipn; exact H2|].
    rewrite length_skipn. lia.
  - split; [exact H2|lia].
Qed.

(** X1: whatever the input, a normalised phone number consists of digits
    only and has at most nine of them. *)
Theorem normalizeZambianPhone_digits :
  forall (phone : option string) (normalized : string),
    Phone.normalizeZambianPhone phone = Some normalized ->
    forallb Phone.is_digit (Phone.chars normalized) = true
    /\ (String.length normalized <= 9)%nat.
Proof.
  intros phone normalized H. exact (normalize_digits phone normalized H).
Qed.

(** The theorem applied to a number written with spaces and a country
    code. *)
Lemma normalizeZambianPhone_digits_witness :
  forallb Phone.is_digit (Phone.chars "978891454") = true
  /\ (String.length "978891454" <= 9)%nat.
Proof.
  apply (normalizeZambianPhone_digits (Some " +260 97 889 1454 ")).
  vm_compute. reflexivity.
Defined.

Lemma national_not_empty (n : string) : national n -> (n =? "")%string = false.
Proof. intros [Hlen _]. destruct n; [discriminate|reflexivity]. Qed.

(** The steps after the digits have been picked out. *)
Lemma normalizeZambianPhone_of_digits (s : string) (ds : list Ascii.ascii) :
  (s =? "")%string = false ->
  filter Phone.is_digit (list_ascii_of_string s) = ds ->
  Phone.normalizeZambianPhone (Some s)
  = let d1 := if Phone.startsWith (list_ascii_of_string "260") ds then skipn 3 ds else ds in
    let d2 := if Phone.startsWith (list_ascii_of_string "0") d1 then skipn 1 d1 else d1 in
    Some (string_of_list_ascii
            (if (9 <=? length d2)%nat then skipn (length d2 - 9) d2 else d2)).
Proof.
  intros Hne Hds. unfold Phone.normalizeZambianPhone, JS.falsy, JS.str.
  rewrite Hne, digits_trim. unfold Phone.chars. rewrite Hds. reflexivity.
Qed.

Lemma normalize_national (n : string) :
  national n ->
  Phone.normalizeZambianPhone (Some ("+260" ++ n)%string) = Some n
  /\ Phone.normalizeZambianPhone (Some ("260" ++ n)%string) = Some n
  /\ Phone.normalizeZambianPhone (Some ("0" ++ n)%string) = Some n
  /\ Phone.normalizeZambianPhone (Some n) = Some n.
Proof.
  intros Hn. pose proof (national_not_empty n Hn) as Hne.
  destruct Hn as [Hlen [Hdigits [Hzero Hcode]]].
  rewrite <- length_chars in Hlen.
  unfold Phone.chars in *.
  pose proof (forallb_filter_id _ _ Hdigits) as Hid.
  cbn in Hzero, Hcode.
  assert (Hend : Some (string_of_list_ascii
                   (if (9 <=? length (list_ascii_of_string n))%nat
                    then skipn (length (list_ascii_of_string n) - 9)
                           (list_ascii_of_string n)
                    else list_ascii_of_string n)) = Some n).
  { rewrite Hlen. cbn. rewrite string_of_list_ascii_of_string. reflexivity. }
  repeat split.
  - rewrite (normalizeZambianPhone_of_digits _
               (list_ascii_of_string "260" ++ list_ascii_of_string n));
      [|reflexivity|cbn; rewrite Hid; reflexivity].
    cbn -[Nat.leb Nat.sub skipn]. cbn [skipn]. rewrite Hzero. exact Hend.
  - rewrite (normalizeZambianPhone_of_digits _
               (list_ascii_of_string "260" ++ list_ascii_of_string n));
      [|reflexivity|cbn; rewrite Hid; reflexivity].
    cbn -[Nat.leb Nat.sub skipn]. cbn [skipn]. rewrite Hzero. exact Hend.
  - rewrite (normalizeZambianPhone_of_digits _
               (list_ascii_of_string "0" ++ list_ascii_of_string n));
      [|reflexivity|cbn; rewrite Hid; reflexivity].
    cbn -[Nat.leb Nat.sub skipn]. cbn [skipn]. exact Hend.
  - rewrite (normalizeZambianPhone_of_digits _ (list_ascii_of_string n) Hne Hid).
    cbn -[Nat.leb Nat.sub skipn]. rewrite Hcode, Hzero. exact Hend.
Qed.

(** X2: the four ways of writing a national number, [+260n], [260n], [0n]
    and [n], all normalise to [n]. *)
Theorem normalizeZambianPhone_formats :
  forall n : string,
    national n ->
    Phone.normalizeZambianPhone (Some ("+260" ++ n)%string) = Some n
    /\ Phone.normalizeZambianPhone (Some ("260" ++ n)%string) = Some n
    /\ Phone.normalizeZambianPhone (Some ("0" ++ n)%string) = Some n
    /\ Phone.normalizeZambianPhone (Some n) = Some n.
Proof.
  intros n Hn. exact (normalize_national n Hn).
Qed.

Lemma national_978891454 : national "978891454".
Proof. repeat split. Qed.

(** The theorem applied to the number of the source's comment. *)
Lemma normalizeZambianPhone_formats_witness :
  Phone.normalizeZambianPhone (Some "+260978891454") = Some "978891454"
  /\ Phone.normalizeZambianPhone (Some "260978891454") = Some "978891454"
  /\ Phone.normalizeZambianPhone (Some "0978891454") = Some "978891454"
  /\ Phone.normalizeZambianPhone (Some "978891454") = Some "978891454".
Proof.
  exact (normalizeZambianPhone_formats "978891454" national_978891454).
Defined.

Lemma same_eq (a b : option string) : Phone.same a b = true <-> a = b.
Proof.
  destruct a as [x|], b as [y|]; cbn; split; intros H;
    try discriminate; try reflexivity.
  - apply String.eqb_eq in H. congruence.
  - inversion H. apply String.eqb_refl.
Qed.

Lemma normalizeZambianPhone_falsy (phone : option string) :
  JS.falsy phone = true -> Phone.normalizeZambianPhone phone = None.
Proof. intros H. unfold Phone.normalizeZambianPhone. rewrite H. reflexivity. Qed.

(** X3: looking a user up by phone reads only; a user it returns is in the
    table and has a phone that normalises like the one asked for, and it
    returns nobody only when the phone asked for normalises to nothing or
    no user of the table has a phone that normalises like it. *)
Theorem getUserByPhone_finds :
  forall (phone : option string) (d : Db.t),
    let (d', found) := run (Phone.getUserByPhone phone) d in
    d' = d
    /\ match found with
       | Some u =>
           In u (Db.users d)
           /\ JS.falsy (Phone.normalizeZambianPhone phone) = false
           /\ Phone.normalizeZambianPhone (Usr.phone u)
              = Phone.normalizeZambianPhone phone
       | None =>
           JS.falsy (Phone.normalizeZambianPhone phone) = true
           \/ forall u, In u (Db.users d) ->
                Phone.normalizeZambianPhone (Usr.phone u)
                <> Phone.normalizeZambianPhone phone
       end.
Proof.
  intros phone d. unfold Phone.getUserByPhone.
  destruct (JS.falsy phone) eqn:Hphone.
  { cbn. split; [reflexivity|]. left.
    rewrite (normalizeZambianPhone_falsy _ Hphone). reflexivity. }
  destruct (JS.falsy (Phone.normalizeZambianPhone phone)) eqn:Hnorm.
  { cbn. split; [reflexivity|]. left. reflexivity. }
  cbn. split; [reflexivity|].
  destruct (find _ _) as [u|] eqn:Hfind.
  - apply find_some in Hfind. destruct Hfind as [Hin Hc].
    apply filter_In in Hin. destruct Hin as [Hin _].
    apply andb_prop in Hc. destruct Hc as [_ Hsame].
    apply same_eq in Hsame. repeat split; assumption.
  - right. intros u Hin Heq.
    destruct (JS.falsy (Usr.phone u)) eqn:Hu.
    + rewrite (normalizeZambianPhone_falsy _ Hu) in Heq.
      rewrite <- Heq in Hnorm. discriminate.
    + assert (Hin' : In u (filter (fun u => negb (JS.falsy (Usr.phone u))) (Db.users d)))
        by (apply filter_In; split; [assumption|rewrite Hu; reflexivity]).
      pose proof (find_none _ _ Hfind u Hin') as Hc. cbn in Hc.
      rewrite Hu in Hc. cbn in Hc.
      apply same_eq in Heq. congruence.
Qed.

Lemma getUserByPhone_run (s n : string) (d : Db.t) :
  (s =? "")%string = false ->
  Phone.normalizeZambianPhone (Some s) = Some n ->
  (n =? "")%string = false ->
  run (Phone.getUserByPhone (Some s)) d
  = (d, find (fun u => negb (JS.falsy (Usr.phone u))
                       && Phone.same (Phone.normalizeZambianPhone (Usr.phone u)) (Some n))
          (filter (fun u => negb (JS.falsy (Usr.phone u))) (Db.users d))).
Proof.
  intros Hs Hnorm Hn. unfold Phone.getUserByPhone. rewrite Hnorm.
  unfold JS.falsy at 1 2. rewrite Hs, Hn. reflexivity.
Qed.

(** X4: a user whose phone is stored as [0n], the way registration stores
    it, is found under each of the four ways of writing the number, and
    the four lookups return the same user. *)
Theorem getUserByPhone_formats :
  forall (n : string) (d : Db.t) (u : Usr.row),
    national n ->
    In u (Db.users d) ->
    Usr.phone u = Some ("0" ++ n)%string ->
    exists found,
      Phone.normalizeZambianPhone (Usr.phone found) = Some n
      /\ snd (run (Phone.getUserByPhone (Some ("+260" ++ n)%string)) d) = Some found
      /\ snd (run (Phone.getUserByPhone (Some ("260" ++ n)%string)) d) = Some found
      /\ snd (run (Phone.getUserByPhone (Some ("0" ++ n)%string)) d) = Some found
      /\ snd (run (Phone.getUserByPhone (Some n)) d) = Some found.
Proof.
  intros n d u Hn Hin Hphone.
  destruct (normalize_national n Hn) as [H1 [H2 [H3 H4]]].
  pose proof (national_not_empty n Hn) as Hne.
  rewrite (getUserByPhone_run _ n d (eq_refl : ("+260" ++ n =? "")%string = false) H1 Hne).
  rewrite (getUserByPhone_run _ n d (eq_refl : ("260" ++ n =? "")%string = false) H2 Hne).
  rewrite (getUserByPhone_run _ n d (eq_refl : ("0" ++ n =? "")%string = false) H3 Hne).
  rewrite (getUserByPhone_run _ n d Hne H4 Hne).
  cbn [snd].
  destruct (find _ _) as [found|] eqn:Hfind.
  - exists found. apply find_some in Hfind. destruct Hfind as [_ Hc].
    apply andb_prop in Hc. destruct Hc as [_ Hsame]. apply same_eq in Hsame.
    repeat split; try reflexivity. exact Hsame.
  - exfalso.
    assert (Hu : JS.falsy (Usr.phone u) = false).
    { rewrite Hphone. unfold JS.falsy. reflexivity. }
    assert (Hin' : In u (filter (fun u => negb (JS.falsy (Usr.phone u))) (Db.users d)))
      by (apply filter_In; split; [assumption|rewrite Hu; reflexivity]).
    pose proof (find_none _ _ Hfind u Hin') as Hc. cbn in Hc.
    rewrite Hu, Hphone, H3 in Hc. cbn in Hc. rewrite String.eqb_refl in Hc.
    discriminate.
Qed.

(** The theorem applied to a table that holds [0978891454]. *)
Lemma getUserByPhone_formats_witness :
  let bob := Usr.mk 2 None (Some "0978891454") (Some "L0") None None None None in
  let d := Db.mk [Example.alice; bob] [] [] [] [] 0 0 in
  exists found,
    Phone.normalizeZambianPhone (Usr.phone found) = Some "978891454"
    /\ snd (run (Phone.getUserByPhone (Some "+260978891454")) d) = Some found
    /\ snd (run (Phone.getUserByPhone (Some "260978891454")) d) = Some found
    /\ snd (run (Phone.getUserByPhone (Some "0978891454")) d) = Some found
    /\ snd (run (Phone.getUserByPhone (Some "978891454")) d) = Some found.
Proof.
  cbn zeta.
  apply (getUserByPhone_formats "978891454" _
           (Usr.mk 2 None (Some "0978891454") (Some "L0") None None None None)
           national_978891454).
  - right. left. reflexivity.
  - reflexivity.
Defined.

(** ** Income added by an operator *)

Lemma getUserByPhone_reads (phone : option string) (d : Db.t) :
  fst (run (Phone.getUserByPhone phone) d) = d.
Proof.
  unfold Phone.getUserByPhone.
  destruct (JS.falsy phone); [reflexivity|].
  destruct (JS.falsy (Phone.normalizeZambianPhone phone)); reflexivity.
Qed.

Lemma find_filter_first {A : Type} (p q : A -> bool) (l : list A) :
  (forall x, p x = true -> q x = true) ->
  find p (filter q l) = find p l.
Proof.
  intros Hpq. induction l as [|x l IH]; [reflexivity|].
  cbn. destruct (q x) eqn:Hq; cbn.
  - destruct (p x); [reflexivity|exact IH].
  - destruct (p x) eqn:Hp; [|exact IH].
    rewrite (Hpq x Hp) in Hq. discriminate.
Qed.

Lemma find_split {A : Type} (p : A -> bool) (l : list A) (u : A) :
  find p l = Some u ->
  exists l1 l2, l = l1 ++ u :: l2 /\ p u = true /\ forall v, In v l1 -> p v = false.
Proof.
  induction l as [|x l IH]; [discriminate|].
  cbn. destruct (p x) eqn:Hp.
  - intros H. inversion H. subst x. exists [], l.
    split; [reflexivity|]. split; [exact Hp|]. intros v [].
  - intros H. destruct (IH H) as [l1 [l2 [Hl [Hu Hv]]]].
    exists (x :: l1), l2. split; [rewrite Hl; reflexivity|]. split; [exact Hu|].
    intros v [->|Hin]; [exact Hp|exact (Hv v Hin)].
Qed.

(** The user found by phone is the first row of the table whose phone
    normalises like the phone asked for. *)
Lemma getUserByPhone_first (phone : option string) (d : Db.t) (user : Usr.row) :
  snd (run (Phone.getUserByPhone phone) d) = Some user ->
  JS.falsy (Phone.normalizeZambianPhone phone) = false
  /\ exists rows_before rows_after,
       Db.users d = rows_before ++ user :: rows_after
       /\ Phone.normalizeZambianPhone (Usr.phone user) = Phone.normalizeZambianPhone phone
       /\ forall v, In v rows_before ->
            Phone.normalizeZambianPhone (Usr.phone v) <> Phone.normalizeZambianPhone phone.
Proof.
  unfold Phone.getUserByPhone.
  destruct (JS.falsy phone); [discriminate|].
  destruct (JS.falsy (Phone.normalizeZambianPhone phone)) eqn:Hnorm; [discriminate|].
  cbn. rewrite find_filter_first
    by (intros x Hx; apply andb_prop in Hx; tauto).
  intros Hfind. split; [reflexivity|].
  destruct (find_split _ _ _ Hfind) as [l1 [l2 [Hl [Hu Hv]]]].
  exists l1, l2. split; [exact Hl|].
  apply andb_prop in Hu. destruct Hu as [_ Hsame]. apply same_eq in Hsame.
  split; [exact Hsame|].
  intros v Hin Heq. pose proof (Hv v Hin) as Hc.
  apply same_eq in Heq. rewrite Heq, andb_true_r in Hc.
  destruct (JS.falsy (Usr.phone v)) eqn:Hfalsy; [|discriminate].
  apply same_eq in Heq.
  rewrite (normalizeZambianPhone_falsy _ Hfalsy) in Heq.
  rewrite <- Heq in Hnorm. discriminate.
Qed.

(** Nobody is found only when no row has a phone that normalises like the
    phone asked for. *)
Lemma getUserByPhone_nobody (phone : option string) (d : Db.t) :
  JS.falsy (Phone.normalizeZambianPhone phone) = false ->
  snd (run (Phone.getUserByPhone phone) d) = None ->
  forall u, In u (Db.users d) ->
    Phone.normalizeZambianPhone (Usr.phone u) <> Phone.normalizeZambianPhone phone.
Proof.
  unfold Phone.getUserByPhone. intros Hnorm.
  destruct (JS.falsy phone) eqn:Hphone.
  { rewrite (normalizeZambianPhone_falsy _ Hphone) in Hnorm. discriminate. }
  rewrite Hnorm. cbn. rewrite find_filter_first
    by (intros x Hx; apply andb_prop in Hx; tauto).
  intros Hfind u Hin Heq.
  pose proof (find_none _ _ Hfind u Hin) as Hc. cbn in Hc.
  apply same_eq in Heq. rewrite Heq, andb_true_r in Hc.
  destruct (JS.falsy (Usr.phone u)) eqn:Hfalsy; [|discriminate].
  apply same_eq in Heq.
  rewrite (normalizeZambianPhone_falsy _ Hfalsy) in Heq.
  rewrite <- Heq in Hnorm. discriminate.
Qed.

Lemma add_to_account_run (kind accountId : string) (amount : JS.number) (d : Db.t) :
  let (d', r) := run (add_to_account kind accountId amount) d in
  match r with
  | ok (userId, phone) =>
      exists user,
        snd (run (Phone.getUserByPhone (Some (JS.trim accountId))) d) = Some user
        /\ userId = Usr.id user /\ phone = Usr.phone user
        /\ (0.01 <=? amount)%float = true
        /\ d' = match Db.select_active_investments (Usr.id user) d with
                | [] =>
                    fst (Db.insert_transaction (Tx.mk (Usr.id user) kind amount None) d)
                | investment :: _ =>
                    fst (Db.insert_transaction
                           (Tx.mk (Usr.id user) kind amount (Some (Inv.id investment)))
                           (fst (Db.add_total_accruals (Inv.id investment) amount d)))
                end
  | fail code _ =>
      d' = d
      /\ (code = 400
          \/ code = 404
             /\ JS.falsy (Phone.normalizeZambianPhone (Some (JS.trim accountId))) = false
             /\ snd (run (Phone.getUserByPhone (Some (JS.trim accountId))) d) = None)
  end.
Proof.
  unfold add_to_account.
  destruct (JS.trim accountId =? "")%string; [cbn; tauto|].
  destruct (0.01 <=? amount)%float eqn:Hamount; [|cbn; tauto].
  cbn [negb orb].
  destruct (JS.falsy (Phone.normalizeZambianPhone (Some (JS.trim accountId)))) eqn:Hnorm;
    [cbn; tauto|].
  rewrite run_bind.
  pose proof (getUserByPhone_reads (Some (JS.trim accountId)) d) as Hfind.
  destruct (run (Phone.getUserByPhone (Some (JS.trim accountId))) d) as [d1 found].
  cbn [fst] in Hfind. subst d1.
  destruct found as [user|]; [|cbn; tauto].
  cbn.
  destruct (Db.select_active_investments (Usr.id user) d) as [|investment rest] eqn:Hactive;
    cbn; exists user; rewrite Hactive; repeat split; reflexivity.
Qed.

Lemma add_to_account_credits (kind accountId : string) (amount : JS.number) (d : Db.t) :
  (kind = "accrual" \/ kind = "bonus") ->
  (let (d', r) := run (add_to_account kind accountId amount) d in
   match r with
   | ok (userId, phone) =>
       let asked := Phone.normalizeZambianPhone (Some (JS.trim accountId)) in
       let link := option_map Inv.id (hd_error (Db.select_active_investments userId d)) in
       let before := Db.select_transactions userId d in
       let after := Db.select_transactions userId d' in
       (exists user rows_before rows_after,
           Db.users d = rows_before ++ user :: rows_after
           /\ userId = Usr.id user
           /\ phone = Usr.phone user
           /\ JS.falsy asked = false
           /\ Phone.normalizeZambianPhone (Usr.phone user) = asked
           /\ forall v, In v rows_before ->
                Phone.normalizeZambianPhone (Usr.phone v) <> asked)
       /\ (0.01 <=? amount)%float = true
       /\ Db.transactions d' = Db.transactions d ++ [Tx.mk userId kind amount link]
       /\ Withdraw.allAccrualsAndBonuses after
          = (Withdraw.allAccrualsAndBonuses before + amount)%float
       /\ Withdraw.totalDeposits after = Withdraw.totalDeposits before
       /\ Withdraw.totalWithdrawn after = Withdraw.totalWithdrawn before
       /\ Withdraw.investmentsFromBalance after = Withdraw.investmentsFromBalance before
       /\ Db.investments d'
          = match link with
            | Some id =>
                Db.update (fun i => Inv.id i =? id) (credit amount) (Db.investments d)
            | None => Db.investments d
            end
       /\ Db.users d' = Db.users d
   | fail code _ =>
       d' = d
       /\ (code = 400
           \/ code = 404
              /\ forall u, In u (Db.users d) ->
                   Phone.normalizeZambianPhone (Usr.phone u)
                   <> Phone.normalizeZambianPhone (Some (JS.trim accountId)))
   end).
Proof.
  intros Hkind.
  pose proof (add_to_account_run kind accountId amount d) as Hrun.
  destruct (run (add_to_account kind accountId amount) d) as [d' [[userId phone]|code error]].
  2:{ destruct Hrun as [Hd [H400|[H404 [Hnorm Hnone]]]].
      - split; [exact Hd|left; exact H400].
      - split; [exact Hd|right]. split; [exact H404|].
        exact (getUserByPhone_nobody _ d Hnorm Hnone). }
  destruct Hrun as [user [Hfound [-> [-> [Hamount ->]]]]].
  cbn zeta.
  destruct (getUserByPhone_first _ d user Hfound)
    as [Hnorm [rows_before [rows_after [Hrows [Hsame Hfirst]]]]].
  split.
  { exists user, rows_before, rows_after. repeat split; assumption. }
  split; [exact Hamount|].
  set (link := option_map Inv.id (hd_error (Db.select_active_investments (Usr.id user) d))).
  set (t := Tx.mk (Usr.id user) kind amount link).
  assert (Ht : Db.transactions
                 match Db.select_active_investments (Usr.id user) d with
                 | [] =>
                     fst (Db.insert_transaction (Tx.mk (Usr.id user) kind amount None) d)
                 | investment :: _ =>
                     fst (Db.insert_transaction
                            (Tx.mk (Usr.id user) kind amount (Some (Inv.id investment)))
                            (fst (Db.add_total_accruals (Inv.id investment) amount d)))
                 end
               = Db.transactions d ++ [t]).
  { unfold t, link.
    destruct (Db.select_active_investments (Usr.id user) d); reflexivity. }
  split; [exact Ht|].
  rewrite (select_transactions_snoc (Usr.id user) d _ t Ht eq_refl).
  unfold Withdraw.allAccrualsAndBonuses, Withdraw.totalDeposits,
    Withdraw.totalWithdrawn, Withdraw.investmentsFromBalance.
  rewrite !reduce_filter_snoc.
  unfold t, link.
  destruct Hkind as [-> | ->]; cbn;
    (repeat split; try reflexivity);
    destruct (Db.select_active_investments (Usr.id user) d); reflexivity.
Qed.

(** X5: an accepted [POST /api/admin/daily-income] appends exactly one
    accrual entry of the amount to the account found by phone, and an
    accepted [POST /api/admin/bonus] exactly one bonus entry.  The account
    credited, which is the one the answer names, is the first row of the
    users table whose phone normalises to the same digits as the trimmed
    [accountId]; the amount is at least 0.01.  The entry is linked to the
    account's first active investment when there is one, whose accumulated
    accruals grow by the amount.  The accrual-and-bonus sum of the
    projection grows by the amount and the other three sums are as before;
    the users table is as before.  A refused call leaves the database as
    it was; it is refused with 404 only when no account has a phone that
    normalises to the same digits, and with 400 otherwise. *)
Theorem operator_income_credits_once :
  forall (accountId : string) (amount : JS.number) (d : Db.t),
    (let (d', r) := run (admin_daily_income accountId amount) d in
     match r with
     | ok (userId, phone) =>
         let asked := Phone.normalizeZambianPhone (Some (JS.trim accountId)) in
         let link := option_map Inv.id (hd_error (Db.select_active_investments userId d)) in
         let before := Db.select_transactions userId d in
         let after := Db.select_transactions userId d' in
         (exists user rows_before rows_after,
             Db.users d = rows_before ++ user :: rows_after
             /\ userId = Usr.id user
             /\ phone = Usr.phone user
             /\ JS.falsy asked = false
             /\ Phone.normalizeZambianPhone (Usr.phone user) = asked
             /\ forall v, In v rows_before ->
                  Phone.normalizeZambianPhone (Usr.phone v) <> asked)
         /\ (0.01 <=? amount)%float = true
         /\ Db.transactions d' = Db.transactions d ++ [Tx.mk userId "accrual" amount link]
         /\ Withdraw.allAccrualsAndBonuses after
            = (Withdraw.allAccrualsAndBonuses before + amount)%float
         /\ Withdraw.totalDeposits after = Withdraw.totalDeposits before
         /\ Withdraw.totalWithdrawn after = Withdraw.totalWithdrawn before
         /\ Withdraw.investmentsFromBalance after = Withdraw.investmentsFromBalance before
         /\ Db.investments d'
            = match link with
              | Some id =>
                  Db.update (fun i => Inv.id i =? id) (credit amount) (Db.investments d)
              | None => Db.investments d
              end
         /\ Db.users d' = Db.users d
     | fail code _ =>
         d' = d
         /\ (code = 400
             \/ code = 404
                /\ forall u, In u (Db.users d) ->
                     Phone.normalizeZambianPhone (Usr.phone u)
                     <> Phone.normalizeZambianPhone (Some (JS.trim accountId)))
     end)
    /\ (let (d', r) := run (admin_bonus accountId amount) d in
        match r with
        | ok (userId, phone) =>
            let asked := Phone.normalizeZambianPhone (Some (JS.trim accountId)) in
            let link := option_map Inv.id (hd_error (Db.select_active_investments userId d)) in
            let before := Db.select_transactions userId d in
            let after := Db.select_transactions userId d' in
            (exists user rows_before rows_after,
                Db.users d = rows_before ++ user :: rows_after
                /\ userId = Usr.id user
                /\ phone = Usr.phone user
                /\ JS.falsy asked = false
                /\ Phone.normalizeZambianPhone (Usr.phone user) = asked
                /\ forall v, In v rows_before ->
                     Phone.normalizeZambianPhone (Usr.phone v) <> asked)
            /\ (0.01 <=? amount)%float = true
            /\ Db.transactions d' = Db.transactions d ++ [Tx.mk userId "bonus" amount link]
            /\ Withdraw.allAccrualsAndBonuses after
               = (Withdraw.allAccrualsAndBonuses before + amount)%float
            /\ Withdraw.totalDeposits after = Withdraw.totalDeposits before
            /\ Withdraw.totalWithdrawn after = Withdraw.totalWithdrawn before
            /\ Withdraw.investmentsFromBalance after = Withdraw.investmentsFromBalance before
            /\ Db.investments d'
               = match link with
                 | Some id =>
                     Db.update (fun i => Inv.id i =? id) (credit amount) (Db.investments d)
                 | None => Db.investments d
                 end
            /\ Db.users d' = Db.users d
        | fail code _ =>
            d' = d
            /\ (code = 400
                \/ code = 404
                   /\ forall u, In u (Db.users d) ->
                        Phone.normalizeZambianPhone (Usr.phone u)
                        <> Phone.normalizeZambianPhone (Some (JS.trim accountId)))
        end).
Proof.
  intros accountId amount d. split.
  - apply (add_to_account_credits "accrual"). left. reflexivity.
  - apply (add_to_account_credits "bonus"). right. reflexivity.
Qed.

(** ** Income added to a level *)

Lemma filter_map_commute {A : Type} (p : A -> bool) (g : A -> A) (l : list A) :
  (forall x, p (g x) = p x) ->
  filter p (map g l) = map g (filter p l).
Proof.
  intros Hp. induction l as [|x l IH]; [reflexivity|].
  cbn. rewrite Hp. destruct (p x); cbn; rewrite IH; reflexivity.
Qed.

Lemma active_ids_update (userId : Z) (d : Db.t) (cond : Inv.row -> bool)
    (set : Inv.row -> Inv.row) :
  (forall i, Inv.id (set i) = Inv.id i) ->
  (forall i, Inv.user_id (set i) = Inv.user_id i) ->
  (forall i, Inv.status (set i) = Inv.status i) ->
  active_ids userId (Db.with_investments (Db.update cond set) d) = active_ids userId d.
Proof.
  intros Hid Huser Hstatus.
  unfold active_ids, Db.select_active_investments, Db.update. cbn.
  rewrite filter_map_commute.
  - rewrite map_map. apply map_ext. intros i. destruct (cond i); [apply Hid|reflexivity].
  - intros i. destruct (cond i); [|reflexivity]. rewrite Huser, Hstatus. reflexivity.
Qed.

Lemma active_ids_add_total_accruals (userId id : Z) (x : JS.number) (d : Db.t) :
  active_ids userId (fst (Db.add_total_accruals id x d)) = active_ids userId d.
Proof.
  unfold Db.add_total_accruals. cbn [fst].
  apply active_ids_update; reflexivity.
Qed.

Lemma credit_investments_run (userId : Z) (amount : JS.number) (investments : list Inv.row) :
  forall d,
    let d' := fst (run (credit_investments userId amount investments) d) in
    Db.transactions d'
    = Db.transactions d
      ++ map (fun id => Tx.mk userId "accrual" amount (Some id)) (map Inv.id investments)
    /\ Db.investments d' = credit_all amount (map Inv.id investments) (Db.investments d)
    /\ Db.users d' = Db.users d
    /\ (forall u, active_ids u d' = active_ids u d).
Proof.
  induction investments as [|investment rest IH]; intros d.
  - cbn. rewrite app_nil_r. repeat split; reflexivity.
  - pose (d1 := fst (Db.insert_transaction
                       (Tx.mk userId "accrual" amount (Some (Inv.id investment)))
                       (fst (Db.add_total_accruals (Inv.id investment) amount d)))).
    cbn zeta.
    change (run (credit_investments userId amount (investment :: rest)) d)
      with (run (credit_investments userId amount rest) d1).
    destruct (IH d1) as [Ht [Hi [Hu Ha]]].
    repeat split.
    + rewrite Ht. unfold d1, Db.insert_transaction, Db.add_total_accruals. cbn.
      rewrite <- app_assoc. reflexivity.
    + rewrite Hi. reflexivity.
    + rewrite Hu. reflexivity.
    + intros u. rewrite Ha. unfold d1.
      exact (active_ids_add_total_accruals u (Inv.id investment) amount d).
Qed.

Lemma level_entries_ext (amount : JS.number) (d1 d2 : Db.t) (users : list Usr.row) :
  (forall u, active_ids u d1 = active_ids u d2) ->
  level_entries amount d1 users = level_entries amount d2 users.
Proof.
  intros H. unfold level_entries. apply flat_map_ext. intros user.
  unfold level_entries_of. rewrite H. reflexivity.
Qed.

Lemma level_entries_cons (amount : JS.number) (d : Db.t) (user : Usr.row)
    (users : list Usr.row) :
  level_entries amount d (user :: users)
  = level_entries_of amount d user ++ level_entries amount d users.
Proof. reflexivity. Qed.

Lemma credit_users_run (amount : JS.number) (users : list Usr.row) :
  forall d successCount,
    let (d', n) := run (credit_users amount users successCount) d in
    n = (successCount + length users)%nat
    /\ Db.transactions d' = Db.transactions d ++ level_entries amount d users
    /\ Db.users d' = Db.users d
    /\ (forall u, active_ids u d' = active_ids u d).
Proof.
  induction users as [|user rest IH]; intros d successCount.
  - cbn. rewrite app_nil_r, Nat.add_0_r. repeat split; reflexivity.
  - cbn [credit_users]. cbn [bind dbQuery run].
    destruct (Db.select_active_investments (Usr.id user) d) as [|i0 invs] eqn:Hactive.
    + cbn [bind dbRun run].
      set (d1 := fst (Db.insert_transaction (Tx.mk (Usr.id user) "accrual" amount None) d)).
      change (let (d', n) := run (credit_users amount rest (S successCount)) d1 in
              n = (successCount + length (user :: rest))%nat
              /\ Db.transactions d' = Db.transactions d ++ level_entries amount d (user :: rest)
              /\ Db.users d' = Db.users d
              /\ (forall u, active_ids u d' = active_ids u d)).
      specialize (IH d1 (S successCount)).
      destruct (run (credit_users amount rest (S successCount)) d1) as [d' n].
      destruct IH as [Hn [Ht [Hu Ha]]].
      assert (Hsame : forall u, active_ids u d1 = active_ids u d) by reflexivity.
      repeat split.
      * rewrite Hn. cbn [length]. lia.
      * rewrite Ht. rewrite (level_entries_ext amount d1 d rest Hsame).
        rewrite level_entries_cons. unfold level_entries_of, active_ids.
        rewrite Hactive. unfold d1, Db.insert_transaction. cbn.
        rewrite <- app_assoc. reflexivity.
      * rewrite Hu. reflexivity.
      * intros u. rewrite Ha. apply Hsame.
    + rewrite run_bind.
      pose proof (credit_investments_run (Usr.id user) amount (i0 :: invs) d) as Hinner.
      destruct (run (credit_investments (Usr.id user) amount (i0 :: invs)) d) as [d1 []].
      cbn [fst] in Hinner. cbn zeta in Hinner.
      destruct Hinner as [Ht1 [_ [Hu1 Ha1]]].
      specialize (IH d1 (S successCount)).
      destruct (run (credit_users amount rest (S successCount)) d1) as [d' n].
      destruct IH as [Hn [Ht [Hu Ha]]].
      repeat split.
      * rewrite Hn. cbn [length]. lia.
      * rewrite Ht, Ht1. rewrite (level_entries_ext amount d1 d rest Ha1).
        rewrite level_entries_cons. unfold level_entries_of, active_ids.
        rewrite Hactive. rewrite <- app_assoc. reflexivity.
      * rewrite Hu. exact Hu1.
      * intros u. rewrite Ha. apply Ha1.
Qed.

(** X6: [POST /api/admin/daily-income/level] refuses a level outside L1..L10
    or an amount below 0.01, and answers 404 when no user is at the level,
    all without touching the database.  Otherwise it appends, for each
    user at the level in table order, one accrual entry of the amount per
    active investment of that user (so an account with two active
    investments is credited twice), or a single entry without investment
    for a user who has none; it reports every user as a success and
    leaves the users table as it was. *)
Theorem level_income_entries :
  forall (level : string) (amount : JS.number) (d : Db.t),
    let (d', r) := run (admin_daily_income_level level amount) d in
    match r with
    | ok (successCount, errorCount, totalUsers) =>
        Db.transactions d'
        = Db.transactions d ++ level_entries amount d (select_users_at level d)
        /\ successCount = length (select_users_at level d)
        /\ errorCount = 0%nat
        /\ totalUsers = length (select_users_at level d)
        /\ select_users_at level d <> []
        /\ In level levels
        /\ (0.01 <=? amount)%float = true
        /\ Db.users d' = Db.users d
        /\ (forall u, active_ids u d' = active_ids u d)
    | fail code _ =>
        d' = d
        /\ (code = 400 /\ (~ In level levels \/ (0.01 <=? amount)%float = false)
            \/ code = 404 /\ select_users_at level d = [])
    end.
Proof.
  intros level amount d. unfold admin_daily_income_level.
  destruct (existsb (String.eqb level) levels) eqn:Hlevel.
  - destruct (0.01 <=? amount)%float eqn:Hamount.
    + cbn [negb orb]. rewrite run_bind. cbn [dbQuery run].
      destruct (select_users_at level d) as [|u0 us] eqn:Husers.
      * cbn. split; [reflexivity|]. right. split; reflexivity.
      * rewrite run_bind.
        pose proof (credit_users_run amount (u0 :: us) d 0%nat) as Hrun.
        destruct (run (credit_users amount (u0 :: us) 0%nat) d) as [d' n].
        destruct Hrun as [Hn [Ht [Hu Ha]]].
        cbn [run].
        repeat split; try assumption; try reflexivity.
        -- discriminate.
        -- apply existsb_exists in Hlevel. destruct Hlevel as [l [Hin Heq]].
           apply String.eqb_eq in Heq. subst l. exact Hin.
    + cbn. split; [reflexivity|]. left. split; [reflexivity|]. right. reflexivity.
  - cbn. split; [reflexivity|]. left. split; [reflexivity|]. left.
    intros Hin.
    assert (existsb (String.eqb level) levels = true) as Hex.
    { apply existsb_exists. exists level. split; [exact Hin|apply String.eqb_refl]. }
    rewrite Hlevel in Hex. discriminate.
Qed.

(** ** Deposits by transaction number *)

(** A number that is not NaN and not [<= 0] is positive. *)
Lemma positive_of_checks (a : float) :
  PrimFloat.is_nan a = false -> (a <=? 0)%float = false -> (0 <? a)%float = true.
Proof.
  unfold PrimFloat.is_nan.
  rewrite FloatAxioms.eqb_spec, leb_spec, ltb_spec.
  change (Prim2SF 0) with (SpecFloat.S754_zero false).
  destruct (Prim2SF a) as [s|s| |s m ex]; cbn; try discriminate.
  - destruct s; cbn; [discriminate|reflexivity].
  - destruct s; cbn; [discriminate|reflexivity].
Qed.

(** A number that is at least 1 is positive. *)
Lemma positive_of_min_1 (a : float) : (1 <=? a)%float = true -> (0 <? a)%float = true.
Proof.
  rewrite leb_spec, ltb_spec.
  change (Prim2SF 0) with (SpecFloat.S754_zero false).
  replace (Prim2SF 1) with (SpecFloat.S754_finite false 4503599627370496 (-52))
    by (vm_compute; reflexivity).
  destruct (Prim2SF a) as [s|s| |s m ex]; cbn; try discriminate.
  - destruct s; cbn; [discriminate|reflexivity].
  - destruct s; cbn; [discriminate|reflexivity].
Qed.

Lemma recharge_run (e : env) (userId : Z) (amount : option JS.number)
    (transactionTxt wallet : option string) (d : Db.t) :
  let (d', r) := run (recharge e userId amount transactionTxt wallet) d in
  match r with
  | ok (investmentId, a, txt) =>
      amount = Some a
      /\ PrimFloat.is_nan a = false
      /\ (a <=? 0)%float = false
      /\ JS.falsy transactionTxt = false
      /\ txt = JS.trim (JS.str transactionTxt)
      /\ (5 <= JS.length txt <= 50)%nat
      /\ select_by_transaction_txt txt userId d = None
      /\ investmentId = Db.seq_investments d + 1
      /\ exists firstPackage,
           first_package d = Some firstPackage
           /\ d' = fst (Db.insert_investment (fun id =>
                     Inv.mk id userId (Pkg.id firstPackage) a (today e) "9999-12-31"
                            0%float "pending" (Some (wallet_of wallet)) (Some txt)) d)
  | fail _ _ => d' = d
  end.
Proof.
  unfold recharge.
  destruct amount as [a|]; [|reflexivity].
  destruct (PrimFloat.is_nan a) eqn:Hnan; [reflexivity|].
  destruct (a <=? 0)%float eqn:Hpos; [reflexivity|].
  cbn [orb].
  destruct (JS.falsy transactionTxt) eqn:Htxt; [reflexivity|].
  destruct (Nat.eqb_spec (JS.length (JS.trim (JS.str transactionTxt))) 0);
    [reflexivity|].
  destruct (Nat.ltb_spec (JS.length (JS.trim (JS.str transactionTxt))) 5);
    [reflexivity|].
  destruct (Nat.ltb_spec 50 (JS.length (JS.trim (JS.str transactionTxt))));
    [reflexivity|].
  cbn [bind dbGet dbQuery run].
  destruct (select_by_transaction_txt (JS.trim (JS.str transactionTxt)) userId d)
    eqn:Hexisting; [reflexivity|].
  cbn [bind dbGet dbQuery run].
  destruct (first_package d) as [firstPackage|] eqn:Hfirst; [|reflexivity].
  cbn.
  repeat split; try reflexivity; try assumption; try lia.
  exists firstPackage. split; reflexivity.
Qed.

(** X7: an accepted [POST /api/recharge] files exactly one new investment
    row in status 'pending', for the caller, with a positive amount, a
    transaction number, trimmed of white space, of 5 to 50 characters as
    [.length] counts them (UTF-16 code units) that the caller has not used
    before, and the wallet 'airtel' or 'mtn'.  It writes no
    ledger entry, so no balance moves before an operator decides, and it
    opens no active investment.  A refused call leaves the database as it
    was. *)
Theorem recharge_files_pending :
  forall (e : env) (userId : Z) (amount : option JS.number)
         (transactionTxt wallet : option string) (d : Db.t),
    let (d', r) := run (recharge e userId amount transactionTxt wallet) d in
    match r with
    | ok (investmentId, a, txt) =>
        exists row,
          Db.investments d' = Db.investments d ++ [row]
          /\ Inv.id row = investmentId
          /\ Inv.user_id row = userId
          /\ Inv.status row = "pending"
          /\ Inv.deposit_amount row = a
          /\ amount = Some a
          /\ (0 <? a)%float = true
          /\ Inv.transaction_txt row = Some txt
          /\ txt = JS.trim (JS.str transactionTxt)
          /\ (5 <= JS.length txt <= 50)%nat
          /\ select_by_transaction_txt txt userId d = None
          /\ (Inv.wallet row = Some "airtel" \/ Inv.wallet row = Some "mtn")
          /\ Db.transactions d' = Db.transactions d
          /\ Db.users d' = Db.users d
          /\ (forall u, active_ids u d' = active_ids u d)
    | fail _ _ => d' = d
    end.
Proof.
  intros e userId amount transactionTxt wallet d.
  pose proof (recharge_run e userId amount transactionTxt wallet d) as Hrun.
  destruct (run (recharge e userId amount transactionTxt wallet) d)
    as [d' [[[investmentId a] txt]|code error]]; [|exact Hrun].
  destruct Hrun as [Ha [Hnan [Hpos [Hfalsy [Htxt [Hlen [Hnew [Hid [p [Hp Hd']]]]]]]]]].
  eexists. subst d'. unfold Db.insert_investment. cbn [fst Db.investments].
  split; [reflexivity|]. cbn.
  split; [symmetry; exact Hid|].
  split; [reflexivity|]. split; [reflexivity|]. split; [reflexivity|].
  split; [exact Ha|].
  split; [apply positive_of_checks; assumption|].
  split; [reflexivity|]. split; [exact Htxt|]. split; [exact Hlen|].
  split; [exact Hnew|].
  split; [|split; [reflexivity|split; [reflexivity|]]].
  - unfold wallet_of. destruct (negb (JS.falsy wallet)); [|left; reflexivity].
    destruct (String.eqb_spec (toLowerCase (JS.trim (JS.str wallet))) "airtel") as [->|_];
      [left; reflexivity|].
    destruct (String.eqb_spec (toLowerCase (JS.trim (JS.str wallet))) "mtn") as [->|_];
      [right; reflexivity|left; reflexivity].
  - intros u. unfold active_ids, Db.select_active_investments. cbn.
    rewrite filter_app. cbn. rewrite andb_false_r. rewrite app_nil_r. reflexivity.
Qed.

(** A transaction number of three accented letters, six bytes, is too
    short; one of twenty emoji, eighty bytes and forty code units, is
    filed. *)
Example recharge_counts_code_units :
  snd (run (recharge Example.e0 1 (Some 100%float)
              (Some (utf8 [195; 169; 195; 169; 195; 169])) None) Example.db0)
  = fail 400 "Transaction number must be at least 5 characters"
  /\ is_ok (snd (run (recharge Example.e0 1 (Some 100%float)
                      (Some (utf8 (concat (repeat [240; 159; 152; 128] 20%nat)))) None)
                   Example.db0)) = true.
Proof. vm_compute. split; reflexivity. Qed.

Lemma recharge_accepts (e : env) (userId : Z) (a : JS.number) (txt : string)
    (wallet : option string) (d : Db.t) (firstPackage : Pkg.row) :
  PrimFloat.is_nan a = false ->
  (a <=? 0)%float = false ->
  (5 <= JS.length (JS.trim txt) <= 50)%nat ->
  select_by_transaction_txt (JS.trim txt) userId d = None ->
  first_package d = Some firstPackage ->
  run (recharge e userId (Some a) (Some txt) wallet) d
  = (fst (Db.insert_investment (fun id =>
            Inv.mk id userId (Pkg.id firstPackage) a (today e) "9999-12-31"
                   0%float "pending" (Some (wallet_of wallet)) (Some (JS.trim txt))) d),
     ok (Db.seq_investments d + 1, a, JS.trim txt)).
Proof.
  intros Hnan Hpos Hlen Hnew Hfirst. unfold recharge.
  rewrite Hnan, Hpos. cbn [orb].
  assert (Hfalsy : JS.falsy (Some txt) = false).
  { unfold JS.falsy. destruct (String.eqb_spec txt "") as [->|_]; [|reflexivity].
    vm_compute in Hlen. lia. }
  rewrite Hfalsy. cbn [JS.str].
  destruct (Nat.eqb_spec (JS.length (JS.trim txt)) 0); [lia|].
  destruct (Nat.ltb_spec (JS.length (JS.trim txt)) 5); [lia|].
  destruct (Nat.ltb_spec 50 (JS.length (JS.trim txt))); [lia|].
  cbn [bind dbGet dbQuery run]. rewrite Hnew.
  cbn [bind dbGet dbQuery run]. rewrite Hfirst.
  reflexivity.
Qed.

Lemma recharge_used (e : env) (userId : Z) (amount : option JS.number)
    (transactionTxt wallet : option string) (d : Db.t) :
  select_by_transaction_txt (JS.trim (JS.str transactionTxt)) userId d <> None ->
  exists code error,
    run (recharge e userId amount transactionTxt wallet) d = (d, fail code error).
Proof.
  intros Hused.
  pose proof (recharge_run e userId amount transactionTxt wallet d) as Hrun.
  destruct (run (recharge e userId amount transactionTxt wallet) d)
    as [d' [[[investmentId a] txt]|code error]].
  - destruct Hrun as [_ [_ [_ [_ [Htxt [_ [Hnew _]]]]]]]. subst txt. contradiction.
  - subst d'. exists code, error. reflexivity.
Qed.

Lemma verify_transaction_used (e : env) (userId packageId : Z) (amount : JS.number)
    (wallet transactionTxt : string) (d : Db.t) :
  select_by_transaction_txt (JS.trim transactionTxt) userId d <> None ->
  exists code error,
    run (verify_transaction e userId packageId amount wallet transactionTxt) d
    = (d, fail code error).
Proof.
  intros Hused. unfold verify_transaction.
  destruct (negb (1 <=? amount)%float
            || negb ((wallet =? "airtel")%string || (wallet =? "mtn")%string)
            || (transactionTxt =? "")%string); [eexists; eexists; reflexivity|].
  cbn [bind dbGet dbQuery run].
  destruct (Db.select_package packageId d) as [packageData|];
    [|eexists; eexists; reflexivity].
  destruct (JS.gt _ _); [eexists; eexists; reflexivity|].
  cbn [bind dbGet dbQuery run].
  destruct (select_by_transaction_txt (JS.trim transactionTxt) userId d);
    [eexists; eexists; reflexivity|contradiction].
Qed.

Lemma select_by_transaction_txt_snoc (txt : string) (userId : Z) (d d' : Db.t)
    (row : Inv.row) :
  Db.investments d' = Db.investments d ++ [row] ->
  select_by_transaction_txt txt userId d'
  = match select_by_transaction_txt txt userId d with
    | Some i => Some i
    | None =>
        if Phone.same (Inv.transaction_txt row) (Some txt) && (Inv.user_id row =? userId)
        then Some row else None
    end.
Proof.
  unfold select_by_transaction_txt. intros ->.
  induction (Db.investments d) as [|i rows IH]; cbn.
  - destruct (_ && _); reflexivity.
  - destruct (Phone.same (Inv.transaction_txt i) (Some txt) && (Inv.user_id i =? userId));
      [reflexivity|exact IH].
Qed.

(** A number filed once is refused when it comes again between no-break
    spaces. *)
Example recharge_duplicate_no_break_space :
  let d1 := fst (run (recharge Example.e0 1 (Some 100%float) (Some "TXN123456") None)
                     Example.db0) in
  length (Db.investments d1) = 1%nat
  /\ run (recharge Example.e0 1 (Some 100%float)
            (Some (utf8 [194; 160] ++ "TXN123456" ++ utf8 [194; 160])%string) None) d1
     = (d1, fail 400 "This transaction has already been used").
Proof. vm_compute. split; reflexivity. Qed.

(** X8: a transaction number can be filed once per account.  After an
    accepted [POST /api/recharge], every further recharge of the same
    account whose number trims to the same text is refused, and so is
    every [POST /api/verify-transaction] with it; neither changes the
    database.  Trimming takes away the white space of [String.prototype.trim]
    at both ends, the no-break space and the other Unicode spaces
    included. *)
Theorem transaction_number_used_once :
  forall (e : env) (userId : Z) (amount : option JS.number)
         (transactionTxt wallet : option string) (d d1 : Db.t)
         (investmentId : Z) (a : JS.number) (txt : string),
    run (recharge e userId amount transactionTxt wallet) d
    = (d1, ok (investmentId, a, txt)) ->
    (forall (e2 : env) (amount2 : option JS.number) (transactionTxt2 wallet2 : option string),
        JS.trim (JS.str transactionTxt2) = txt ->
        exists code error,
          run (recharge e2 userId amount2 transactionTxt2 wallet2) d1
          = (d1, fail code error))
    /\ (forall (e2 : env) (packageId : Z) (amount2 : JS.number)
               (wallet2 transactionTxt2 : string),
          JS.trim transactionTxt2 = txt ->
          exists code error,
            run (verify_transaction e2 userId packageId amount2 wallet2 transactionTxt2) d1
            = (d1, fail code error)).
Proof.
  intros e userId amount transactionTxt wallet d d1 investmentId a txt Hrun.
  pose proof (recharge_run e userId amount transactionTxt wallet d) as H.
  rewrite Hrun in H.
  destruct H as [_ [_ [_ [_ [_ [_ [Hnew [_ [p [_ Hd1]]]]]]]]]].
  assert (Hused : select_by_transaction_txt txt userId d1 <> None).
  { rewrite (select_by_transaction_txt_snoc txt userId d d1
               (Inv.mk (Db.seq_investments d + 1) userId (Pkg.id p) a (today e)
                       "9999-12-31" 0%float "pending" (Some (wallet_of wallet))
                       (Some txt)))
      by (subst d1; reflexivity).
    rewrite Hnew. cbn. rewrite String.eqb_refl, Z.eqb_refl. discriminate. }
  split.
  - intros e2 amount2 transactionTxt2 wallet2 Htrim.
    apply recharge_used. rewrite Htrim. exact Hused.
  - intros e2 packageId amount2 wallet2 transactionTxt2 Htrim.
    apply verify_transaction_used. rewrite Htrim. exact Hused.
Qed.

(** The theorem applied to Alice's deposit [TXN12345]: the same number
    sent again with spaces around it is refused. *)
Lemma transaction_number_used_once_witness :
  let d1 := fst (run (recharge Example.e0 1 (Some 300%float) (Some "TXN12345") None)
                     Example.db0) in
  exists code error,
    run (recharge Example.e0 1 (Some 500%float) (Some " TXN12345 ") (Some "mtn")) d1
    = (d1, fail code error).
Proof.
  cbn zeta.
  refine (proj1 (transaction_number_used_once Example.e0 1 (Some 300%float)
                   (Some "TXN12345") None Example.db0 _ _ _ _ _)
            Example.e0 (Some 500%float) (Some " TXN12345 ") (Some "mtn") _).
  - vm_compute. reflexivity.
  - vm_compute. reflexivity.
Defined.

(** X9: the check on a transaction number is per account.  After one
    account's accepted [POST /api/recharge], another account that has not
    filed the number itself can file the same number for the same amount,
    and is accepted. *)
Theorem transaction_number_shared_across_accounts :
  forall (e : env) (userId : Z) (amount : option JS.number)
         (transactionTxt wallet : option string) (d d1 : Db.t)
         (investmentId : Z) (a : JS.number) (txt : string)
         (e2 : env) (other : Z) (wallet2 : option string),
    run (recharge e userId amount transactionTxt wallet) d
    = (d1, ok (investmentId, a, txt)) ->
    other <> userId ->
    select_by_transaction_txt txt other d = None ->
    snd (run (recharge e2 other (Some a) (Some txt) wallet2) d1)
    = ok (investmentId + 1, a, txt).
Proof.
  intros e userId amount transactionTxt wallet d d1 investmentId a txt e2 other wallet2
         Hrun Hother Hnew2.
  pose proof (recharge_run e userId amount transactionTxt wallet d) as H.
  rewrite Hrun in H.
  destruct H as [_ [Hnan [Hpos [_ [Htxt [Hlen [_ [Hid [p [Hp Hd1]]]]]]]]]].
  assert (Htrim : JS.trim txt = txt) by (rewrite Htxt; apply trim_idempotent).
  rewrite (recharge_accepts e2 other a txt wallet2 d1 p Hnan Hpos).
  - cbn [snd]. rewrite Htrim. subst d1 investmentId. reflexivity.
  - rewrite Htrim. exact Hlen.
  - rewrite Htrim.
    rewrite (select_by_transaction_txt_snoc txt other d d1
               (Inv.mk (Db.seq_investments d + 1) userId (Pkg.id p) a (today e)
                       "9999-12-31" 0%float "pending" (Some (wallet_of wallet))
                       (Some txt)))
      by (subst d1; reflexivity).
    rewrite Hnew2. cbn.
    destruct (Z.eqb_spec userId other) as [Heq|_]; [congruence|].
    rewrite andb_false_r. reflexivity.
  - subst d1. exact Hp.
Qed.

(** The theorem applied to Alice's deposit [TXN12345], filed again by
    account 2. *)
Lemma transaction_number_shared_witness :
  let d1 := fst (run (recharge Example.e0 1 (Some 300%float) (Some "TXN12345") None)
                     Example.db0) in
  snd (run (recharge Example.e0 2 (Some 300%float) (Some "TXN12345") None) d1)
  = ok (2, 300%float, "TXN12345").
Proof.
  cbn zeta.
  refine (transaction_number_shared_across_accounts Example.e0 1 (Some 300%float)
            (Some "TXN12345") None Example.db0 _ 1 300%float "TXN12345"
            Example.e0 2 None _ _ _).
  - vm_compute. reflexivity.
  - lia.
  - vm_compute. reflexivity.
Defined.

Lemma update_none {A : Type} (cond : A -> bool) (set : A -> A) (rows : list A) :
  (forall r, In r rows -> cond r = false) ->
  Db.update cond set rows = rows.
Proof.
  unfold Db.update. intros H. induction rows as [|r rows IH]; [reflexivity|].
  cbn. rewrite (H r) by (left; reflexivity).
  rewrite IH; [reflexivity|]. intros r' Hin. apply H. right. exact Hin.
Qed.

Lemma find_none_app {A : Type} (p : A -> bool) (rows : list A) (r : A) :
  (forall x, In x rows -> p x = false) ->
  find p (rows ++ [r]) = if p r then Some r else None.
Proof.
  intros H. induction rows as [|x rows IH]; [reflexivity|].
  cbn. rewrite (H x) by (left; reflexivity).
  apply IH. intros y Hin. apply H. right. exact Hin.
Qed.

(** X10: a deposit filed by [POST /api/recharge] and then approved by
    [PUT /api/admin/deposits/:id] reaches the balance once: the ledger
    gains one deposit entry of the filed amount, the deposits summed by the
    projection grow by that amount, the other three sums stay as they
    were, and no active investment is opened for anybody. *)
Theorem recharge_then_approve :
  forall (e : env) (userId : Z) (amount : option JS.number)
         (transactionTxt wallet : option string) (d d1 : Db.t)
         (investmentId : Z) (a : JS.number) (txt : string)
         (e2 : env) (adminId : Z) (admin_notes : option string),
    ids_given d ->
    Db.select_user userId d <> None ->
    run (recharge e userId amount transactionTxt wallet) d
    = (d1, ok (investmentId, a, txt)) ->
    let (d2, r) := run (process_deposit e2 adminId investmentId "approve" admin_notes) d1 in
    let before := Db.select_transactions userId d in
    let after := Db.select_transactions userId d2 in
    r = ok "deposit_completed"
    /\ Db.transactions d2
       = Db.transactions d ++ [Tx.mk userId "deposit" a (Some investmentId)]
    /\ Withdraw.totalDeposits after = (Withdraw.totalDeposits before + a)%float
    /\ Withdraw.allAccrualsAndBonuses after = Withdraw.allAccrualsAndBonuses before
    /\ Withdraw.totalWithdrawn after = Withdraw.totalWithdrawn before
    /\ Withdraw.investmentsFromBalance after = Withdraw.investmentsFromBalance before
    /\ (forall u, active_ids u d2 = active_ids u d).
Proof.
  intros e userId amount transactionTxt wallet d d1 investmentId a txt e2 adminId
         admin_notes Hids Huser Hrun.
  pose proof (recharge_run e userId amount transactionTxt wallet d) as H.
  rewrite Hrun in H.
  destruct H as [_ [Hnan [Hpos [_ [_ [_ [_ [Hid [p [_ Hd1]]]]]]]]]].
  set (row := Inv.mk investmentId userId (Pkg.id p) a (today e) "9999-12-31" 0%float
                     "pending" (Some (wallet_of wallet)) (Some txt)).
  assert (Hinv : Db.investments d1 = Db.investments d ++ [row])
    by (subst d1 investmentId; reflexivity).
  assert (Hfresh : forall i, In i (Db.investments d) -> (Inv.id i =? investmentId) = false).
  { intros i Hin. apply Z.eqb_neq. specialize (Hids i Hin). lia. }
  assert (Hdep : Db.select_investment investmentId d1 = Some row).
  { unfold Db.select_investment. rewrite Hinv.
    rewrite (find_none_app _ _ row Hfresh). cbn. rewrite Z.eqb_refl. reflexivity. }
  assert (Husers : Db.select_user userId d1 = Db.select_user userId d)
    by (subst d1; reflexivity).
  assert (Happroved :
    run (process_deposit e2 adminId investmentId "approve" admin_notes) d1
    = (fst (Db.set_investment_status investmentId "deposit_completed"
              (fst (Db.insert_transaction
                      (Tx.mk userId "deposit" a (Some investmentId)) d1))),
       ok "deposit_completed")).
  { unfold process_deposit. cbn. rewrite Hdep. cbn [Inv.user_id row].
    rewrite Husers.
    destruct (Db.select_user userId d); [|congruence].
    reflexivity. }
  rewrite Happroved. cbn zeta.
  set (t := Tx.mk userId "deposit" a (Some investmentId)).
  assert (Ht : Db.transactions
                 (fst (Db.set_investment_status investmentId "deposit_completed"
                         (fst (Db.insert_transaction t d1))))
               = Db.transactions d ++ [t])
    by (subst d1; reflexivity).
  split; [reflexivity|]. split; [exact Ht|].
  rewrite (select_transactions_snoc userId d _ t Ht eq_refl).
  unfold Withdraw.totalDeposits, Withdraw.allAccrualsAndBonuses,
    Withdraw.totalWithdrawn, Withdraw.investmentsFromBalance.
  rewrite !reduce_filter_snoc. cbn [Tx.type Tx.amount t].
  unfold JS.gt. rewrite (positive_of_checks a Hnan Hpos). cbn.
  repeat split.
  intros u. unfold active_ids, Db.select_active_investments, Db.set_investment_status,
    Db.insert_transaction.
  cbn. rewrite Hinv. unfold Db.update. rewrite map_app.
  fold (Db.update (fun i => Inv.id i =? investmentId)
          (fun i => Inv.mk (Inv.id i) (Inv.user_id i) (Inv.package_id i)
                      (Inv.deposit_amount i) (Inv.start_date i) (Inv.maturity_date i)
                      (Inv.total_accruals i) "deposit_completed" (Inv.wallet i)
                      (Inv.transaction_txt i)) (Db.investments d)).
  rewrite (update_none _ _ _ Hfresh).
  rewrite filter_app. cbn. rewrite Z.eqb_refl. cbn.
  rewrite andb_false_r. rewrite app_nil_r. reflexivity.
Qed.

(** The theorem applied to Alice's deposit of 300 next to her 1000. *)
Lemma recharge_then_approve_witness :
  let d1 := fst (run (recharge Example.e0 1 (Some 300%float) (Some "TXN12345") None)
                     Example.db0) in
  let d2 := fst (run (process_deposit Example.e0 9 1 "approve" None) d1) in
  Withdraw.totalDeposits (Db.select_transactions 1 d2) = 1300%float.
Proof.
  cbn zeta.
  pose proof (recharge_then_approve Example.e0 1 (Some 300%float) (Some "TXN12345") None
                Example.db0
                (fst (run (recharge Example.e0 1 (Some 300%float) (Some "TXN12345") None)
                          Example.db0))
                1 300%float "TXN12345" Example.e0 9 None) as H.
  specialize (H (fun i (Hin : In i []) => match Hin with end)).
  specialize (H ltac:(vm_compute; discriminate) ltac:(vm_compute; reflexivity)).
  destruct (run (process_deposit Example.e0 9 1 "approve" None) _) as [d2 r].
  destruct H as [_ [_ [H _]]].
  cbn [fst]. rewrite H. vm_compute. reflexivity.
Defined.

(** ** Investments backed by a payment *)

(** What the two inserts of [POST /api/invest] and
    [POST /api/verify-transaction] leave behind. *)
Lemma opened_effects (userId : Z) (amount : JS.number) (row : Z -> Inv.row)
    (d d' : Db.t) :
  (forall id, Inv.id (row id) = id) ->
  (forall id, Inv.user_id (row id) = userId) ->
  (forall id, Inv.status (row id) = "active") ->
  (0 <? amount)%float = true ->
  d' = fst (Db.insert_transaction
              (Tx.mk userId "deposit" amount (Some (Db.seq_investments d + 1)))
              (fst (Db.insert_investment row d))) ->
  let id := Db.seq_investments d + 1 in
  let before := Db.select_transactions userId d in
  let after := Db.select_transactions userId d' in
  Db.investments d' = Db.investments d ++ [row id]
  /\ Db.transactions d' = Db.transactions d ++ [Tx.mk userId "deposit" amount (Some id)]
  /\ active_ids userId d' = active_ids userId d ++ [id]
  /\ Withdraw.totalDeposits after = (Withdraw.totalDeposits before + amount)%float
  /\ Withdraw.allAccrualsAndBonuses after = Withdraw.allAccrualsAndBonuses before
  /\ Withdraw.totalWithdrawn after = Withdraw.totalWithdrawn before
  /\ Withdraw.investmentsFromBalance after = Withdraw.investmentsFromBalance before.
Proof.
  intros Hid Huser Hstatus Hpos Hd'. cbn zeta.
  set (t := Tx.mk userId "deposit" amount (Some (Db.seq_investments d + 1))).
  assert (Ht : Db.transactions d' = Db.transactions d ++ [t]) by (subst d'; reflexivity).
  split; [subst d'; reflexivity|]. split; [exact Ht|].
  split.
  - subst d'. unfold active_ids, Db.select_active_investments, Db.insert_transaction,
      Db.insert_investment. cbn.
    rewrite filter_app, map_app. cbn. rewrite Huser, Hstatus, Z.eqb_refl. cbn.
    rewrite Hid. reflexivity.
  - rewrite (select_transactions_snoc userId d d' t Ht eq_refl).
    unfold Withdraw.totalDeposits, Withdraw.allAccrualsAndBonuses,
      Withdraw.totalWithdrawn, Withdraw.investmentsFromBalance.
    rewrite !reduce_filter_snoc. cbn [Tx.type Tx.amount t].
    unfold JS.gt. rewrite Hpos. cbn. repeat split.
Qed.

(** X11: an accepted [POST /api/verify-transaction] both opens an active
    investment of the package and posts a deposit entry of the same amount:
    the caller's active investments gain the new id whatever they held
    before, and the deposits summed by the balance projection grow by the
    amount, the other sums staying as they were.  It is accepted only for a
    package that exists, an amount within 0.01 of the package's, and a
    transaction number, trimmed of white space, of 6 to 50 characters as
    [.length] counts them (UTF-16 code units) that the caller has not used
    before.  A refusal other than the 500 after the inserts leaves the
    database as it was. *)
Theorem verify_transaction_opens_and_credits :
  forall (e : env) (userId packageId : Z) (amount : JS.number)
         (wallet transactionTxt : string) (d : Db.t),
    let (d', r) := run (verify_transaction e userId packageId amount wallet transactionTxt) d in
    match r with
    | ok investmentId =>
        let txt := JS.trim transactionTxt in
        let before := Db.select_transactions userId d in
        let after := Db.select_transactions userId d' in
        investmentId = Db.seq_investments d + 1
        /\ (Db.investments d'
            = Db.investments d
              ++ [Inv.mk investmentId userId packageId amount (today e) (maturityDateStr e)
                         0%float "active" (Some wallet) (Some txt)]
            /\ Db.transactions d'
               = Db.transactions d ++ [Tx.mk userId "deposit" amount (Some investmentId)]
            /\ active_ids userId d' = active_ids userId d ++ [investmentId]
            /\ Withdraw.totalDeposits after = (Withdraw.totalDeposits before + amount)%float
            /\ Withdraw.allAccrualsAndBonuses after = Withdraw.allAccrualsAndBonuses before
            /\ Withdraw.totalWithdrawn after = Withdraw.totalWithdrawn before
            /\ Withdraw.investmentsFromBalance after
               = Withdraw.investmentsFromBalance before)
        /\ (6 <= JS.length txt <= 50)%nat
        /\ select_by_transaction_txt txt userId d = None
        /\ (wallet = "airtel" \/ wallet = "mtn")
        /\ exists packageData,
             Db.select_package packageId d = Some packageData
             /\ JS.gt (JS.Math_abs (amount - Pkg.amount packageData)%float) 0.01%float
                = false
    | fail code _ => code <> 500 -> d' = d
    end.
Proof.
  intros e userId packageId amount wallet transactionTxt d.
  unfold verify_transaction.
  destruct (1 <=? amount)%float eqn:Hmin; [|intro; reflexivity].
  destruct (String.eqb_spec wallet "airtel") as [Hairtel|Hairtel];
    destruct (String.eqb_spec wallet "mtn") as [Hmtn|Hmtn];
    cbn [negb orb]; try (intro; reflexivity).
  all: destruct (transactionTxt =? "")%string; [intro; reflexivity|].
  all: cbn [bind dbGet dbQuery run].
  all: destruct (Db.select_package packageId d) as [packageData|] eqn:Hpkg;
    [|intro; reflexivity].
  all: destruct (JS.gt _ _) eqn:Hmatch; [intro; reflexivity|].
  all: cbn [bind dbGet dbQuery run].
  all: destruct (select_by_transaction_txt (JS.trim transactionTxt) userId d) eqn:Hnew;
    [intro; reflexivity|].
  all: unfold verifyTransactionTxt.
  all: destruct (String.eqb_spec (JS.trim transactionTxt) ""); [intro; reflexivity|].
  all: destruct (Nat.ltb_spec (JS.length (JS.trim transactionTxt)) 6);
    [intro; reflexivity|].
  all: destruct (Nat.ltb_spec 50 (JS.length (JS.trim transactionTxt)));
    [intro; reflexivity|].
  all: cbn [negb orb bind dbGet dbQuery dbRun run].
  all: unfold Db.insert_investment, Db.insert_transaction; cbn [fst snd].
  all: match goal with
       | |- context [Db.select_user ?u ?d1] =>
           change (Db.select_user u d1) with (Db.select_user u d)
       end.
  all: destruct (Db.select_user userId d); [|intros Hcode; congruence].
  all: cbn zeta.
  all: split; [reflexivity|].
  all: split;
    [apply (opened_effects userId amount
              (fun id => Inv.mk id userId packageId amount (today e) (maturityDateStr e)
                                0%float "active" (Some wallet)
                                (Some (JS.trim transactionTxt))) d);
     try reflexivity; apply positive_of_min_1; exact Hmin|].
  all: split; [lia|]. 
  all: split; [reflexivity|].
  all: split; [tauto|].
  all: exists packageData; split; [reflexivity|exact Hmatch].
Qed.

(** X12: an accepted [POST /api/invest] both opens an active investment of
    the package and posts a deposit entry of the same amount, so the paid
    amount is locked in the investment and at the same time counted in the
    balance projection: the caller's active investments gain the new id
    whatever they held before, the deposits summed by the projection grow
    by the amount and the other sums stay as they were.  It is accepted
    only with a reference that is a mock one or that the payment provider
    verifies, for a package that exists and an amount within 0.01 of the
    package's.  A refusal other than the 500 after the inserts leaves the
    database as it was. *)
Theorem invest_opens_and_credits :
  forall (e : env) (userId packageId : Z) (amount : JS.number)
         (paymentReference : string) (d : Db.t),
    let (d', r) := run (invest e userId packageId amount paymentReference) d in
    match r with
    | ok investmentId =>
        let isMockPayment := String.prefix "MOCK_" paymentReference in
        let before := Db.select_transactions userId d in
        let after := Db.select_transactions userId d' in
        investmentId = Db.seq_investments d + 1
        /\ (Db.investments d'
            = Db.investments d
              ++ [Inv.mk investmentId userId packageId amount (today e) (maturityDateStr e)
                         0%float "active"
                         (if isMockPayment then Some "mock" else None)
                         (if isMockPayment then Some paymentReference else None)]
            /\ Db.transactions d'
               = Db.transactions d ++ [Tx.mk userId "deposit" amount (Some investmentId)]
            /\ active_ids userId d' = active_ids userId d ++ [investmentId]
            /\ Withdraw.totalDeposits after = (Withdraw.totalDeposits before + amount)%float
            /\ Withdraw.allAccrualsAndBonuses after = Withdraw.allAccrualsAndBonuses before
            /\ Withdraw.totalWithdrawn after = Withdraw.totalWithdrawn before
            /\ Withdraw.investmentsFromBalance after
               = Withdraw.investmentsFromBalance before)
        /\ (isMockPayment = true \/ verifyPayment e paymentReference = true)
        /\ exists packageData,
             Db.select_package packageId d = Some packageData
             /\ JS.gt (JS.Math_abs (amount - Pkg.amount packageData)%float) 0.01%float
                = false
    | fail code _ => code <> 500 -> d' = d
    end.
Proof.
  intros e userId packageId amount paymentReference d.
  unfold invest.
  destruct (1 <=? amount)%float eqn:Hmin; [|intro; reflexivity].
  destruct (paymentReference =? "")%string; [intro; reflexivity|].
  cbn [negb orb].
  destruct (negb (String.prefix "MOCK_" paymentReference)
            && negb (verifyPayment e paymentReference)) eqn:Hpaid;
    [intro; reflexivity|].
  cbn [bind dbGet dbQuery run].
  destruct (Db.select_package packageId d) as [packageData|] eqn:Hpkg;
    [|intro; reflexivity].
  destruct (JS.gt _ _) eqn:Hmatch; [intro; reflexivity|].
  cbn [bind dbGet dbQuery dbRun run].
  unfold Db.insert_investment, Db.insert_transaction; cbn [fst snd].
  match goal with
  | |- context [Db.select_user ?u ?d1] =>
      change (Db.select_user u d1) with (Db.select_user u d)
  end.
  destruct (Db.select_user userId d); [|intros Hcode; congruence].
  cbn zeta.
  split; [reflexivity|].
  split;
    [apply (opened_effects userId amount
              (fun id => Inv.mk id userId packageId amount (today e) (maturityDateStr e)
                                0%float "active"
                                (if String.prefix "MOCK_" paymentReference
                                 then Some "mock" else None)
                                (if String.prefix "MOCK_" paymentReference
                                 then Some paymentReference else None)) d);
     try reflexivity; apply positive_of_min_1; exact Hmin|].
  split.
  - destruct (String.prefix "MOCK_" paymentReference); [left; reflexivity|].
    destruct (verifyPayment e paymentReference); [right; reflexivity|discriminate].
  - exists packageData. split; [reflexivity|exact Hmatch].
Qed.

(** ** Resetting an account's investments *)

Lemma filter_filter {A : Type} (p q : A -> bool) (l : list A) :
  filter p (filter q l) = filter (fun x => q x && p x) l.
Proof.
  induction l as [|x l IH]; [reflexivity|].
  cbn. destruct (q x); cbn; [destruct (p x)|]; rewrite IH; reflexivity.
Qed.

Lemma filter_none {A : Type} (p : A -> bool) (l : list A) :
  (forall x, p x = false) -> filter p l = [].
Proof.
  intros H. induction l as [|x l IH]; [reflexivity|].
  cbn. rewrite H. exact IH.
Qed.

(** X13: [POST /api/admin/users/:userId/reset-investments] answers 404 for
    an unknown account and changes nothing.  Otherwise it removes every
    investment of the account, whatever its status, and with them every
    ledger entry linked to one of them, deposits and accruals included,
    and every investment-type entry of the account; the entries that stay
    are exactly the others, in their order.  The account's level becomes
    L0, it holds no active investment, and no other account's investments
    change. *)
Theorem reset_investments_removes :
  forall (userId : Z) (d : Db.t),
    let (d', r) := run (reset_investments userId) d in
    match r with
    | ok deletedInvestments =>
        let ids := map Inv.id (select_investments_of userId d) in
        Db.select_user userId d <> None
        /\ deletedInvestments = length (select_investments_of userId d)
        /\ Db.transactions d'
           = filter (fun t => negb (linked_to ids t)
                              && negb ((Tx.user_id t =? userId)
                                       && (Tx.type t =? "investment")%string))
                    (Db.transactions d)
        /\ Db.investments d'
           = filter (fun i => negb (Inv.user_id i =? userId)) (Db.investments d)
        /\ select_investments_of userId d' = []
        /\ active_ids userId d' = []
        /\ (forall other, other <> userId ->
              select_investments_of other d' = select_investments_of other d)
        /\ option_map Usr.level (Db.select_user userId d') = Some (Some "L0")
        /\ (forall t i,
              In t (Db.transactions d') ->
              In i (Db.investments d) ->
              Inv.user_id i = userId ->
              Tx.investment_id t <> Some (Inv.id i))
    | fail code _ => code = 404 /\ Db.select_user userId d = None /\ d' = d
    end.
Proof.
  intros userId d. unfold reset_investments.
  cbn [bind dbGet dbQuery run].
  destruct (Db.select_user userId d) as [user|] eqn:Huser;
    [|cbn; repeat split; reflexivity].
  cbn [bind dbGet dbQuery run].
  set (ids := map Inv.id (select_investments_of userId d)).
  assert (Hledger :
    forall rows : list Tx.row,
      filter (fun t => negb ((Tx.user_id t =? userId) && (Tx.type t =? "investment")%string))
        (if (0 <? length (select_investments_of userId d))%nat
         then filter (fun t => negb (linked_to ids t)) rows
         else rows)
      = filter (fun t => negb (linked_to ids t)
                         && negb ((Tx.user_id t =? userId)
                                  && (Tx.type t =? "investment")%string)) rows).
  { intros rows. destruct (Nat.ltb_spec 0 (length (select_investments_of userId d))) as [|Hle].
    - apply filter_filter.
    - apply filter_ext. intros t. unfold linked_to, ids.
      destruct (select_investments_of userId d); [|cbn in Hle; lia].
      cbn. destruct (Tx.investment_id t); reflexivity. }
  assert (Hrun :
    run (_ <- (if (0 <? length (select_investments_of userId d))%nat
               then dbRun (delete_transactions_of ids)
               else Ret tt) ;;
         _ <- dbRun (delete_transactions_of_type userId "investment") ;;
         _ <- dbRun (delete_investments_of userId) ;;
         _ <- dbRun (Db.set_user_level userId "L0") ;;
         Ret (ok (length (select_investments_of userId d)))) d
    = (fst (Db.set_user_level userId "L0"
              (fst (delete_investments_of userId
                      (Db.with_transactions
                         (fun rows =>
                            filter (fun t => negb ((Tx.user_id t =? userId)
                                                   && (Tx.type t =? "investment")%string))
                              (if (0 <? length (select_investments_of userId d))%nat
                               then filter (fun t => negb (linked_to ids t)) rows
                               else rows)) d)))),
       ok (length (select_investments_of userId d)))).
  { destruct (0 <? length (select_investments_of userId d))%nat; reflexivity. }
  fold ids. rewrite Hrun. clear Hrun.
  unfold Db.set_user_level, delete_investments_of. cbn [fst Db.with_users Db.with_investments
    Db.with_transactions Db.transactions Db.investments Db.users Db.packages
    Db.withdrawal_requests Db.seq_investments Db.seq_withdrawal_requests].
  split; [discriminate|]. split; [reflexivity|].
  split; [apply Hledger|]. split; [reflexivity|].
  split.
  { unfold select_investments_of. cbn. rewrite filter_filter.
    apply filter_none. intros i.
    destruct (Inv.user_id i =? userId); reflexivity. }
  split.
  { unfold active_ids, Db.select_active_investments. cbn. rewrite filter_filter.
    rewrite filter_none; [reflexivity|]. intros i.
    destruct (Inv.user_id i =? userId); reflexivity. }
  split.
  { intros other Hother. unfold select_investments_of. cbn. rewrite filter_filter.
    apply filter_ext. intros i.
    destruct (Z.eqb_spec (Inv.user_id i) userId) as [Hi|Hi]; cbn; [|reflexivity].
    rewrite Hi. symmetry. apply Z.eqb_neq. congruence. }
  split.
  { unfold Db.select_user, Db.update in *. cbn.
    rewrite (find_update Usr.id userId) by reflexivity.
    rewrite Huser. reflexivity. }
  intros t i Ht Hi Hown Hlink.
  rewrite Hledger in Ht. apply filter_In in Ht. destruct Ht as [_ Hkeep].
  apply andb_prop in Hkeep. destruct Hkeep as [Hkeep _].
  unfold linked_to in Hkeep. rewrite Hlink in Hkeep.
  assert (Hin : existsb (Z.eqb (Inv.id i)) ids = true).
  { apply existsb_exists. exists (Inv.id i). split; [|apply Z.eqb_refl].
    unfold ids. apply in_map. unfold select_investments_of.
    apply filter_In. split; [exact Hi|]. apply Z.eqb_eq. exact Hown. }
  rewrite Hin in Hkeep. discriminate.
Qed.

(** ** Withdrawal requests and the balance *)

(** The answer of [POST /api/withdraw] depends on the users, the
    investments and the ledger only, but for the id given to the request. *)
Lemma withdraw_depends (e : env) (userId : Z) (investmentId : option Z)
    (password : string) (amount : JS.number) (d d1 : Db.t) :
  Db.users d1 = Db.users d ->
  Db.investments d1 = Db.investments d ->
  Db.transactions d1 = Db.transactions d ->
  match snd (run (withdraw e userId investmentId password amount) d),
        snd (run (withdraw e userId investmentId password amount) d1) with
  | ok w, ok w1 =>
      WithdrawOk.request_id w = Db.seq_withdrawal_requests d + 1
      /\ w1 = WithdrawOk.mk (Db.seq_withdrawal_requests d1 + 1)
                (WithdrawOk.gross_amount w) (WithdrawOk.charge w)
                (WithdrawOk.net_amount w) (WithdrawOk.wallet w) (WithdrawOk.status w)
  | fail code error, fail code1 error1 => code1 = code /\ error1 = error
  | _, _ => False
  end.
Proof.
  intros Husers Hinvestments Hledger.
  assert (Hu : Db.select_user userId d1 = Db.select_user userId d)
    by (unfold Db.select_user; rewrite Husers; reflexivity).
  assert (Hi : forall id, Db.select_investment id d1 = Db.select_investment id d)
    by (intros id; unfold Db.select_investment; rewrite Hinvestments; reflexivity).
  assert (Ht : Db.select_transactions userId d1 = Db.select_transactions userId d)
    by (unfold Db.select_transactions; rewrite Hledger; reflexivity).
  unfold withdraw.
  destruct (_ || _); [cbn; split; reflexivity|].
  cbn [bind dbGet dbQuery run]. rewrite Hu.
  destruct (Db.select_user userId d) as [user|]; [|cbn; split; reflexivity].
  destruct (JS.falsy (Usr.withdrawal_password user)); [cbn; split; reflexivity|].
  destruct (negb _); [cbn; split; reflexivity|].
  destruct (JS.falsy (Usr.withdrawal_wallet user)); [cbn; split; reflexivity|].
  destruct (match Usr.last_withdrawal_date user with
            | Some date => (date =? today e)%string
            | None => false
            end); [cbn; split; reflexivity|].
  destruct (JS.lt amount 50); [cbn; split; reflexivity|].
  destruct (given investmentId) as [id|].
  - cbn [bind dbGet dbQuery run]. rewrite Hi.
    destruct (match Db.select_investment id d with
              | Some i => if Inv.user_id i =? userId then Some i else None
              | None => None
              end) as [investment|]; [|cbn; split; reflexivity].
    destruct (Inv.status investment =? "withdrawn")%string; [cbn; split; reflexivity|].
    destruct (JS.gt amount _); [cbn; split; reflexivity|].
    cbn [bind dbGet dbQuery run].
    destruct (JS.falsy _ || _); [cbn; split; reflexivity|].
    unfold Db.insert_withdrawal_request. cbn. split; reflexivity.
  - cbn [bind dbGet dbQuery run]. rewrite Ht.
    destruct (JS.gt amount _); [cbn; split; reflexivity|].
    cbn [bind dbGet dbQuery run].
    destruct (JS.falsy _ || _); [cbn; split; reflexivity|].
    unfold Db.insert_withdrawal_request. cbn. split; reflexivity.
Qed.

(** X14: a withdrawal request places no hold on the money.  An accepted
    [POST /api/withdraw] writes only the pending request: the ledger, the
    users and the investments are as before, so the balance projection and
    the once-a-day date are unchanged, and the same request sent again at
    once is accepted again, under the next request id. *)
Theorem withdraw_places_no_hold :
  forall (e : env) (userId : Z) (investmentId : option Z) (password : string)
         (amount : JS.number) (d d1 : Db.t) (w : WithdrawOk.t),
    run (withdraw e userId investmentId password amount) d = (d1, ok w) ->
    Db.transactions d1 = Db.transactions d
    /\ Db.users d1 = Db.users d
    /\ Db.investments d1 = Db.investments d
    /\ length (Db.withdrawal_requests d1) = S (length (Db.withdrawal_requests d))
    /\ exists d2,
         run (withdraw e userId investmentId password amount) d1
         = (d2, ok (WithdrawOk.mk (WithdrawOk.request_id w + 1)
                      (WithdrawOk.gross_amount w) (WithdrawOk.charge w)
                      (WithdrawOk.net_amount w) (WithdrawOk.wallet w)
                      (WithdrawOk.status w)))
         /\ length (Db.withdrawal_requests d2) = S (S (length (Db.withdrawal_requests d))).
Proof.
  intros e userId investmentId password amount d d1 w Hrun.
  pose proof (withdraw_ok e userId investmentId password amount d d1 w Hrun) as Hok.
  destruct Hok as [user [_ [_ [_ [_ [_ [_ [Hd1 _]]]]]]]].
  assert (Hledger : Db.transactions d1 = Db.transactions d) by (subst d1; reflexivity).
  assert (Husers : Db.users d1 = Db.users d) by (subst d1; reflexivity).
  assert (Hinvestments : Db.investments d1 = Db.investments d) by (subst d1; reflexivity).
  assert (Hlen : length (Db.withdrawal_requests d1) = S (length (Db.withdrawal_requests d))).
  { subst d1. unfold Db.insert_withdrawal_request. cbn.
    rewrite length_app. cbn. lia. }
  assert (Hseq : Db.seq_withdrawal_requests d1 = Db.seq_withdrawal_requests d + 1)
    by (subst d1; reflexivity).
  repeat (split; [assumption|]).
  pose proof (withdraw_depends e userId investmentId password amount d d1
                Husers Hinvestments Hledger) as Hdep.
  rewrite Hrun in Hdep. cbn [snd] in Hdep.
  destruct (run (withdraw e userId investmentId password amount) d1)
    as [d2 [w1|code error]] eqn:Hrun2; cbn [snd] in Hdep; [|contradiction].
  destruct Hdep as [Hid ->].
  exists d2. split.
  - rewrite Hseq, Hid. reflexivity.
  - pose proof (withdraw_ok e userId investmentId password amount d1 d2 _ Hrun2) as Hok2.
    destruct Hok2 as [user2 [_ [_ [_ [_ [_ [_ [Hd2 _]]]]]]]].
    subst d2. unfold Db.insert_withdrawal_request. cbn.
    rewrite length_app, Hlen. cbn. lia.
Qed.

(** The theorem applied to Alice's request for 100 out of her 1000: sent
    twice, it is accepted twice. *)
Lemma withdraw_places_no_hold_witness :
  let d1 := fst (run (withdraw Example.e0 1 None "secret" 100) Example.db0) in
  is_ok (snd (run (withdraw Example.e0 1 None "secret" 100) d1)) = true.
Proof.
  cbn zeta.
  destruct (withdraw_places_no_hold Example.e0 1 None "secret" 100 Example.db0
              (fst (run (withdraw Example.e0 1 None "secret" 100) Example.db0))
              (WithdrawOk.mk 1 100 (100 * 0.12) (100 - 100 * 0.12) "airtel" "pending"))
    as [_ [_ [_ [_ [d2 [H _]]]]]].
  - vm_compute. reflexivity.
  - rewrite H. reflexivity.
Defined.

Lemma select_withdrawal_request_marked (e : env) (adminId requestId : Z)
    (newStatus : string) (admin_notes : option string) (d : Db.t) (request : Wr.row) :
  Db.select_withdrawal_request requestId d = Some request ->
  exists request',
    Db.select_withdrawal_request requestId (marked e adminId requestId newStatus admin_notes d)
    = Some request'
    /\ Wr.status request' = newStatus
    /\ Wr.user_id request' = Wr.user_id request.
Proof.
  intros Hreq.
  unfold marked, Db.select_withdrawal_request, Db.process_withdrawal_request, Db.update in *.
  cbn. rewrite (find_update Wr.id requestId) by reflexivity.
  rewrite Hreq. cbn. eexists. split; [reflexivity|]. split; reflexivity.
Qed.

Lemma select_user_dated (userId other : Z) (today : string) (d : Db.t) :
  Db.select_user userId (fst (Db.set_last_withdrawal_date other today d))
  = option_map (fun u => if Usr.id u =? other
                         then Usr.mk (Usr.id u) (Usr.email u) (Usr.phone u) (Usr.level u)
                                (Usr.withdrawal_password u) (Usr.withdrawal_wallet u)
                                (Usr.withdrawal_phone u) (Some today)
                         else u)
      (Db.select_user userId d).
Proof.
  unfold Db.select_user, Db.set_last_withdrawal_date, Db.update. cbn.
  induction (Db.users d) as [|u rows IH]; [reflexivity|].
  cbn. destruct (Usr.id u =? other) eqn:Hother; cbn;
    destruct (Usr.id u =? userId); cbn; rewrite ?Hother; try reflexivity; exact IH.
Qed.

Lemma process_withdrawal_request_settled (e : env) (adminId requestId : Z)
    (action : string) (admin_notes : option string) (d : Db.t) (request : Wr.row) :
  Db.select_withdrawal_request requestId d = Some request ->
  Db.select_user (Wr.user_id request) d <> None ->
  (Wr.status request =? "pending")%string = false ->
  exists error,
    run (process_withdrawal_request e adminId requestId action admin_notes) d
    = (d, fail 400 error).
Proof.
  intros Hreq Huser Hsettled. unfold process_withdrawal_request.
  destruct (negb _); [eexists; reflexivity|].
  cbn. rewrite Hreq.
  destruct (Db.select_user (Wr.user_id request) d); [|congruence].
  rewrite Hsettled. cbn. eexists; reflexivity.
Qed.

(** X15: a withdrawal request is decided once.  Denying a pending request
    answers 'denied', marks it, and writes nothing else: no ledger entry,
    and the users and investments stay as they were, so the account's
    balance and its once-a-day date are untouched.  After either decision,
    approve or deny, every further decision on the request is refused with
    status 400 and changes nothing. *)
Theorem withdrawal_request_decided_once :
  forall (e : env) (adminId requestId : Z) (admin_notes : option string)
         (d : Db.t) (request : Wr.row),
    Db.select_withdrawal_request requestId d = Some request ->
    Db.select_user (Wr.user_id request) d <> None ->
    Wr.status request = "pending" ->
    let approved :=
      run (process_withdrawal_request e adminId requestId "approve" admin_notes) d in
    let denied :=
      run (process_withdrawal_request e adminId requestId "deny" admin_notes) d in
    (snd denied = ok "denied"
     /\ Db.transactions (fst denied) = Db.transactions d
     /\ Db.users (fst denied) = Db.users d
     /\ Db.investments (fst denied) = Db.investments d
     /\ option_map Wr.status (Db.select_withdrawal_request requestId (fst denied))
        = Some "denied")
    /\ (forall (d1 : Db.t) (e2 : env) (adminId2 : Z) (action2 : string)
               (admin_notes2 : option string),
          d1 = fst approved \/ d1 = fst denied ->
          exists error,
            run (process_withdrawal_request e2 adminId2 requestId action2 admin_notes2) d1
            = (d1, fail 400 error)).
Proof.
  intros e adminId requestId admin_notes d request Hreq Huser Hpending.
  assert (Happroved :
    run (process_withdrawal_request e adminId requestId "approve" admin_notes) d
    = (paid_out e request (marked e adminId requestId "paid" admin_notes d), ok "paid")).
  { unfold process_withdrawal_request. cbn. rewrite Hreq.
    destruct (Db.select_user (Wr.user_id request) d); [|congruence].
    rewrite Hpending. reflexivity. }
  assert (Hdenied :
    run (process_withdrawal_request e adminId requestId "deny" admin_notes) d
    = (marked e adminId requestId "denied" admin_notes d, ok "denied")).
  { unfold process_withdrawal_request. cbn. rewrite Hreq.
    destruct (Db.select_user (Wr.user_id request) d); [|congruence].
    rewrite Hpending. reflexivity. }
  cbn zeta. rewrite Happroved, Hdenied. cbn [fst snd].
  destruct (select_withdrawal_request_marked e adminId requestId "denied" admin_notes d
              request Hreq) as [denied [Hdenied1 [Hdenied2 Hdenied3]]].
  destruct (select_withdrawal_request_marked e adminId requestId "paid" admin_notes d
              request Hreq) as [paid [Hpaid1 [Hpaid2 Hpaid3]]].
  split.
  - split; [reflexivity|]. split; [reflexivity|]. split; [reflexivity|].
    split; [reflexivity|]. rewrite Hdenied1. cbn. rewrite Hdenied2. reflexivity.
  - intros d1 e2 adminId2 action2 admin_notes2 [-> | ->].
    + apply (process_withdrawal_request_settled e2 adminId2 requestId action2 admin_notes2
               _ paid).
      * exact Hpaid1.
      * rewrite Hpaid3. unfold paid_out.
        change (Db.select_user (Wr.user_id request)
                  (fst (Db.insert_transaction _ ?x)))
          with (Db.select_user (Wr.user_id request) x).
        rewrite select_user_dated.
        change (Db.select_user (Wr.user_id request)
                  (marked e adminId requestId "paid" admin_notes d))
          with (Db.select_user (Wr.user_id request) d).
        destruct (Db.select_user (Wr.user_id request) d); [discriminate|congruence].
      * rewrite Hpaid2. reflexivity.
    + apply (process_withdrawal_request_settled e2 adminId2 requestId action2 admin_notes2
               _ denied).
      * exact Hdenied1.
      * rewrite Hdenied3. exact Huser.
      * rewrite Hdenied2. reflexivity.
Qed.

(** The theorem applied to Alice's request for 100: denied, it leaves her
    ledger as it was. *)
Lemma withdrawal_request_decided_once_witness :
  Db.transactions
    (fst (run (process_withdrawal_request Example.e0 9 1 "deny" None)
              WithdrawalExample.requested))
  = Db.transactions WithdrawalExample.requested.
Proof.
  destruct (withdrawal_request_decided_once Example.e0 9 1 None
              WithdrawalExample.requested
              (Wr.mk 1 1 None 100 100 (100 * 0.12) (100 - 100 * 0.12) "airtel"
                     "0977000001" "pending" None None None))
    as [[_ [H _]] _].
  - vm_compute. reflexivity.
  - vm_compute. discriminate.
  - reflexivity.
  - exact H.
Defined.

Lemma withdraw_same_day (e : env) (userId : Z) (investmentId : option Z)
    (password : string) (amount : JS.number) (d : Db.t) (user : Usr.row) :
  Db.select_user userId d = Some user ->
  Usr.last_withdrawal_date user = Some (today e) ->
  exists code error,
    run (withdraw e userId investmentId password amount) d = (d, fail code error).
Proof.
  intros Huser Hdate. unfold withdraw.
  destruct (_ || _); [eexists; eexists; reflexivity|].
  cbn [bind dbGet dbQuery run]. rewrite Huser.
  destruct (JS.falsy (Usr.withdrawal_password user)); [eexists; eexists; reflexivity|].
  destruct (negb _); [eexists; eexists; reflexivity|].
  destruct (JS.falsy (Usr.withdrawal_wallet user)); [eexists; eexists; reflexivity|].
  rewrite Hdate, String.eqb_refl. eexists; eexists; reflexivity.
Qed.

(** X16: the once-a-day rule is set by the approval, not by the request.
    After a pending request is approved, every [POST /api/withdraw] of the
    same account on the same day is refused and changes nothing, whatever
    its amount, password and investment.  After the request is denied
    instead, a withdrawal is answered as it would have been before the
    decision. *)
Theorem approval_blocks_the_day :
  forall (e : env) (adminId requestId : Z) (admin_notes : option string)
         (d : Db.t) (request : Wr.row),
    Db.select_withdrawal_request requestId d = Some request ->
    Db.select_user (Wr.user_id request) d <> None ->
    Wr.status request = "pending" ->
    let approved :=
      fst (run (process_withdrawal_request e adminId requestId "approve" admin_notes) d) in
    let denied :=
      fst (run (process_withdrawal_request e adminId requestId "deny" admin_notes) d) in
    forall (e2 : env) (investmentId : option Z) (password : string) (amount : JS.number),
      (today e2 = today e ->
       exists code error,
         run (withdraw e2 (Wr.user_id request) investmentId password amount) approved
         = (approved, fail code error))
      /\ is_ok (snd (run (withdraw e2 (Wr.user_id request) investmentId password amount)
                         denied))
         = is_ok (snd (run (withdraw e2 (Wr.user_id request) investmentId password amount)
                           d)).
Proof.
  intros e adminId requestId admin_notes d request Hreq Huser Hpending.
  assert (Happroved :
    run (process_withdrawal_request e adminId requestId "approve" admin_notes) d
    = (paid_out e request (marked e adminId requestId "paid" admin_notes d), ok "paid")).
  { unfold process_withdrawal_request. cbn. rewrite Hreq.
    destruct (Db.select_user (Wr.user_id request) d); [|congruence].
    rewrite Hpending. reflexivity. }
  assert (Hdenied :
    run (process_withdrawal_request e adminId requestId "deny" admin_notes) d
    = (marked e adminId requestId "denied" admin_notes d, ok "denied")).
  { unfold process_withdrawal_request. cbn. rewrite Hreq.
    destruct (Db.select_user (Wr.user_id request) d); [|congruence].
    rewrite Hpending. reflexivity. }
  cbn zeta. rewrite Happroved, Hdenied. cbn [fst].
  intros e2 investmentId password amount. split.
  - intros Htoday.
    destruct (Db.select_user (Wr.user_id request) d) as [user|] eqn:Hu; [|congruence].
    assert (Hid : Usr.id user = Wr.user_id request).
    { unfold Db.select_user in Hu. apply find_some in Hu.
      destruct Hu as [_ Hu]. apply Z.eqb_eq. exact Hu. }
    eapply withdraw_same_day.
    + unfold paid_out.
      change (Db.select_user (Wr.user_id request)
                (fst (Db.insert_transaction _ ?x)))
        with (Db.select_user (Wr.user_id request) x).
      rewrite select_user_dated.
      change (Db.select_user (Wr.user_id request)
                (marked e adminId requestId "paid" admin_notes d))
        with (Db.select_user (Wr.user_id request) d).
      rewrite Hu. cbn [option_map]. rewrite Hid, Z.eqb_refl. reflexivity.
    + cbn. rewrite Htoday. reflexivity.
  - pose proof (withdraw_depends e2 (Wr.user_id request) investmentId password amount d
                  (marked e adminId requestId "denied" admin_notes d)
                  eq_refl eq_refl eq_refl) as Hdep.
    destruct (snd (run (withdraw e2 (Wr.user_id request) investmentId password amount) d));
      destruct (snd (run (withdraw e2 (Wr.user_id request) investmentId password amount)
                         (marked e adminId requestId "denied" admin_notes d)));
      try contradiction; reflexivity.
Qed.

(** The theorem applied to Alice's request for 100, approved: a second
    request on the same day is refused. *)
Lemma approval_blocks_the_day_witness :
  is_ok (snd (run (withdraw Example.e0 1 None "secret" 100) WithdrawalExample.paid))
  = false.
Proof.
  destruct (proj1 (approval_blocks_the_day Example.e0 9 1 None
                     WithdrawalExample.requested
                     (Wr.mk 1 1 None 100 100 (100 * 0.12) (100 - 100 * 0.12) "airtel"
                            "0977000001" "pending" None None None)
                     ltac:(vm_compute; reflexivity)
                     ltac:(vm_compute; discriminate)
                     eq_refl
                     Example.e0 None "secret" 100)
             eq_refl) as [code [error H]].
  cbn [Wr.user_id] in H. unfold WithdrawalExample.paid. rewrite H. reflexivity.
Defined.

(** ** Seeding the packages *)

Lemma flat_map_nil {A B : Type} (f : A -> list B) (l : list A) :
  (forall x, In x l -> f x = []) -> flat_map f l = [].
Proof.
  intros H. induction l as [|x l IH]; [reflexivity|].
  cbn. rewrite (H x) by (left; reflexivity).
  apply IH. intros y Hy. apply H. right. exact Hy.
Qed.

Lemma fold_insert_package (items : list (string * JS.number * JS.number)) :
  forall (d : Db.t) (seq_packages : Z),
    fold_left (fun s pkg => insert_package pkg s) items (d, seq_packages)
    = (Db.mk (Db.users d) (Db.packages d ++ seeded seq_packages items)
             (Db.investments d) (Db.transactions d) (Db.withdrawal_requests d)
             (Db.seq_investments d) (Db.seq_withdrawal_requests d),
       seq_packages + Z.of_nat (length items)).
Proof.
  induction items as [|[[level amount] dailyIncome] rest IH]; intros d seq_packages.
  - cbn. rewrite app_nil_r, Z.add_0_r. destruct d; reflexivity.
  - cbn [fold_left]. unfold insert_package at 2. rewrite IH.
    cbn [Db.users Db.packages Db.investments Db.transactions Db.withdrawal_requests
         Db.seq_investments Db.seq_withdrawal_requests seeded length].
    rewrite <- app_assoc. cbn [app]. f_equal. lia.
Qed.

Lemma seedPackages_run (seq_packages : Z) (d : Db.t) :
  seedPackages seq_packages d
  = (Db.mk (Db.users d) (seeded seq_packages seed) (Db.investments d)
           (Db.transactions d) (Db.withdrawal_requests d) (Db.seq_investments d)
           (Db.seq_withdrawal_requests d),
     seq_packages + 10).
Proof. unfold seedPackages. rewrite fold_insert_package. reflexivity. Qed.

Lemma seeded_ids (items : list (string * JS.number * JS.number)) :
  forall (seq_packages : Z) (p : Pkg.row),
    In p (seeded seq_packages items) -> seq_packages < Pkg.id p.
Proof.
  induction items as [|[[level amount] dailyIncome] rest IH]; intros seq_packages p Hin.
  - destruct Hin.
  - cbn [seeded] in Hin. destruct Hin as [<-|Hin]; [cbn; lia|].
    specialize (IH _ _ Hin). lia.
Qed.

Lemma seeded_income (items : list (string * JS.number * JS.number)) :
  forall seq_packages : Z,
    map (fun p => (Pkg.amount p * Pkg.daily_rate p)%float) (seeded seq_packages items)
    = map (fun pkg => (snd (fst pkg) * (snd pkg / snd (fst pkg)))%float) items.
Proof.
  induction items as [|[[level amount] dailyIncome] rest IH]; intros seq_packages.
  - reflexivity.
  - cbn [seeded map]. rewrite IH. reflexivity.
Qed.

Lemma seedPackages_dangling (seq_packages : Z) (d : Db.t) :
  packages_given seq_packages d ->
  forall i, In i (Db.investments d) ->
    Db.select_package (Inv.package_id i) (fst (seedPackages seq_packages d)) = None.
Proof.
  intros Hgiven i Hin. specialize (Hgiven i Hin).
  rewrite seedPackages_run. unfold Db.select_package. cbn [fst Db.packages].
  destruct (find _ _) as [p|] eqn:Hfind; [|reflexivity].
  apply find_some in Hfind. destruct Hfind as [Hp Heq].
  apply seeded_ids in Hp. apply Z.eqb_eq in Heq. lia.
Qed.

(** X17: [seedPackages] replaces the packages by the ten levels L1..L10
    under ten new ids, the next ten of the table's counter, and leaves the
    other tables alone.  For each level, the package amount times the stored
    daily rate is exactly the level's daily income.  Since the ids are new,
    no investment made before the seeding finds its package any more, and
    the daily accrual job run after it credits nothing. *)
Theorem seedPackages_fresh_ids :
  forall (seq_packages : Z) (d : Db.t),
    packages_given seq_packages d ->
    let (d', seq') := seedPackages seq_packages d in
    map Pkg.level (Db.packages d') = levels
    /\ map Pkg.id (Db.packages d') = map (fun k => seq_packages + k) [1; 2; 3; 4; 5; 6; 7; 8; 9; 10]
    /\ seq' = seq_packages + 10
    /\ map (fun p => (Pkg.amount p * Pkg.daily_rate p)%float) (Db.packages d')
       = map snd seed
    /\ Db.investments d' = Db.investments d
    /\ Db.transactions d' = Db.transactions d
    /\ Db.users d' = Db.users d
    /\ (forall i, In i (Db.investments d) -> Db.select_package (Inv.package_id i) d' = None)
    /\ run daily_accrual_job d' = (d', 0%nat).
Proof.
  intros seq_packages d Hgiven.
  pose proof (seedPackages_dangling seq_packages d Hgiven) as Hdangling.
  rewrite seedPackages_run in *. cbn [fst] in Hdangling.
  cbn [Db.users Db.packages Db.investments Db.transactions].
  split; [reflexivity|].
  split; [cbn; repeat (f_equal; try lia)|].
  split; [reflexivity|].
  split; [rewrite seeded_income; vm_compute; reflexivity|].
  split; [reflexivity|]. split; [reflexivity|]. split; [reflexivity|].
  split; [exact Hdangling|].
  unfold daily_accrual_job. cbn [bind dbGet dbQuery run].
  match goal with
  | |- context [select_active_with_rate ?d'] =>
      assert (Hempty : select_active_with_rate d' = [])
  end.
  { unfold select_active_with_rate. apply flat_map_nil. intros i Hin.
    cbn [Db.investments] in Hin.
    rewrite (Hdangling i Hin).
    destruct (Inv.status i =? "active")%string; reflexivity. }
  rewrite Hempty. reflexivity.
Qed.

(** The theorem applied to the example's database after its two packages
    were given out: the seeded ids are 3 to 12. *)
Lemma seedPackages_fresh_ids_witness :
  map Pkg.id (Db.packages (fst (seedPackages 2 AccrualExample.opened)))
  = [3; 4; 5; 6; 7; 8; 9; 10; 11; 12]
  /\ run daily_accrual_job (fst (seedPackages 2 AccrualExample.opened))
     = (fst (seedPackages 2 AccrualExample.opened), 0%nat).
Proof.
  assert (Hgiven : packages_given 2 AccrualExample.opened).
  { intros i Hin. vm_compute in Hin. destruct Hin as [<-|[]]. vm_compute. discriminate. }
  pose proof (seedPackages_fresh_ids 2 AccrualExample.opened Hgiven) as H.
  destruct (seedPackages 2 AccrualExample.opened) as [d' seq'].
  destruct H as [_ [Hids [_ [_ [_ [_ [_ [_ Hjob]]]]]]]].
  cbn [fst]. split; [exact Hids|exact Hjob].
Defined.

(** ** Setting the status of an investment *)

Lemma withdraw_withdrawn (e : env) (userId id : Z) (password : string)
    (amount : JS.number) (d : Db.t) :
  id <> 0 ->
  (forall i, Db.select_investment id d = Some i -> Inv.status i = "withdrawn") ->
  exists code error,
    run (withdraw e userId (Some id) password amount) d = (d, fail code error).
Proof.
  intros Hid Hstatus. unfold withdraw.
  destruct (_ || _); [eexists; eexists; reflexivity|].
  cbn [bind dbGet dbQuery run].
  destruct (Db.select_user userId d) as [user|]; [|eexists; eexists; reflexivity].
  destruct (JS.falsy (Usr.withdrawal_password user)); [eexists; eexists; reflexivity|].
  destruct (negb _); [eexists; eexists; reflexivity|].
  destruct (JS.falsy (Usr.withdrawal_wallet user)); [eexists; eexists; reflexivity|].
  destruct (match Usr.last_withdrawal_date user with
            | Some date => (date =? today e)%string
            | None => false
            end); [eexists; eexists; reflexivity|].
  destruct (JS.lt amount 50); [eexists; eexists; reflexivity|].
  unfold given. destruct (Z.eqb_spec id 0) as [|_]; [contradiction|].
  cbn [bind dbGet dbQuery run].
  destruct (Db.select_investment id d) as [i|]; [|eexists; eexists; reflexivity].
  specialize (Hstatus i eq_refl).
  destruct (Inv.user_id i =? userId); [|eexists; eexists; reflexivity].
  rewrite Hstatus. eexists; eexists; reflexivity.
Qed.

(** X18: [PUT /api/admin/investments/:id] refuses a status other than
    'active', 'matured' and 'withdrawn' and changes nothing.  Otherwise it
    answers OK, whether or not an investment has the id and whatever its
    status was, and sets the status of the rows with that id; the ledger
    and the users stay as they were.  Once the status is not 'active' the
    investment is no active investment of any account and the daily accrual
    job passes it over; once it is 'withdrawn', every withdrawal against it
    is refused. *)
Theorem status_update_takes_effect :
  forall (id : Z) (status : string) (d : Db.t),
    let (d', r) := run (update_investment_status id status) d in
    match r with
    | ok _ =>
        In status ["active"; "matured"; "withdrawn"]
        /\ Db.transactions d' = Db.transactions d
        /\ Db.users d' = Db.users d
        /\ map Inv.id (Db.investments d') = map Inv.id (Db.investments d)
        /\ (forall i, In i (Db.investments d') ->
              if Inv.id i =? id then Inv.status i = status else In i (Db.investments d))
        /\ (status <> "active" ->
            (forall u, ~ In id (active_ids u d'))
            /\ (forall x, In x (select_active_with_rate d') -> Inv.id (fst x) <> id))
        /\ (status = "withdrawn" ->
            forall (e : env) (userId : Z) (password : string) (amount : JS.number),
              id <> 0 ->
              exists code error,
                run (withdraw e userId (Some id) password amount) d'
                = (d', fail code error))
    | fail code _ =>
        code = 400 /\ d' = d /\ ~ In status ["active"; "matured"; "withdrawn"]
    end.
Proof.
  intros id status d. unfold update_investment_status.
  destruct (existsb (String.eqb status) ["active"; "matured"; "withdrawn"]) eqn:Hvalid.
  - cbn [negb bind dbRun run]. unfold Db.set_investment_status at 1.
    cbn [fst snd run].
    set (set := fun i => Inv.mk (Inv.id i) (Inv.user_id i) (Inv.package_id i)
                           (Inv.deposit_amount i) (Inv.start_date i) (Inv.maturity_date i)
                           (Inv.total_accruals i) status (Inv.wallet i)
                           (Inv.transaction_txt i)).
    set (d' := Db.with_investments (Db.update (fun i => Inv.id i =? id) set) d).
    assert (Hrows : forall i, In i (Db.investments d') ->
              if Inv.id i =? id then Inv.status i = status else In i (Db.investments d)).
    { intros i Hin. unfold d' in Hin. cbn in Hin. unfold Db.update in Hin.
      apply in_map_iff in Hin. destruct Hin as [i0 [Hi Hin0]].
      destruct (Inv.id i0 =? id) eqn:Hi0; subst i.
      - cbn. rewrite Hi0. reflexivity.
      - rewrite Hi0. exact Hin0. }
    split.
    { apply existsb_exists in Hvalid. destruct Hvalid as [s [Hin Heq]].
      apply String.eqb_eq in Heq. subst s. exact Hin. }
    split; [reflexivity|]. split; [reflexivity|].
    split.
    { unfold d'. cbn. unfold Db.update. rewrite map_map. apply map_ext.
      intros i. destruct (Inv.id i =? id); reflexivity. }
    split; [exact Hrows|].
    split.
    + intros Hnot. split.
      * intros u Hin. unfold active_ids, Db.select_active_investments in Hin.
        apply in_map_iff in Hin. destruct Hin as [i [Hi Hin]].
        apply filter_In in Hin. destruct Hin as [Hin Hc].
        apply andb_prop in Hc. destruct Hc as [_ Hactive].
        apply String.eqb_eq in Hactive.
        specialize (Hrows i Hin). rewrite Hi, Z.eqb_refl in Hrows. congruence.
      * intros x Hx Hid. unfold select_active_with_rate in Hx.
        apply select_active_with_rate_In in Hx. destruct Hx as [Hin [Hactive _]].
        apply String.eqb_eq in Hactive.
        specialize (Hrows (fst x) Hin). rewrite Hid, Z.eqb_refl in Hrows. congruence.
    + intros Hwithdrawn e userId password amount Hid.
      apply withdraw_withdrawn; [exact Hid|].
      intros i Hsel. unfold Db.select_investment in Hsel.
      apply find_some in Hsel. destruct Hsel as [Hin Heq].
      specialize (Hrows i Hin). rewrite Heq in Hrows. congruence.
  - cbn. split; [reflexivity|]. split; [reflexivity|].
    intros Hin.
    assert (existsb (String.eqb status) ["active"; "matured"; "withdrawn"] = true) as Hex.
    { apply existsb_exists. exists status. split; [exact Hin|apply String.eqb_refl]. }
    rewrite Hvalid in Hex. discriminate.
Qed.

(** ** Bulk deletes *)

(** X19: the two bulk deletes never touch the ledger or the users, so no
    balance moves: [DELETE /api/admin/deposits] removes exactly the listed
    investments that carry a transaction number, whatever their status,
    and keeps every investment without one; [DELETE
    /api/admin/withdrawal-requests] removes exactly the listed requests,
    paid ones included, whose ledger entries stay.  Both refuse an empty
    list and change nothing. *)
Theorem bulk_deletes_keep_ledger :
  forall (ids : list Z) (d : Db.t),
    (let (d', r) := run (delete_deposits ids) d in
     match r with
     | ok n =>
         n = length ids
         /\ Db.transactions d' = Db.transactions d
         /\ Db.users d' = Db.users d
         /\ Db.withdrawal_requests d' = Db.withdrawal_requests d
         /\ (forall i, In i (Db.investments d') <->
               In i (Db.investments d)
               /\ (In (Inv.id i) ids -> JS.falsy (Inv.transaction_txt i) = true))
     | fail code _ => code = 400 /\ ids = [] /\ d' = d
     end)
    /\ (let (d', r) := run (delete_withdrawal_requests ids) d in
        match r with
        | ok n =>
            n = length ids
            /\ Db.transactions d' = Db.transactions d
            /\ Db.users d' = Db.users d
            /\ Db.investments d' = Db.investments d
            /\ (forall w, In w (Db.withdrawal_requests d') <->
                  In w (Db.withdrawal_requests d) /\ ~ In (Wr.id w) ids)
        | fail code _ => code = 400 /\ ids = [] /\ d' = d
        end).
Proof.
  intros ids d.
  assert (Hin : forall k, existsb (Z.eqb k) ids = true <-> In k ids).
  { intros k. rewrite existsb_exists. split.
    - intros [x [Hx Heq]]. apply Z.eqb_eq in Heq. subst x. exact Hx.
    - intros Hk. exists k. split; [exact Hk|apply Z.eqb_refl]. }
  split.
  - unfold delete_deposits. destruct ids as [|k ids'] eqn:Hids.
    + cbn. repeat split; reflexivity.
    + cbn [length Nat.eqb bind dbRun run]. unfold delete_deposits_in. cbn [fst snd run].
      split; [reflexivity|]. split; [reflexivity|]. split; [reflexivity|].
      split; [reflexivity|].
      intros i. cbn [Db.investments Db.with_investments]. rewrite filter_In.
      split; intros [Hi Hc]; (split; [exact Hi|]).
      * intros Hlisted. apply Hin in Hlisted. rewrite Hlisted in Hc. cbn in Hc.
        destruct (JS.falsy (Inv.transaction_txt i)); [reflexivity|discriminate].
      * destruct (existsb (Z.eqb (Inv.id i)) (k :: ids')) eqn:Hlisted; [|reflexivity].
        apply Hin in Hlisted. rewrite (Hc Hlisted). reflexivity.
  - unfold delete_withdrawal_requests. destruct ids as [|k ids'] eqn:Hids.
    + cbn. repeat split; reflexivity.
    + cbn [length Nat.eqb bind dbRun run]. unfold delete_withdrawal_requests_in.
      cbn [fst snd run].
      split; [reflexivity|]. split; [reflexivity|]. split; [reflexivity|].
      split; [reflexivity|].
      intros w. cbn [Db.withdrawal_requests Db.with_withdrawal_requests].
      rewrite filter_In.
      split; intros [Hw Hc]; (split; [exact Hw|]).
      * intros Hlisted. apply Hin in Hlisted. rewrite Hlisted in Hc. discriminate.
      * destruct (existsb (Z.eqb (Wr.id w)) (k :: ids')) eqn:Hlisted; [|reflexivity].
        apply Hin in Hlisted. contradiction.
Qed.

(** ** The list of deposits *)

Lemma first_package_In (d : Db.t) (p : Pkg.row) :
  first_package d = Some p -> In p (Db.packages d).
Proof.
  unfold first_package.
  assert (H : forall rows best,
            fold_left (fun best p =>
                         match best with
                         | None => Some p
                         | Some b => if Pkg.id p <? Pkg.id b then Some p else Some b
                         end) rows best = Some p ->
            In p rows \/ best = Some p).
  { induction rows as [|r rows IH]; intros best Hfold; cbn in Hfold.
    - right. exact Hfold.
    - apply IH in Hfold. destruct Hfold as [Hin|Hbest].
      + left. right. exact Hin.
      + destruct best as [b|].
        * destruct (Pkg.id r <? Pkg.id b); inversion Hbest; subst.
          -- left. left. reflexivity.
          -- right. reflexivity.
        * inversion Hbest. left. left. reflexivity. }
  intros Hfold. destruct (H _ _ Hfold) as [Hin|Hnone]; [exact Hin|discriminate].
Qed.

Lemma select_package_In (d : Db.t) (p : Pkg.row) :
  In p (Db.packages d) -> Db.select_package (Pkg.id p) d <> None.
Proof.
  intros Hin Hnone. unfold Db.select_package in Hnone.
  pose proof (find_none _ _ Hnone p Hin) as H. cbn in H.
  rewrite Z.eqb_refl in H. discriminate.
Qed.

Lemma process_deposit_approves (e : env) (adminId depositId : Z)
    (admin_notes : option string) (d : Db.t) (deposit : Inv.row) :
  Db.select_investment depositId d = Some deposit ->
  Db.select_user (Inv.user_id deposit) d <> None ->
  Inv.status deposit = "pending" ->
  snd (run (process_deposit e adminId depositId "approve" admin_notes) d)
  = ok "deposit_completed".
Proof.
  intros Hdep Huser Hpending. unfold process_deposit. cbn. rewrite Hdep.
  destruct (Db.select_user (Inv.user_id deposit) d); [|congruence].
  rewrite Hpending. reflexivity.
Qed.

(** X20: deposits drop out of the operator's list when the packages are
    seeded again.  A deposit filed by [POST /api/recharge] for an existing
    account is among the rows of [GET /api/admin/deposits].  After
    [seedPackages] has run, as it does at every start of the server, the
    list is empty, since no investment finds its package; yet the same
    deposit is still pending and [PUT /api/admin/deposits/:id] approves it
    by its id. *)
Theorem deposits_unlisted_after_seeding :
  forall (e : env) (userId : Z) (amount : option JS.number)
         (transactionTxt wallet : option string) (d d1 : Db.t)
         (investmentId : Z) (a : JS.number) (txt : string) (seq_packages : Z),
    ids_given d ->
    Db.select_user userId d <> None ->
    run (recharge e userId amount transactionTxt wallet) d
    = (d1, ok (investmentId, a, txt)) ->
    packages_given seq_packages d1 ->
    let d2 := fst (seedPackages seq_packages d1) in
    (exists row u p,
        In (row, u, p) (admin_deposits_rows d1)
        /\ Inv.id row = investmentId
        /\ Inv.status row = "pending")
    /\ admin_deposits_rows d2 = []
    /\ (forall (e2 : env) (adminId : Z) (admin_notes : option string),
          snd (run (process_deposit e2 adminId investmentId "approve" admin_notes) d2)
          = ok "deposit_completed").
Proof.
  intros e userId amount transactionTxt wallet d d1 investmentId a txt seq_packages
         Hids Huser Hrun Hgiven.
  pose proof (recharge_run e userId amount transactionTxt wallet d) as H.
  rewrite Hrun in H.
  destruct H as [_ [_ [_ [Hfalsy [Htxt [Hlen [_ [Hid [p [Hp Hd1]]]]]]]]]].
  set (row := Inv.mk investmentId userId (Pkg.id p) a (today e) "9999-12-31" 0%float
                     "pending" (Some (wallet_of wallet)) (Some txt)).
  assert (Hinv : Db.investments d1 = Db.investments d ++ [row])
    by (subst d1 investmentId; reflexivity).
  assert (Hfresh : forall i, In i (Db.investments d) -> (Inv.id i =? investmentId) = false).
  { intros i Hin. apply Z.eqb_neq. specialize (Hids i Hin). lia. }
  assert (Hdep : Db.select_investment investmentId d1 = Some row).
  { unfold Db.select_investment. rewrite Hinv.
    rewrite (find_none_app _ _ row Hfresh). cbn. rewrite Z.eqb_refl. reflexivity. }
  assert (Husers : Db.select_user userId d1 = Db.select_user userId d)
    by (subst d1; reflexivity).
  assert (Hpackages : Db.select_package (Pkg.id p) d1 = Db.select_package (Pkg.id p) d)
    by (subst d1; reflexivity).
  assert (Htxt' : JS.falsy (Some txt) = false).
  { unfold JS.falsy. destruct (String.eqb_spec txt "") as [Hempty|_]; [|reflexivity].
    rewrite Hempty in Hlen. cbn in Hlen. lia. }
  cbn zeta. split; [|split].
  - destruct (Db.select_user userId d) as [u|] eqn:Hu; [|congruence].
    destruct (Db.select_package (Pkg.id p) d) as [p'|] eqn:Hp'.
    2:{ exfalso. apply (select_package_In d p); [apply first_package_In; exact Hp|exact Hp']. }
    exists row, u, p'. split; [|split; reflexivity].
    unfold admin_deposits_rows. apply in_flat_map. exists row. split.
    + rewrite Hinv. apply in_or_app. right. left. reflexivity.
    + cbn [Inv.user_id Inv.package_id Inv.transaction_txt row].
      rewrite Husers, Hpackages, Htxt'. left. reflexivity.
  - pose proof (seedPackages_dangling seq_packages d1 Hgiven) as Hdangling.
    unfold admin_deposits_rows. apply flat_map_nil. intros i Hin.
    change (Db.investments (fst (seedPackages seq_packages d1)))
      with (Db.investments d1) in Hin.
    rewrite (Hdangling i Hin).
    destruct (Db.select_user (Inv.user_id i) _); reflexivity.
  - intros e2 adminId admin_notes.
    apply (process_deposit_approves e2 adminId investmentId admin_notes _ row).
    + exact Hdep.
    + cbn [Inv.user_id row].
      change (Db.select_user userId (fst (seedPackages seq_packages d1)))
        with (Db.select_user userId d1).
      rewrite Husers. exact Huser.
    + reflexivity.
Qed.

(** The theorem applied to Alice's deposit [TXN12345], filed under the
    placeholder package 1: listed before the seeding, not after. *)
Lemma deposits_unlisted_after_seeding_witness :
  let d1 := fst (run (recharge Example.e0 1 (Some 300%float) (Some "TXN12345") None)
                     Example.db0) in
  length (admin_deposits_rows d1) = 1%nat
  /\ admin_deposits_rows (fst (seedPackages 2 d1)) = [].
Proof.
  cbn zeta. split; [vm_compute; reflexivity|].
  refine (proj1 (proj2 (deposits_unlisted_after_seeding Example.e0 1 (Some 300%float)
                          (Some "TXN12345") None Example.db0
                          (fst (run (recharge Example.e0 1 (Some 300%float)
                                       (Some "TXN12345") None) Example.db0))
                          1 300%float "TXN12345" 2 _ _ _ _))).
  - intros i Hin. destruct Hin.
  - vm_compute. discriminate.
  - vm_compute. reflexivity.
  - intros i Hin. vm_compute in Hin. destruct Hin as [<-|[]]. vm_compute. discriminate.
Defined.

(** ** The handlers on the example database *)

(** An operator's bonus of 25 for Alice, found by her number written with
    the country code. *)
Example admin_bonus_example :
  run (admin_bonus " +260 977 000 001 " 25) Example.db0
  = (fst (Db.insert_transaction (Tx.mk 1 "bonus" 25 None) Example.db0),
     ok (1, Some "0977000001")).
Proof. vm_compute. reflexivity. Qed.

(** Income for level L1 after Alice has opened it: one entry, linked to
    her investment. *)
Example admin_daily_income_level_example :
  let d := fst (Db.set_user_level 1 "L1" AccrualExample.opened) in
  snd (run (admin_daily_income_level "L1" 6) d) = ok (1%nat, 0%nat, 1%nat)
  /\ level_entries 6 d (select_users_at "L1" d) = [Tx.mk 1 "accrual" 6 (Some 1)].
Proof. vm_compute. split; reflexivity. Qed.

(** Alice's payment-backed investment in L1 under a mock reference. *)
Example invest_example :
  snd (run (invest Example.e0 1 1 200 "MOCK_1") Example.db0) = ok 1
  /\ snd (run (verify_transaction Example.e0 1 1 200 "mtn" " TXN123456 ") Example.db0)
     = ok 1.
Proof. vm_compute. split; reflexivity. Qed.

(** Resetting Alice after she opened L1 removes the investment and its
    debit; her deposit of 1000 stays. *)
Example reset_investments_example :
  let d' := fst (run (reset_investments 1) AccrualExample.opened) in
  snd (run (reset_investments 1) AccrualExample.opened) = ok 1%nat
  /\ Db.investments d' = []
  /\ Db.transactions d' = [Tx.mk 1 "deposit" 1000 None].
Proof. vm_compute. repeat split; reflexivity. Qed.

(** ** Withdrawal settings *)

Lemma withdrawal_settings_run (hashPassword : string -> string) (userId : Z)
    (withdrawal_password withdrawal_wallet withdrawal_phone : option string) (d : Db.t) :
  let (d', r) := run (withdrawal_settings hashPassword userId withdrawal_password
                        withdrawal_wallet withdrawal_phone) d in
  match r with
  | ok _ =>
      match withdrawal_password with
      | Some p => isLength_min 4 p = true
      | None => True
      end
      /\ match withdrawal_wallet with
         | Some w => w = "airtel" \/ w = "mtn"
         | None => True
         end
      /\ match withdrawal_phone with
         | Some p => matches_plus260 (JS.trim p) = true
         | None => True
         end
      /\ (withdrawal_password <> None \/ withdrawal_wallet <> None
          \/ withdrawal_phone <> None)
      /\ d' = fst (set_withdrawal_settings userId
                     (option_map hashPassword withdrawal_password)
                     withdrawal_wallet
                     (option_map JS.trim withdrawal_phone) d)
  | fail code _ => code = 400 /\ d' = d
  end.
Proof.
  unfold withdrawal_settings.
  assert (Hphone : forall p, matches_plus260 (JS.trim p) = true ->
            (if String.prefix "+260" (JS.trim (JS.trim p))
             then JS.trim (JS.trim p)
             else ("+260" ++ strip_plus260 (JS.trim (JS.trim p)))%string)
            = JS.trim p).
  { intros p Hp. rewrite trim_idempotent.
    unfold matches_plus260 in Hp.
    apply andb_prop in Hp. destruct Hp as [Hp _].
    apply andb_prop in Hp. destruct Hp as [Hp _].
    rewrite Hp. reflexivity. }
  destruct withdrawal_password as [pw|], withdrawal_wallet as [w|],
    withdrawal_phone as [p|]; cbn [option_map].
  all: try (destruct (isLength_min 4 pw) eqn:Hpw;
            [|cbn; split; reflexivity]).
  all: try (destruct (String.eqb_spec w "airtel") as [Hairtel|Hairtel];
            destruct (String.eqb_spec w "mtn") as [Hmtn|Hmtn]).
  all: cbn [negb orb].
  all: try (cbn; split; reflexivity).
  all: try (destruct (matches_plus260 (JS.trim p)) eqn:Hmatch;
            [|cbn; split; reflexivity]).
  all: cbn [negb orb bind dbRun run].
  all: try rewrite (Hphone p Hmatch).
  all: try (split; [first [reflexivity | exact I]|]).
  all: try (split; [first [tauto | exact I]|]).
  all: try (split; [first [reflexivity | exact I]|]).
  all: try (split; [first [left; discriminate | right; left; discriminate
                          | right; right; discriminate]|]).
  all: try reflexivity.
Qed.

(** A password of three accented letters, six bytes, is too short for
    [isLength({ min: 4 })]; a phone between no-break spaces is stored
    without them. *)
Example withdrawal_settings_counts_characters :
  snd (run (withdrawal_settings (fun p => p) 1
              (Some (utf8 [195; 169; 195; 169; 195; 169])) None None) Example.db0)
  = fail 400 "Invalid input"
  /\ option_map Usr.withdrawal_phone
       (Db.select_user 1
          (fst (run (withdrawal_settings (fun p => p) 1 None None
                       (Some (utf8 [194; 160] ++ "+260978891454" ++ utf8 [194; 160])%string))
                    Example.db0)))
     = Some (Some "+260978891454").
Proof. vm_compute. split; reflexivity. Qed.

(** What [/^\+260\d{9}$/] matches is [+260] and nine digits. *)
Lemma matches_plus260_form (s : string) :
  matches_plus260 s = true ->
  exists n, s = ("+260" ++ n)%string
            /\ length (Phone.chars n) = 9%nat
            /\ forallb Phone.is_digit (Phone.chars n) = true.
Proof.
  unfold matches_plus260. intros H.
  apply andb_prop in H. destruct H as [H Hdigits].
  apply andb_prop in H. destruct H as [Hprefix Hlen].
  apply Nat.eqb_eq in Hlen.
  destruct s as [|c1 [|c2 [|c3 [|c4 n]]]]; try discriminate.
  cbn [String.prefix] in Hprefix.
  repeat match type of Hprefix with
         | (if Ascii.ascii_dec ?a ?b then _ else _) = true =>
             destruct (Ascii.ascii_dec a b); [subst|discriminate]
         end.
  exists n. split; [reflexivity|]. split.
  - cbn in Hlen. rewrite length_chars. lia.
  - exact Hdigits.
Qed.

(** X21: an accepted [PUT /api/withdrawal-settings] changes only the
    account's withdrawal password, wallet and phone, and of these only the
    fields that were sent, of which there is at least one: the password,
    of at least 4 characters as the validator counts them, is stored
    hashed, the wallet is 'airtel' or 'mtn', and the phone is stored as
    sent but for the white space around it, [+260] followed by nine
    digits, so the handler's own reformatting never applies.  The ledger,
    the investments and every other account stay as they were.  A call
    without any field is refused with status 400, 'No fields to update',
    and every refusal has status 400 and changes nothing. *)
Theorem withdrawal_settings_stores :
  (forall (hashPassword : string -> string) (userId : Z) (d : Db.t),
      run (withdrawal_settings hashPassword userId None None None) d
      = (d, fail 400 "No fields to update"))
  /\ forall (hashPassword : string -> string) (userId : Z)
         (withdrawal_password withdrawal_wallet withdrawal_phone : option string)
         (d : Db.t),
    let (d', r) := run (withdrawal_settings hashPassword userId withdrawal_password
                          withdrawal_wallet withdrawal_phone) d in
    match r with
    | ok _ =>
        (withdrawal_password <> None \/ withdrawal_wallet <> None
         \/ withdrawal_phone <> None)
        /\ Db.transactions d' = Db.transactions d
        /\ Db.investments d' = Db.investments d
        /\ Db.withdrawal_requests d' = Db.withdrawal_requests d
        /\ (forall other, other <> userId ->
              Db.select_user other d' = Db.select_user other d)
        /\ (forall user, Db.select_user userId d = Some user ->
              exists user',
                Db.select_user userId d' = Some user'
                /\ Usr.phone user' = Usr.phone user
                /\ Usr.level user' = Usr.level user
                /\ Usr.last_withdrawal_date user' = Usr.last_withdrawal_date user
                /\ Usr.withdrawal_password user'
                   = match withdrawal_password with
                     | Some p => Some (hashPassword p)
                     | None => Usr.withdrawal_password user
                     end
                /\ Usr.withdrawal_wallet user'
                   = match withdrawal_wallet with
                     | Some w => Some w
                     | None => Usr.withdrawal_wallet user
                     end
                /\ Usr.withdrawal_phone user'
                   = match withdrawal_phone with
                     | Some p => Some (JS.trim p)
                     | None => Usr.withdrawal_phone user
                     end)
        /\ match withdrawal_password with
           | Some p => (4 <= validator_length (list_ascii_of_string p))%nat
           | None => True
           end
        /\ match withdrawal_wallet with
           | Some w => w = "airtel" \/ w = "mtn"
           | None => True
           end
        /\ match withdrawal_phone with
           | Some p =>
               exists n,
                 JS.trim p = ("+260" ++ n)%string
                 /\ length (Phone.chars n) = 9%nat
                 /\ forallb Phone.is_digit (Phone.chars n) = true
           | None => True
           end
    | fail code _ =>
        code = 400 /\ d' = d
    end.
Proof.
  split; [reflexivity|].
  intros hashPassword userId withdrawal_password withdrawal_wallet withdrawal_phone d.
  pose proof (withdrawal_settings_run hashPassword userId withdrawal_password
                withdrawal_wallet withdrawal_phone d) as Hrun.
  destruct (run (withdrawal_settings hashPassword userId withdrawal_password
                   withdrawal_wallet withdrawal_phone) d) as [d' [[]|code error]];
    [|exact Hrun].
  destruct Hrun as [Hpw [Hw [Hp [Hsent Hd']]]].
  split; [exact Hsent|].
  split; [subst d'; reflexivity|]. split; [subst d'; reflexivity|].
  split; [subst d'; reflexivity|].
  split.
  { intros other Hother. subst d'.
    unfold Db.select_user, set_withdrawal_settings, Db.update. cbn.
    induction (Db.users d) as [|u rows IH]; [reflexivity|].
    cbn. destruct (Z.eqb_spec (Usr.id u) userId) as [Hu|Hu]; cbn.
    - destruct (Z.eqb_spec (Usr.id u) other) as [Ho|Ho]; [congruence|exact IH].
    - destruct (Usr.id u =? other); [reflexivity|exact IH]. }
  split.
  { intros user Huser. subst d'.
    unfold Db.select_user, set_withdrawal_settings, Db.update in *. cbn.
    rewrite (find_update Usr.id userId) by reflexivity.
    rewrite Huser. cbn. eexists. split; [reflexivity|]. cbn.
    repeat split;
      first [destruct withdrawal_password; reflexivity
            | destruct withdrawal_wallet; reflexivity
            | destruct withdrawal_phone; reflexivity]. }
  split.
  { destruct withdrawal_password as [pw|]; [|exact I].
    unfold isLength_min in Hpw. apply Nat.leb_le in Hpw. exact Hpw. }
  split; [exact Hw|].
  destruct withdrawal_phone as [p|]; [|exact I].
  apply matches_plus260_form. exact Hp.
Qed.

(** The way through [POST /api/withdraw] for a request against the
    balance. *)
Lemma withdraw_accepts (e : env) (userId : Z) (password : string) (amount : JS.number)
    (d : Db.t) (user : Usr.row) :
  (password =? "")%string = false ->
  (50 <=? amount)%float = true ->
  Db.select_user userId d = Some user ->
  JS.falsy (Usr.withdrawal_password user) = false ->
  comparePassword e password (JS.str (Usr.withdrawal_password user)) = true ->
  JS.falsy (Usr.withdrawal_wallet user) = false ->
  Usr.last_withdrawal_date user <> Some (today e) ->
  JS.gt amount (Withdraw.availableBalance (Db.select_transactions userId d)) = false ->
  (JS.trim (JS.str (JS.or (Usr.phone user) (Usr.withdrawal_phone user))) =? "")%string
  = false ->
  run (withdraw e userId None password amount) d
  = (fst (Db.insert_withdrawal_request (requested userId None amount user) d),
     ok (WithdrawOk.mk (Db.seq_withdrawal_requests d + 1) amount
           (amount * 0.12)%float (amount - amount * 0.12)%float
           (JS.str (Usr.withdrawal_wallet user)) "pending")).
Proof.
  intros Hpw Hmin Huser Hset Hcompare Hwallet Hdate Hbalance Hphone.
  unfold withdraw. rewrite Hpw, Hmin. cbn [negb orb bind dbGet dbQuery run].
  rewrite Huser, Hset, Hcompare, Hwallet. cbn [negb].
  assert (Hday : match Usr.last_withdrawal_date user with
                 | Some date => (date =? today e)%string
                 | None => false
                 end = false).
  { destruct (Usr.last_withdrawal_date user) as [date|]; [|reflexivity].
    destruct (String.eqb_spec date (today e)) as [->|_]; [congruence|reflexivity]. }
  rewrite Hday.
  assert (Hlt : JS.lt amount 50 = false).
  { unfold JS.lt. destruct (amount <? 50)%float eqn:Hlt; [|reflexivity].
    apply ltb_not_leb in Hlt. congruence. }
  rewrite Hlt. cbn [given bind dbGet dbQuery run].
  rewrite Hbalance. cbn [bind run].
  assert (Hfalsy : JS.falsy (JS.or (Usr.phone user) (Usr.withdrawal_phone user)) = false).
  { destruct (JS.falsy (JS.or (Usr.phone user) (Usr.withdrawal_phone user))) eqn:Hf;
      [|reflexivity].
    unfold JS.falsy in Hf.
    destruct (JS.or (Usr.phone user) (Usr.withdrawal_phone user)) as [s|].
    - apply String.eqb_eq in Hf. subst s. cbn in Hphone. discriminate.
    - cbn in Hphone. discriminate. }
  rewrite Hfalsy, Hphone. cbn [orb bind dbRun run].
  unfold Db.insert_withdrawal_request. reflexivity.
Qed.

(** X22: the settings are what a withdrawal needs.  Once
    [PUT /api/withdrawal-settings] has accepted a password and a wallet for
    an account with a registered phone, a [POST /api/withdraw] with that
    password, for an amount of at least 50 within the balance, on a day
    without a paid withdrawal, is accepted.  The request names the wallet
    just set and the registered phone: the withdrawal phone of the
    settings is not used when the account has a registered one. *)
Theorem settings_enable_withdrawal :
  forall (hashPassword : string -> string) (e : env) (userId : Z)
         (password wallet : string) (withdrawal_phone : option string)
         (d d1 : Db.t) (user : Usr.row) (amount : JS.number),
    run (withdrawal_settings hashPassword userId (Some password) (Some wallet)
           withdrawal_phone) d = (d1, ok tt) ->
    Db.select_user userId d = Some user ->
    hashPassword password <> "" ->
    comparePassword e password (hashPassword password) = true ->
    Usr.last_withdrawal_date user <> Some (today e) ->
    JS.trim (JS.str (Usr.phone user)) <> "" ->
    (50 <=? amount)%float = true ->
    JS.gt amount (Withdraw.availableBalance (Db.select_transactions userId d)) = false ->
    exists d2 w,
      run (withdraw e userId None password amount) d1 = (d2, ok w)
      /\ WithdrawOk.wallet w = wallet
      /\ Db.withdrawal_requests d2
         = Db.withdrawal_requests d
           ++ [Wr.mk (WithdrawOk.request_id w) userId None amount amount
                     (amount * 0.12)%float (amount - amount * 0.12)%float
                     wallet (JS.trim (JS.str (Usr.phone user)))
                     "pending" None None None].
Proof.
  intros hashPassword e userId password wallet withdrawal_phone d d1 user amount
         Hrun Huser Hhash Hcompare Hdate Hphone Hmin Hbalance.
  pose proof (withdrawal_settings_run hashPassword userId (Some password) (Some wallet)
                withdrawal_phone d) as Hset.
  rewrite Hrun in Hset. destruct Hset as [Hpw [Hw [_ [_ Hd1]]]].
  set (user' := Usr.mk (Usr.id user) (Usr.email user) (Usr.phone user) (Usr.level user)
                  (Some (hashPassword password)) (Some wallet)
                  (match option_map JS.trim withdrawal_phone with
                   | Some p => Some p
                   | None => Usr.withdrawal_phone user
                   end)
                  (Usr.last_withdrawal_date user)).
  assert (Huser' : Db.select_user userId d1 = Some user').
  { subst d1. unfold Db.select_user, set_withdrawal_settings, Db.update in *. cbn.
    rewrite (find_update Usr.id userId) by reflexivity.
    rewrite Huser. reflexivity. }
  assert (Hor : JS.or (Usr.phone user') (Usr.withdrawal_phone user') = Usr.phone user).
  { unfold JS.or. cbn [Usr.phone user'].
    destruct (JS.falsy (Usr.phone user)) eqn:Hf; [|reflexivity].
    exfalso. apply Hphone. unfold JS.falsy in Hf.
    destruct (Usr.phone user) as [s|]; [|reflexivity].
    apply String.eqb_eq in Hf. subst s. reflexivity. }
  assert (Hnonempty : (password =? "")%string = false).
  { destruct (String.eqb_spec password "") as [->|_]; [cbn in Hpw; lia|reflexivity]. }
  eexists. eexists. split.
  - apply (withdraw_accepts e userId password amount d1 user'); try assumption.
    + cbn. apply String.eqb_neq. exact Hhash.
    + cbn. destruct Hw as [-> | ->]; reflexivity.
    + subst d1. exact Hbalance.
    + rewrite Hor. apply String.eqb_neq. exact Hphone.
  - cbn [WithdrawOk.wallet WithdrawOk.request_id JS.str Usr.withdrawal_wallet user'].
    split; [reflexivity|].
    subst d1. unfold Db.insert_withdrawal_request, requested. cbn.
    unfold user' in Hor. cbn [Usr.phone Usr.withdrawal_phone] in Hor.
    rewrite Hor. reflexivity.
Qed.

(** The theorem applied to Alice, who sets the password [1234] and the
    wallet [mtn] and then asks for 100 of her 1000. *)
Lemma settings_enable_withdrawal_witness :
  let d1 := fst (run (withdrawal_settings (fun p => p) 1 (Some "1234") (Some "mtn")
                        (Some "+260966000009")) Example.db0) in
  exists d2 w,
    run (withdraw Example.e0 1 None "1234" 100) d1 = (d2, ok w)
    /\ WithdrawOk.wallet w = "mtn"
    /\ Db.withdrawal_requests d2
       = [Wr.mk (WithdrawOk.request_id w) 1 None 100 100 (100 * 0.12) (100 - 100 * 0.12)
                "mtn" "0977000001" "pending" None None None].
Proof.
  cbn zeta.
  refine (settings_enable_withdrawal (fun p => p) Example.e0 1 "1234" "mtn"
            (Some "+260966000009") Example.db0 _ Example.alice 100 _ _ _ _ _ _ _ _).
  - vm_compute. reflexivity.
  - reflexivity.
  - discriminate.
  - reflexivity.
  - discriminate.
  - vm_compute. discriminate.
  - vm_compute. reflexivity.
  - vm_compute. reflexivity.
Defined.

(** ** The phone number of a registration *)

Lemma normalize_local (n : string) :
  String.length n = 9%nat ->
  forallb Phone.is_digit (Phone.chars n) = true ->
  Phone.normalizeZambianPhone (Some ("0" ++ n)%string) = Some n.
Proof.
  intros Hlen Hdigits. rewrite <- length_chars in Hlen. unfold Phone.chars in *.
  rewrite (normalizeZambianPhone_of_digits _
             (list_ascii_of_string "0" ++ list_ascii_of_string n));
    [|reflexivity|cbn; rewrite (forallb_filter_id _ _ Hdigits); reflexivity].
  cbn -[Nat.leb Nat.sub skipn]. cbn [skipn]. rewrite Hlen. cbn.
  rewrite string_of_list_ascii_of_string. reflexivity.
Qed.

Lemma register_phone_ok (phone stored : string) :
  register_phone phone = ok stored ->
  exists n,
    stored = ("0" ++ n)%string
    /\ String.length n = 9%nat
    /\ forallb Phone.is_digit (Phone.chars n) = true
    /\ Phone.normalizeZambianPhone (Some (JS.trim phone)) = Some n.
Proof.
  unfold register_phone.
  destruct (JS.trim phone =? "")%string eqn:Hempty; [discriminate|].
  destruct (matches_digits_9_10 (JS.trim phone)) eqn:Hvalid; [|discriminate].
  cbn [negb orb].
  unfold matches_digits_9_10 in Hvalid.
  apply andb_prop in Hvalid. destruct Hvalid as [Hvalid Hmax].
  apply andb_prop in Hvalid. destruct Hvalid as [Hdigits Hmin].
  apply Nat.leb_le in Hmin, Hmax.
  destruct (Phone.normalizeZambianPhone (Some (JS.trim phone))) as [s|] eqn:Hnorm.
  2:{ unfold Phone.normalizeZambianPhone in Hnorm. unfold JS.falsy in Hnorm.
      rewrite Hempty in Hnorm. discriminate. }
  destruct (normalize_digits _ _ Hnorm) as [Hs Hshort].
  assert (Hnonempty : (s =? "")%string = false).
  { destruct (String.eqb_spec s "") as [->|_]; [|reflexivity]. exfalso.
    rewrite (normalizeZambianPhone_of_digits (JS.trim phone)
               (list_ascii_of_string (JS.trim phone)) Hempty) in Hnorm.
    2:{ apply forallb_filter_id. exact Hdigits. }
    rewrite <- length_chars in Hmin. unfold Phone.chars in Hmin.
    cbn zeta in Hnorm.
    set (ds := list_ascii_of_string (JS.trim phone)) in *.
    set (d1 := if Phone.startsWith (list_ascii_of_string "260") ds
               then skipn 3 ds else ds) in *.
    assert (H1 : (6 <= length d1)%nat).
    { unfold d1. destruct (Phone.startsWith _ ds); [rewrite length_skipn|]; lia. }
    set (d2 := if Phone.startsWith (list_ascii_of_string "0") d1
               then skipn 1 d1 else d1) in *.
    assert (H2 : (5 <= length d2)%nat).
    { unfold d2. destruct (Phone.startsWith _ d1); [rewrite length_skipn|]; lia. }
    destruct (Nat.leb_spec 9 (length d2)) as [Hlong9|Hshort9];
      apply (f_equal (option_map String.length)) in Hnorm;
      cbn [option_map String.length] in Hnorm;
      rewrite length_string_of_list_ascii in Hnorm;
      injection Hnorm as Hfinal; [rewrite length_skipn in Hfinal|]; lia. }
  unfold JS.falsy, JS.str. rewrite Hnonempty. cbn [negb andb].
  destruct (Nat.eqb_spec (String.length s) 9) as [Hnine|Hnine].
  - cbn [String.length append]. rewrite Hnine. cbn.
    intros H. inversion H.
    exists s. repeat split; try assumption; reflexivity.
  - rewrite Hnonempty. cbn [orb].
    destruct (Nat.ltb_spec (String.length s) 9); [discriminate|lia].
Qed.

(** X23: the phone a registration stores.  Whatever is sent, an accepted
    phone is stored as [0] followed by nine digits, which are the number
    that the sent phone normalises to, and the stored form normalises to
    the same nine digits, so that it is found again by [getUserByPhone];
    anything else is refused with status 400.  A national number is
    accepted written as [n] and as [0n], and stored as [0n] either way;
    written with the country code, [+260n] or [260n], it is refused. *)
Theorem register_phone_stored :
  (forall phone : string,
      match register_phone phone with
      | ok stored =>
          exists n,
            stored = ("0" ++ n)%string
            /\ String.length n = 9%nat
            /\ forallb Phone.is_digit (Phone.chars n) = true
            /\ Phone.normalizeZambianPhone (Some (JS.trim phone)) = Some n
            /\ Phone.normalizeZambianPhone (Some stored) = Some n
      | fail code _ => code = 400
      end)
  /\ (forall n : string,
        national n ->
        register_phone n = ok ("0" ++ n)%string
        /\ register_phone ("0" ++ n)%string = ok ("0" ++ n)%string
        /\ is_ok (register_phone ("+260" ++ n)%string) = false
        /\ is_ok (register_phone ("260" ++ n)%string) = false).
Proof.
  split.
  - intros phone. destruct (register_phone phone) as [stored|code error] eqn:Hreg.
    + destruct (register_phone_ok phone stored Hreg) as [n [-> [Hlen [Hdigits Hnorm]]]].
      exists n. repeat split; try assumption.
      apply normalize_local; assumption.
    + unfold register_phone in Hreg.
      destruct (_ || _); [inversion Hreg; reflexivity|].
      destruct (_ || _); [inversion Hreg; reflexivity|discriminate].
  - intros n Hn. pose proof (national_not_empty n Hn) as Hne.
    destruct (normalize_national n Hn) as [_ [_ [Hlocal Hplain]]].
    destruct Hn as [Hlen [Hdigits [Hzero Hcode]]].
    assert (Hdigits0 : forallb Phone.is_digit (Phone.chars ("0" ++ n)) = true).
    { unfold Phone.chars in *. cbn. exact Hdigits. }
    split; [|split; [|split]].
    + assert (Hne0 : ("0" ++ n =? "")%string = false) by reflexivity.
      assert (Hlen0 : String.length ("0" ++ n) = 10%nat)
        by (cbn [append String.length]; rewrite Hlen; reflexivity).
      unfold register_phone. rewrite (trim_digits n Hdigits), Hne.
      unfold matches_digits_9_10. rewrite Hdigits, Hlen. cbn [Nat.leb andb negb orb].
      rewrite Hplain. unfold JS.falsy, JS.str. rewrite Hne, Hlen.
      cbn [Nat.eqb negb andb]. rewrite Hne0, Hlen0. reflexivity.
    + assert (Hne0 : ("0" ++ n =? "")%string = false) by reflexivity.
      assert (Hlen0 : String.length ("0" ++ n) = 10%nat)
        by (cbn [append String.length]; rewrite Hlen; reflexivity).
      unfold register_phone. rewrite (trim_digits _ Hdigits0), Hne0.
      unfold matches_digits_9_10. rewrite Hdigits0, Hlen0.
      cbn [Nat.leb andb negb orb].
      rewrite Hlocal. unfold JS.falsy, JS.str. rewrite Hne, Hlen.
      cbn [Nat.eqb negb andb]. rewrite Hne0, Hlen0. reflexivity.
    + assert (Htrim : JS.trim ("+260" ++ n) = ("+260" ++ n)%string).
      { unfold JS.trim.
        destruct (rev (list_ascii_of_string n)) as [|x xs] eqn:Hrev.
        { apply (f_equal (@length _)) in Hrev. rewrite length_rev in Hrev.
          rewrite <- length_chars in Hlen. unfold Phone.chars in Hlen.
          cbn in Hrev. lia. }
        assert (Hx : Phone.is_digit x = true).
        { pose proof (forallb_rev _ _ Hdigits) as Hr.
          unfold Phone.chars in Hr. rewrite Hrev in Hr. cbn in Hr.
          apply andb_prop in Hr. tauto. }
        assert (Hr : rev (list_ascii_of_string ("+260" ++ n))
                     = x :: (xs ++ rev (list_ascii_of_string "+260"))).
        { cbn [list_ascii_of_string append rev]. rewrite Hrev.
          cbn [app]. repeat rewrite <- app_assoc. reflexivity. }
        rewrite trim_fixed.
        - apply string_of_list_ascii_of_string.
        - cbn [list_ascii_of_string append].
          apply (leading_low _ _ is_space2_high is_space3_high); reflexivity.
        - rewrite Hr.
          apply (leading_low _ _ space2_rev_high space3_rev_high);
            [apply digit_not_space|apply digit_low]; exact Hx. }
      unfold register_phone. rewrite Htrim. reflexivity.
    + unfold register_phone.
      assert (Hall : forallb Phone.is_digit (Phone.chars ("260" ++ n)) = true).
      { unfold Phone.chars in *. cbn. exact Hdigits. }
      rewrite (trim_digits _ Hall). unfold matches_digits_9_10.
      cbn [String.eqb append String.length]. rewrite Hlen.
      cbn [Nat.leb andb negb orb]. rewrite andb_false_r. reflexivity.
Qed.

(** The theorem applied to the number of the source's comment. *)
Lemma register_phone_stored_witness :
  register_phone "978891454" = ok "0978891454"
  /\ register_phone "0978891454" = ok "0978891454"
  /\ is_ok (register_phone "+260978891454") = false
  /\ is_ok (register_phone "260978891454") = false.
Proof.
  exact (proj2 register_phone_stored "978891454" national_978891454).
Defined.

(** ** Two deposits in flight *)

(** X24: the check on a transaction number does not hold between two calls
    in flight.  When a [POST /api/recharge] would be accepted and the same
    call is made twice at once, each passing its duplicate check before the
    other's INSERT, both are accepted: the same account holds two pending
    deposits under the one transaction number. *)
Theorem concurrent_recharges_share_number :
  forall (e : env) (userId : Z) (a : JS.number) (txt : string)
         (wallet : option string) (d : Db.t) (firstPackage : Pkg.row),
    PrimFloat.is_nan a = false ->
    (a <=? 0)%float = false ->
    (5 <= JS.length (JS.trim txt) <= 50)%nat ->
    select_by_transaction_txt (JS.trim txt) userId d = None ->
    first_package d = Some firstPackage ->
    let call := recharge e userId (Some a) (Some txt) wallet in
    let row := fun id =>
      Inv.mk id userId (Pkg.id firstPackage) a (today e) "9999-12-31"
             0%float "pending" (Some (wallet_of wallet)) (Some (JS.trim txt)) in
    let after := interleave [true; false] call call d in
    snd after = (ok (Db.seq_investments d + 1, a, JS.trim txt),
                 ok (Db.seq_investments d + 2, a, JS.trim txt))
    /\ Db.investments (fst after)
       = Db.investments d
         ++ [row (Db.seq_investments d + 1); row (Db.seq_investments d + 2)].
Proof.
  intros e userId a txt wallet d firstPackage Hnan Hpos Hlen Hnew Hfirst.
  cbn zeta.
  set (row := fun id =>
         Inv.mk id userId (Pkg.id firstPackage) a (today e) "9999-12-31"
                0%float "pending" (Some (wallet_of wallet)) (Some (JS.trim txt))).
  assert (Hafter :
    interleave [true; false] (recharge e userId (Some a) (Some txt) wallet)
      (recharge e userId (Some a) (Some txt) wallet) d
    = (fst (Db.insert_investment row (fst (Db.insert_investment row d))),
       (ok (Db.seq_investments d + 1, a, JS.trim txt),
        ok (Db.seq_investments d + 1 + 1, a, JS.trim txt)))).
  { unfold recharge.
    rewrite Hnan, Hpos. cbn [orb].
    assert (Hfalsy : JS.falsy (Some txt) = false).
    { unfold JS.falsy. destruct (String.eqb_spec txt "") as [->|_]; [|reflexivity].
      vm_compute in Hlen. lia. }
    rewrite Hfalsy. cbn [JS.str].
    destruct (Nat.eqb_spec (JS.length (JS.trim txt)) 0); [lia|].
    destruct (Nat.ltb_spec (JS.length (JS.trim txt)) 5); [lia|].
    destruct (Nat.ltb_spec 50 (JS.length (JS.trim txt))); [lia|].
    cbn [bind dbGet dbQuery interleave step]. rewrite Hnew.
    cbn [bind dbGet dbQuery interleave step run]. rewrite Hfirst.
    cbn [bind dbRun run].
    destruct (Db.insert_investment
                (fun id => Inv.mk id userId (Pkg.id firstPackage) a (today e)
                             "9999-12-31" 0%float "pending"
                             (Some (wallet_of wallet)) (Some (JS.trim txt))) d)
      as [d1 lastID] eqn:Hfirst_insert.
    assert (Hd1 : d1 = fst (Db.insert_investment row d))
      by (unfold row; rewrite Hfirst_insert; reflexivity).
    assert (HlastID : lastID = Db.seq_investments d + 1)
      by (unfold Db.insert_investment in Hfirst_insert; inversion Hfirst_insert;
          reflexivity).
    cbn [run bind].
    assert (Hfirst1 : first_package d1 = Some firstPackage)
      by (rewrite Hd1; exact Hfirst).
    rewrite Hfirst1. cbn [bind dbRun run].
    fold row. rewrite Hd1, HlastID.
    unfold Db.insert_investment. reflexivity. }
  rewrite Hafter. cbn [fst snd].
  replace (Db.seq_investments d + 1 + 1) with (Db.seq_investments d + 2) by lia.
  split; [reflexivity|].
  unfold Db.insert_investment. cbn [fst Db.investments Db.seq_investments].
  replace (Db.seq_investments d + 1 + 1) with (Db.seq_investments d + 2) by lia.
  rewrite <- app_assoc. reflexivity.
Qed.

(** The theorem applied to Alice's deposit [TXN12345], sent twice at once. *)
Lemma concurrent_recharges_share_number_witness :
  let call := recharge Example.e0 1 (Some 300%float) (Some "TXN12345") None in
  snd (interleave [true; false] call call Example.db0)
  = (ok (1, 300%float, "TXN12345"), ok (2, 300%float, "TXN12345")).
Proof.
  cbn zeta.
  refine (proj1 (concurrent_recharges_share_number Example.e0 1 300%float "TXN12345" None
                   Example.db0 Example.L1 _ _ _ _ _)).
  - reflexivity.
  - reflexivity.
  - vm_compute. split; lia.
  - reflexivity.
  - reflexivity.
Defined.

(** ** The payment provider's webhook *)

Lemma SFcompare_refl (x : SpecFloat.spec_float) :
  x <> SpecFloat.S754_nan -> SpecFloat.SFcompare x x = Some Eq.
Proof.
  destruct x as [s|s| |s m ex]; intros Hnan; try congruence.
  - reflexivity.
  - destruct s; reflexivity.
  - cbn. destruct s; rewrite Z.compare_refl;
      [rewrite Pos.compare_cont_refl|rewrite Pos.compare_cont_refl]; reflexivity.
Qed.

(** A number that is at least 1 equals itself. *)
Lemma eqb_refl_of_min_1 (a : float) : (1 <=? a)%float = true -> (a =? a)%float = true.
Proof.
  rewrite leb_spec, FloatAxioms.eqb_spec. unfold SpecFloat.SFleb, SpecFloat.SFeqb.
  intros Hle. rewrite SFcompare_refl; [reflexivity|].
  intros Hnan. rewrite Hnan in Hle.
  destruct (Prim2SF 1) as [s|s| |s m ex]; cbn in Hle; try discriminate;
    destruct s; discriminate.
Qed.

Lemma select_same_investment_snoc (userId packageId : Z) (amount : JS.number)
    (d d' : Db.t) (row : Inv.row) :
  Db.investments d' = Db.investments d ++ [row] ->
  Inv.user_id row = userId ->
  Inv.package_id row = packageId ->
  Inv.deposit_amount row = amount ->
  (amount =? amount)%float = true ->
  select_same_investment userId packageId amount d' <> None.
Proof.
  intros Hinv Huser Hpkg Hamount Hrefl Hnone.
  unfold select_same_investment in Hnone.
  assert (Hin : In row (Db.investments d'))
    by (rewrite Hinv; apply in_or_app; right; left; reflexivity).
  pose proof (find_none _ _ Hnone row Hin) as H. cbn in H.
  rewrite Huser, Hpkg, Hamount, !Z.eqb_refl, Hrefl in H. discriminate.
Qed.

Lemma paystack_webhook_found (e : env) (event : string) (userId packageId : Z)
    (amount : JS.number) (d : Db.t) :
  select_same_investment userId packageId amount d <> None ->
  run (paystack_webhook e event (Some (userId, packageId, amount))) d = (d, tt).
Proof.
  intros Hfound. unfold paystack_webhook.
  destruct (event =? "charge.success")%string; [|reflexivity].
  cbn [bind dbGet dbQuery run].
  destruct (select_same_investment userId packageId amount d); [reflexivity|congruence].
Qed.

(** X25: the webhook books a payment at most once.  A
    [POST /api/paystack/webhook] with the event 'charge.success' for a
    verified payment changes nothing when an investment of the same
    account, package and amount exists; when none exists it opens exactly
    one active investment under the next id and posts exactly one deposit
    entry of the amount, linked to it, and changes nothing else.  Any
    other event, and a payment that is not verified, change nothing.
    Delivered a second time it changes nothing, and it changes nothing
    either when [POST /api/invest] has already booked the same account,
    package and amount. *)
Theorem webhook_books_once :
  forall (e : env) (event : string) (userId packageId : Z) (amount : JS.number)
         (d : Db.t),
    PrimFloat.is_nan amount = false ->
    let d1 := fst (run (paystack_webhook e event (Some (userId, packageId, amount))) d) in
    (event <> "charge.success" -> d1 = d)
    /\ (forall existing,
          select_same_investment userId packageId amount d = Some existing -> d1 = d)
    /\ (event = "charge.success" ->
        select_same_investment userId packageId amount d = None ->
        d1 = Db.mk (Db.users d) (Db.packages d)
               (Db.investments d
                ++ [Inv.mk (Db.seq_investments d + 1) userId packageId amount (today e)
                           (maturityDateStr e) 0%float "active" None None])
               (Db.transactions d
                ++ [Tx.mk userId "deposit" amount (Some (Db.seq_investments d + 1))])
               (Db.withdrawal_requests d) (Db.seq_investments d + 1)
               (Db.seq_withdrawal_requests d))
    /\ (forall e2 : env,
          run (paystack_webhook e2 event (Some (userId, packageId, amount))) d1 = (d1, tt))
    /\ (forall (e2 e3 : env) (paymentReference : string) (d2 : Db.t) (investmentId : Z),
          run (invest e2 userId packageId amount paymentReference) d = (d2, ok investmentId) ->
          run (paystack_webhook e3 event (Some (userId, packageId, amount))) d2 = (d2, tt))
    /\ (forall e2 : env, run (paystack_webhook e2 event None) d = (d, tt)).
Proof.
  intros e event userId packageId amount d Hnan. cbn zeta.
  assert (Hrefl : (amount =? amount)%float = true).
  { unfold PrimFloat.is_nan in Hnan. destruct (amount =? amount)%float;
      [reflexivity|discriminate]. }
  split; [|split; [|split; [|split; [|split]]]].
  - intros Hevent. unfold paystack_webhook.
    destruct (String.eqb_spec event "charge.success") as [Hyes|_];
      [contradiction|reflexivity].
  - intros existing Hsame. unfold paystack_webhook.
    destruct (event =? "charge.success")%string; [|reflexivity].
    cbn [bind dbGet dbQuery run]. rewrite Hsame. reflexivity.
  - intros Hevent Hsame. unfold paystack_webhook.
    rewrite Hevent. cbn [String.eqb Ascii.eqb Bool.eqb andb].
    cbn [bind dbGet dbQuery run]. rewrite Hsame. reflexivity.
  - intros e2.
    destruct (event =? "charge.success")%string eqn:Hevent.
    2:{ unfold paystack_webhook. rewrite Hevent. reflexivity. }
    apply paystack_webhook_found.
    unfold paystack_webhook. rewrite Hevent. cbn [bind dbGet dbQuery run].
    destruct (select_same_investment userId packageId amount d) eqn:Hsame.
    + cbn [run fst]. rewrite Hsame. discriminate.
    + cbn [bind dbRun dbGet run]. unfold Db.insert_investment, Db.insert_transaction.
      cbn [fst snd run].
      eapply (select_same_investment_snoc userId packageId amount d); try reflexivity.
      exact Hrefl.
  - intros e2 e3 paymentReference d2 investmentId Hinvest.
    apply paystack_webhook_found.
    unfold invest in Hinvest.
    destruct (1 <=? amount)%float; [|discriminate].
    destruct (paymentReference =? "")%string; [discriminate|].
    cbn [negb orb] in Hinvest.
    destruct (negb (String.prefix "MOCK_" paymentReference)
              && negb (verifyPayment e2 paymentReference)); [discriminate|].
    cbn [bind dbGet dbQuery run] in Hinvest.
    destruct (Db.select_package packageId d) as [packageData|]; [|discriminate].
    destruct (JS.gt _ _); [discriminate|].
    cbn [bind dbGet dbQuery dbRun run] in Hinvest.
    unfold Db.insert_investment, Db.insert_transaction in Hinvest.
    cbn [fst snd run] in Hinvest.
    match type of Hinvest with
    | context [Db.select_user ?u ?x] => destruct (Db.select_user u x)
    end; [|discriminate].
    inversion Hinvest as [[Hd2 Hid]].
    eapply select_same_investment_snoc; try reflexivity. exact Hrefl.
  - intros e2. unfold paystack_webhook.
    destruct (event =? "charge.success")%string; reflexivity.
Qed.

(** The theorem applied to a payment of 200 by Alice for L1, delivered
    twice. *)
Lemma webhook_books_once_witness :
  let d1 := fst (run (paystack_webhook Example.e0 "charge.success" (Some (1, 1, 200%float)))
                     Example.db0) in
  length (Db.investments d1) = 1%nat
  /\ run (paystack_webhook Example.e0 "charge.success" (Some (1, 1, 200%float))) d1
     = (d1, tt).
Proof.
  cbn zeta. split; [reflexivity|].
  exact (proj1 (proj2 (proj2 (proj2 (webhook_books_once Example.e0 "charge.success" 1 1
                                       200%float Example.db0 eq_refl)))) Example.e0).
Defined.
